(** * PHI detector: the detection, merge, classification and redaction pipeline

    A shallow embedding of [src/patterns.py], [src/ner_detector.py],
    [src/phi_detector.py] and of the risk assessor of [src/chatbot.py],
    followed by the properties of the pipeline.

    Conventions of the embedding.
    - A Python [str] is a [string]; one [ascii] is one code point, read as
      the code points U+0000 to U+00FF.  Text with code points beyond U+00FF
      is outside the model.  The classes [\d], [\w], [\s] and [str.lower]
      are those of Python 3 on this range.
    - A Python [int] is a [Z]; a [float] literal such as [0.85] is the
      rational it denotes (no arithmetic is ever done on confidences).
    - A raised exception is the [Raise] branch of [result].
    - A detection dictionary, always built with the same six keys, is the
      record [Detection]. *)

From Stdlib Require Import List Bool Arith ZArith QArith Lia.
From Stdlib Require Import Ascii String.
From Stdlib Require Import Sorting.Permutation Sorting.Sorted.
Import ListNotations.

Open Scope string_scope.
Open Scope Z_scope.

(** ** Exceptions *)

Inductive exc_class := TypeError | ValueError | KeyError | OSError | OtherError.

Inductive exc := Exc (cls : exc_class) (msg : string).

Inductive result (A : Type) : Type :=
| Ok (a : A)
| Raise (e : exc).
Arguments Ok {A} a.
Arguments Raise {A} e.

Definition bind {A B} (m : result A) (f : A -> result B) : result B :=
  match m with
  | Ok a => f a
  | Raise e => Raise e
  end.

Notation "x <- m ;; k" := (bind m (fun x => k))
  (at level 61, m at next level, right associativity).

(** The body of a [for] loop that appends at most one item per round:
    [Ok (Some b)] appends [b], [Ok None] appends nothing, and [Raise]
    leaves the loop. *)
Fixpoint for_append {A B} (xs : list A) (body : A -> result (option B))
  : result (list B) :=
  match xs with
  | [] => Ok []
  | x :: xs' =>
      o <- body x ;;
      rest <- for_append xs' body ;;
      Ok (match o with Some b => b :: rest | None => rest end)
  end.

(** [all(f(x) for x in xs)], with the short cut of [all]. *)
Fixpoint py_all {A} (f : A -> result bool) (xs : list A) : result bool :=
  match xs with
  | [] => Ok true
  | x :: xs' => b <- f x ;; if b then py_all f xs' else Ok false
  end.

(** ** Characters *)

Definition code (c : ascii) : nat := nat_of_ascii c.

Definition between (lo hi : nat) (c : ascii) : bool :=
  ((lo <=? code c) && (code c <=? hi))%nat.

Definition is_0_9 (c : ascii) : bool := between 48 57 c.
Definition is_A_Z (c : ascii) : bool := between 65 90 c.
Definition is_a_z (c : ascii) : bool := between 97 122 c.

(** [\d] *)
Definition is_digit (c : ascii) : bool := is_0_9 c.

(** [\w] *)
Definition is_word (c : ascii) : bool :=
  is_0_9 c || is_A_Z c || is_a_z c || between 95 95 c
  || between 170 170 c || between 178 179 c || between 181 181 c
  || between 185 186 c || between 188 190 c || between 192 214 c
  || between 216 246 c || between 248 255 c.

(** [\s] *)
Definition is_space (c : ascii) : bool :=
  between 9 13 c || between 28 32 c || between 133 133 c
  || between 160 160 c.

Definition lower_char (c : ascii) : ascii :=
  if is_A_Z c || between 192 214 c || between 216 222 c
  then ascii_of_nat (code c + 32) else c.

(** [str.upper] of one character.  The German sharp s becomes [SS]; the
    micro sign and the y with diaeresis, whose capitals lie beyond U+00FF,
    are left as they are. *)
Definition upper_char (c : ascii) : string :=
  if is_a_z c || between 224 246 c || between 248 254 c
  then String (ascii_of_nat (code c - 32)) ""
  else if between 223 223 c then "SS"
  else String c "".

(** ** Strings *)

Definition len (s : string) : Z := Z.of_nat (String.length s).

Fixpoint take (n : nat) (s : string) : string :=
  match n, s with
  | S n', String c s' => String c (take n' s')
  | _, _ => ""
  end.

Fixpoint drop (n : nat) (s : string) : string :=
  match n, s with
  | S n', String _ s' => drop n' s'
  | _, _ => s
  end.

(** A slice bound as Python normalises it for a positive step. *)
Definition slice_index (n i : Z) : Z :=
  if i <? 0 then Z.max 0 (n + i) else Z.min i n.

(** [s[a:b]]; [None] is an omitted bound. *)
Definition slice (s : string) (a b : option Z) : string :=
  let n := len s in
  let lo := match a with Some i => slice_index n i | None => 0 end in
  let hi := match b with Some j => slice_index n j | None => n end in
  take (Z.to_nat (hi - lo)) (drop (Z.to_nat lo) s).

Fixpoint lower (s : string) : string :=
  match s with
  | "" => ""
  | String c s' => String (lower_char c) (lower s')
  end.

Fixpoint upper (s : string) : string :=
  match s with
  | "" => ""
  | String c s' => upper_char c ++ upper s'
  end.

(** [s.replace(old, new)] for a one-character [old]. *)
Fixpoint replace (old : ascii) (new : string) (s : string) : string :=
  match s with
  | "" => ""
  | String c s' =>
      (if Ascii.eqb c old then new else String c "") ++ replace old new s'
  end.

(** [sub in s] *)
Fixpoint contains (sub s : string) : bool :=
  prefix sub s ||
  match s with
  | "" => false
  | String _ s' => contains sub s'
  end.

(** [s.split(sep)] for a one-character [sep]. *)
Fixpoint split (sep : ascii) (s : string) : list string :=
  match s with
  | "" => [""]
  | String c s' =>
      if Ascii.eqb c sep then "" :: split sep s'
      else match split sep s' with
           | w :: ws => String c w :: ws
           | [] => [String c ""]
           end
  end.

(** [len(set(s))]: the number of distinct characters of [s]. *)
Definition distinct_chars (s : string) : nat :=
  List.length (nodup ascii_dec (list_ascii_of_string s)).

(** ** Dynamic values that reach the pipeline as [text] or as an argument
    of [str] *)

Inductive pyobj :=
| PyNone
| PyStr (s : string)
| PyInt (n : Z).

Fixpoint digits_of_pos (fuel : nat) (n : Z) (acc : string) : string :=
  match fuel with
  | O => acc
  | S fuel' =>
      let acc' := String (ascii_of_nat (48 + Z.to_nat (n mod 10))) acc in
      if n <? 10 then acc' else digits_of_pos fuel' (n / 10) acc'
  end.

(** The decimal numeral of an integer, as [str] prints it. *)
Definition str_of_int (n : Z) : string :=
  if n <? 0 then String "-" (digits_of_pos (S (Z.to_nat (- n))) (- n) "")
  else digits_of_pos (S (Z.to_nat n)) n "".

(** [str(x)] *)
Definition py_str (x : pyobj) : string :=
  match x with
  | PyNone => "None"
  | PyStr s => s
  | PyInt n => str_of_int n
  end.

(** [len(x)] *)
Definition py_len (x : pyobj) : result Z :=
  match x with
  | PyStr s => Ok (len s)
  | PyNone => Raise (Exc TypeError "object of type 'NoneType' has no len()")
  | PyInt _ => Raise (Exc TypeError "object of type 'int' has no len()")
  end.

(** [x[a:b]] *)
Definition py_slice (x : pyobj) (a b : Z) : result string :=
  match x with
  | PyStr s => Ok (slice s (Some a) (Some b))
  | PyNone => Raise (Exc TypeError "'NoneType' object is not subscriptable")
  | PyInt _ => Raise (Exc TypeError "'int' object is not subscriptable")
  end.

Fixpoint int_digits (acc : Z) (s : string) : option Z :=
  match s with
  | "" => Some acc
  | String c s' =>
      if is_0_9 c then int_digits (10 * acc + Z.of_nat (code c - 48)) s'
      else None
  end.

(** [int(s)] on the strings the pipeline passes to it: single characters
    and groups matched by [\d{1,3}].  A non-empty string of digits is its
    value; anything else raises [ValueError].  This is Python's [int] on
    single characters and on digit groups; on longer strings Python also
    accepts a sign, blanks around the numeral and underscores inside it,
    and no caller passes such a string. *)
Definition py_int (s : string) : result Z :=
  match s with
  | "" => Raise (Exc ValueError "invalid literal for int() with base 10")
  | _ => match int_digits 0 s with
         | Some n => Ok n
         | None => Raise (Exc ValueError "invalid literal for int() with base 10")
         end
  end.

(** ** Regular expressions

    The fragment of Python's [re] the eight patterns use: literals and
    classes, concatenation, ordered alternation, greedy repetition of a
    class and the word boundary.  Bounded repetitions are unfolded
    ([x?] is [x|], [x{3}] is [xxx], [x{1,3}] is [x(x(x)?)?]). *)

Inductive regex : Type :=
| Empty
| Class (p : ascii -> bool)
| Cat (r1 r2 : regex)
| Alt (r1 r2 : regex)
| Many (p : ascii -> bool)
| WordB.

Definition lit (c : ascii) : regex := Class (Ascii.eqb c).
Definition Opt (r : regex) : regex := Alt r Empty.

Fixpoint Rep (n : nat) (r : regex) : regex :=
  match n with
  | O => Empty
  | S n' => Cat r (Rep n' r)
  end.

(** [r{1,n+1}], greedy *)
Fixpoint UpTo (n : nat) (r : regex) : regex :=
  match n with
  | O => r
  | S n' => Cat r (Opt (UpTo n' r))
  end.

Fixpoint Seq (rs : list regex) : regex :=
  match rs with
  | [] => Empty
  | r :: rs' => Cat r (Seq rs')
  end.

Definition char_at (s : string) (i : nat) : option ascii := String.get i s.

Definition word_at (s : string) (i : nat) : bool :=
  match char_at s i with
  | Some c => is_word c
  | None => false
  end.

(** [\b] at offset [i]: exactly one of the two neighbours is a word
    character; beyond either end of the text there is none. *)
Definition boundary (s : string) (i : nat) : bool :=
  xorb (match i with O => false | S j => word_at s j end) (word_at s i).

(** The length of the longest prefix of [s] made of characters of [p]. *)
Fixpoint run (p : ascii -> bool) (s : string) : nat :=
  match s with
  | String c s' => if p c then S (run p s') else O
  | "" => O
  end.

(** Greedy repetition gives back one character at a time. *)
Fixpoint backoff (k : nat -> option nat) (i n : nat) : option nat :=
  match k (i + n)%nat with
  | Some e => Some e
  | None => match n with
            | O => None
            | S n' => backoff k i n'
            end
  end.

(** The backtracking matcher: [rmatch r s i k] matches [r] at offset [i] of
    [s] and hands the offset reached to the continuation [k]; the first
    success in the order of the engine is the answer. *)
Fixpoint rmatch (r : regex) (s : string) (i : nat)
    (k : nat -> option nat) : option nat :=
  match r with
  | Empty => k i
  | Class p =>
      match char_at s i with
      | Some c => if p c then k (S i) else None
      | None => None
      end
  | Cat r1 r2 => rmatch r1 s i (fun j => rmatch r2 s j k)
  | Alt r1 r2 =>
      match rmatch r1 s i k with
      | Some e => Some e
      | None => rmatch r2 s i k
      end
  | Many p => backoff k i (run p (drop i s))
  | WordB => if boundary s i then k i else None
  end.

(** The end of the match of [r] that starts at offset [i], if any. *)
Definition match_at (r : regex) (s : string) (i : nat) : option nat :=
  rmatch r s i Some.

(** A match object: [group()], [start()] and [end()]. *)
Record Match := { group : string; m_start : Z; m_end : Z }.

(** The scan of [finditer]: start offsets are tried from left to right,
    those before [resume] (inside the previous match) are skipped.  [n]
    counts the offsets still to try.  None of the eight patterns matches the
    empty string, so the rule for empty matches is never exercised. *)
Fixpoint scan (r : regex) (s : string) (n i resume : nat)
  : list (nat * nat) :=
  match n with
  | O => []
  | S n' =>
      if (i <? resume)%nat then scan r s n' (S i) resume
      else match match_at r s i with
           | Some e => (i, e) :: scan r s n' (S i) (Nat.max e (S i))
           | None => scan r s n' (S i) resume
           end
  end.

Definition mk_match (s : string) (se : nat * nat) : Match :=
  {| group := take (snd se - fst se) (drop (fst se) s);
     m_start := Z.of_nat (fst se);
     m_end := Z.of_nat (snd se) |}.

(** [pattern.finditer(text)] *)
Definition finditer (r : regex) (text : pyobj) : result (list Match) :=
  match text with
  | PyStr s => Ok (map (mk_match s) (scan r s (S (String.length s)) 0 0))
  | _ => Raise (Exc TypeError "expected string or bytes-like object")
  end.

(** ** The patterns of [Patterns.__init__] *)

Definition digit : regex := Class is_digit.
(** [[-\s]] *)
Definition is_dash_or_space (c : ascii) : bool :=
  Ascii.eqb c "-" || is_space c.
Definition sep : regex := Opt (Class is_dash_or_space).

(** [\b\d{3}[-\s]?\d{3}[-\s]?\d{3}\b] *)
Definition sin_pattern : regex :=
  Seq [WordB; Rep 3 digit; sep; Rep 3 digit; sep; Rep 3 digit; WordB].

(** [\b\d{10}\b] *)
Definition phn_pattern : regex := Seq [WordB; Rep 10 digit; WordB].

(** [(?:\(\d{3}\)\s+\d{3}[-]\d{4}|\b\d{3}[-]\d{3}[-]\d{4}|\b\d{3}[.]\d{3}[.]\d{4})\b] *)
Definition phone_pattern : regex :=
  Cat (Alt (Seq [lit "("; Rep 3 digit; lit ")"; Class is_space; Many is_space;
                 Rep 3 digit; lit "-"; Rep 4 digit])
        (Alt (Seq [WordB; Rep 3 digit; lit "-"; Rep 3 digit; lit "-"; Rep 4 digit])
             (Seq [WordB; Rep 3 digit; lit "."; Rep 3 digit; lit "."; Rep 4 digit])))
      WordB.

Definition is_alnum_ascii (c : ascii) : bool := is_A_Z c || is_a_z c || is_0_9 c.

(** [[A-Za-z0-9._%+-]] *)
Definition is_local (c : ascii) : bool :=
  is_alnum_ascii c || Ascii.eqb c "." || Ascii.eqb c "_" || Ascii.eqb c "%"
  || Ascii.eqb c "+" || Ascii.eqb c "-".

(** [[A-Za-z0-9.-]] *)
Definition is_domain (c : ascii) : bool :=
  is_alnum_ascii c || Ascii.eqb c "." || Ascii.eqb c "-".

(** [[A-Z|a-z]] *)
Definition is_tld (c : ascii) : bool := is_A_Z c || Ascii.eqb c "|" || is_a_z c.

(** [\b[A-Za-z0-9._%+-]+@[A-Za-z0-9.-]+\.[A-Z|a-z]{2,}\b] *)
Definition email_pattern : regex :=
  Seq [WordB; Class is_local; Many is_local; lit "@";
       Class is_domain; Many is_domain; lit ".";
       Class is_tld; Class is_tld; Many is_tld; WordB].

(** [\b\d{4}[-\s]?\d{4}[-\s]?\d{4}[-\s]?\d{4}\b] *)
Definition credit_card_pattern : regex :=
  Seq [WordB; Rep 4 digit; sep; Rep 4 digit; sep; Rep 4 digit; sep;
       Rep 4 digit; WordB].

(** [[A-Z]] under [re.IGNORECASE] *)
Definition is_letter (c : ascii) : bool := is_A_Z c || is_a_z c.
Definition letter : regex := Class is_letter.

(** [\b[A-Z]\d[A-Z]\s?\d[A-Z]\d\b], [re.IGNORECASE] *)
Definition postal_code_pattern : regex :=
  Seq [WordB; letter; digit; letter; Opt (Class is_space);
       digit; letter; digit; WordB].

(** [\b(?:\d{1,3}\.){3}\d{1,3}\b] *)
Definition ip_pattern : regex :=
  Seq [WordB; Rep 3 (Cat (UpTo 2 digit) (lit ".")); UpTo 2 digit; WordB].

(** [[-/]] *)
Definition is_dash_or_slash (c : ascii) : bool :=
  Ascii.eqb c "-" || Ascii.eqb c "/".
Definition dash_or_slash : regex := Class is_dash_or_slash.

(** [\b(?:\d{1,2}[-/]\d{1,2}[-/]\d{4}|\d{4}[-/]\d{1,2}[-/]\d{1,2})\b] *)
Definition date_pattern : regex :=
  Seq [WordB;
       Alt (Seq [UpTo 1 digit; dash_or_slash; UpTo 1 digit; dash_or_slash;
                 Rep 4 digit])
           (Seq [Rep 4 digit; dash_or_slash; UpTo 1 digit; dash_or_slash;
                 UpTo 1 digit]);
       WordB].

(** ** Detections *)

Record Detection := {
  type : string;
  value : string;
  start : Z;
  end_ : Z;
  confidence : Q;
  hipaa_identifier : string
}.

(** Stable sorts on the key [start]: [list.sort(key=...)] and
    [sorted(..., reverse=True)].  Elements with equal keys keep the order
    they had. *)
Fixpoint insert_asc (x : Detection) (l : list Detection) : list Detection :=
  match l with
  | [] => [x]
  | y :: l' => if start x <=? start y then x :: l else y :: insert_asc x l'
  end.

Definition sort_by_start (l : list Detection) : list Detection :=
  fold_right insert_asc [] l.

Fixpoint insert_desc (x : Detection) (l : list Detection) : list Detection :=
  match l with
  | [] => [x]
  | y :: l' => if start y <=? start x then x :: l else y :: insert_desc x l'
  end.

Definition sort_by_start_reverse (l : list Detection) : list Detection :=
  fold_right insert_desc [] l.

(** ** [patterns.py] *)

Module Patterns.

Definition detect_sin (text : pyobj) : result (list Detection) :=
  ms <- finditer sin_pattern text ;;
  for_append ms (fun m =>
    let clean_sin := replace " " "" (replace "-" "" (group m)) in
    if (1 <? distinct_chars clean_sin)%nat then
      Ok (Some {| type := "Social Insurance Number (SIN)";
                  value := group m;
                  start := m_start m;
                  end_ := m_end m;
                  confidence := 0.85;
                  hipaa_identifier := "National identification number" |})
    else Ok None).

Definition phn_keywords : list string :=
  ["phn"; "health number"; "care card"; "bc health"].

Definition detect_phn (text : pyobj) : result (list Detection) :=
  ms <- finditer phn_pattern text ;;
  for_append ms (fun m =>
    let start_ := Z.max 0 (m_start m - 20) in
    n <- py_len text ;;
    let stop := Z.min n (m_end m + 20) in
    window <- py_slice text start_ stop ;;
    let context := lower window in
    let confidence_ :=
      if existsb (fun keyword => contains keyword context) phn_keywords
      then 0.9%Q else 0.5%Q in
    Ok (Some {| type := "Personal Health Number (PHN)";
                value := group m;
                start := m_start m;
                end_ := m_end m;
                confidence := confidence_;
                hipaa_identifier := "Health plan beneficiary number" |})).

Definition detect_phone (text : pyobj) : result (list Detection) :=
  ms <- finditer phone_pattern text ;;
  for_append ms (fun m =>
    Ok (Some {| type := "Phone Number";
                value := group m;
                start := m_start m;
                end_ := m_end m;
                confidence := 0.8;
                hipaa_identifier := "Telephone number" |})).

Definition detect_email (text : pyobj) : result (list Detection) :=
  ms <- finditer email_pattern text ;;
  for_append ms (fun m =>
    Ok (Some {| type := "Email Address";
                value := group m;
                start := m_start m;
                end_ := m_end m;
                confidence := 0.95;
                hipaa_identifier := "Email address" |})).

(** [digits_of(n)]: [[int(d) for d in str(n)]] *)
Definition digits_of (n : pyobj) : result (list Z) :=
  for_append (list_ascii_of_string (py_str n)) (fun c =>
    v <- py_int (String c "") ;; Ok (Some v)).

(** [l[0::2]] *)
Fixpoint every_other (l : list Z) : list Z :=
  match l with
  | [] => []
  | x :: l' => x :: match l' with
                    | [] => []
                    | _ :: l'' => every_other l''
                    end
  end.

Definition sum (l : list Z) : Z := fold_left Z.add l 0.

(** The loop [for d in even_digits: checksum += sum(digits_of(d * 2))]. *)
Fixpoint add_doubled (checksum : Z) (even_digits : list Z) : result Z :=
  match even_digits with
  | [] => Ok checksum
  | d :: rest =>
      ds <- digits_of (PyInt (d * 2)) ;;
      add_doubled (checksum + sum ds) rest
  end.

Definition _luhn_check (card_number : string) : result bool :=
  digits <- digits_of (PyStr card_number) ;;
  let odd_digits := every_other (rev digits) in          (* digits[-1::-2] *)
  let even_digits := every_other (tl (rev digits)) in    (* digits[-2::-2] *)
  checksum <- add_doubled (sum odd_digits) even_digits ;;
  Ok (checksum mod 10 =? 0).

Definition detect_credit_card (text : pyobj) : result (list Detection) :=
  ms <- finditer credit_card_pattern text ;;
  for_append ms (fun m =>
    let clean_number := replace " " "" (replace "-" "" (group m)) in
    valid <- _luhn_check clean_number ;;
    if valid then
      Ok (Some {| type := "Credit Card Number";
                  value := group m;
                  start := m_start m;
                  end_ := m_end m;
                  confidence := 0.9;
                  hipaa_identifier := "Account number" |})
    else Ok None).

Definition detect_postal_code (text : pyobj) : result (list Detection) :=
  ms <- finditer postal_code_pattern text ;;
  for_append ms (fun m =>
    Ok (Some {| type := "Postal Code";
                value := group m;
                start := m_start m;
                end_ := m_end m;
                confidence := 0.85;
                hipaa_identifier := "Geographic subdivision (postal code)" |})).

Definition detect_ip (text : pyobj) : result (list Detection) :=
  ms <- finditer ip_pattern text ;;
  for_append ms (fun m =>
    let octets := split "." (group m) in
    ok <- py_all (fun octet => n <- py_int octet ;;
                               Ok ((0 <=? n) && (n <=? 255))) octets ;;
    if ok then
      Ok (Some {| type := "IP Address";
                  value := group m;
                  start := m_start m;
                  end_ := m_end m;
                  confidence := 0.9;
                  hipaa_identifier := "IP address" |})
    else Ok None).

Definition detect_date (text : pyobj) : result (list Detection) :=
  ms <- finditer date_pattern text ;;
  for_append ms (fun m =>
    Ok (Some {| type := "Date";
                value := group m;
                start := m_start m;
                end_ := m_end m;
                confidence := 0.7;
                hipaa_identifier := "Date element" |})).

Definition key_eqb (k1 k2 : Z * Z * string) : bool :=
  let '(s1, e1, t1) := k1 in
  let '(s2, e2, t2) := k2 in
  (s1 =? s2) && (e1 =? e2) && String.eqb t1 t2.

(** The loop that drops a result whose [(start, end, type)] was seen. *)
Fixpoint unique (seen : list (Z * Z * string)) (all_results : list Detection)
  : list Detection :=
  match all_results with
  | [] => []
  | r :: rest =>
      let key := (start r, end_ r, type r) in
      if existsb (key_eqb key) seen then unique seen rest
      else r :: unique (key :: seen) rest
  end.

Definition detect_all (text : pyobj) : result (list Detection) :=
  r1 <- detect_sin text ;;
  r2 <- detect_phn text ;;
  r3 <- detect_phone text ;;
  r4 <- detect_email text ;;
  r5 <- detect_credit_card text ;;
  r6 <- detect_postal_code text ;;
  r7 <- detect_ip text ;;
  r8 <- detect_date text ;;
  let all_results := (r1 ++ r2 ++ r3 ++ r4 ++ r5 ++ r6 ++ r7 ++ r8)%list in
  let unique_results := unique [] all_results in
  Ok (sort_by_start unique_results).

End Patterns.

(** ** [ner_detector.py] *)

Module NERDetector.

(** An entity of [doc.ents]. *)
Record Ent := { label_ : string; text : string; start_char : Z; end_char : Z }.

(** The loaded spaCy pipeline, an external collaborator: calling it on a
    text gives the entities of the document, or raises. *)
Definition Language : Type := pyobj -> result (list Ent).

Record t := { nlp : Language }.

(** [spacy_load] stands for [spacy.load]. *)
Definition __init__ (spacy_load : string -> result Language) : result t :=
  match spacy_load "en_core_web_sm" with
  | Ok pipeline => Ok {| nlp := pipeline |}
  | Raise (Exc OSError _) =>
      Raise (Exc OSError
        "spaCy model 'en_core_web_sm' not found. It should be installed via requirements.txt")
  | Raise e => Raise e
  end.

Fixpoint lookup (key : string) (dict : list (string * string)) : option string :=
  match dict with
  | [] => None
  | (k, v) :: rest => if String.eqb k key then Some v else lookup key rest
  end.

Definition entity_type_map : list (string * string) :=
  [("PERSON", "NAME"); ("GPE", "LOCATION"); ("LOC", "LOCATION");
   ("ORG", "ORGANIZATION"); ("DATE", "DATE")].

Definition hipaa_identifiers : list (string * string) :=
  [("PERSON", "#1 - Names"); ("DATE", "#7 - Dates");
   ("GPE", "#4 - Geographic subdivisions");
   ("LOC", "#4 - Geographic subdivisions");
   ("ORG", "Organization name (potential identifier)")].

Definition detect_entities (self : t) (text_ : pyobj) : result (list Detection) :=
  ents <- nlp self text_ ;;
  results <- for_append ents (fun ent =>
    match lookup (label_ ent) entity_type_map with
    | Some mapped =>
        match lookup (label_ ent) hipaa_identifiers with
        | Some identifier =>
            Ok (Some {| type := mapped;
                        value := text ent;
                        start := start_char ent;
                        end_ := end_char ent;
                        confidence := 0.85;
                        hipaa_identifier := identifier |})
        | None => Raise (Exc KeyError (label_ ent))
        end
    | None => Ok None
    end) ;;
  Ok (sort_by_start results).

End NERDetector.

(** ** [phi_detector.py] *)

Module PHIDetector.

Record t := { ner_detector : NERDetector.t }.

(** [Patterns()] holds the compiled patterns only and cannot fail;
    [NERDetector()] may raise. *)
Definition __init__ (spacy_load : string -> result NERDetector.Language)
  : result t :=
  ner <- NERDetector.__init__ spacy_load ;;
  Ok {| ner_detector := ner |}.

(** [not (ner_end <= pattern_start or ner_start >= pattern_end)] *)
Definition overlap (ner_start ner_end : Z) (pattern_item : Detection) : bool :=
  negb ((ner_end <=? start pattern_item) || (ner_start >=? end_ pattern_item)).

(** The inner loop: [overlaps] becomes true at the first overlapping
    pattern result, and the loop breaks. *)
Fixpoint overlaps_any (ner_start ner_end : Z)
    (pattern_results : list Detection) : bool :=
  match pattern_results with
  | [] => false
  | pattern_item :: rest =>
      if overlap ner_start ner_end pattern_item then true
      else overlaps_any ner_start ner_end rest
  end.

(** The outer loop, appending to [merged]. *)
Fixpoint add_ner (pattern_results merged ner_results : list Detection)
  : list Detection :=
  match ner_results with
  | [] => merged
  | ner_item :: rest =>
      let overlaps :=
        overlaps_any (start ner_item) (end_ ner_item) pattern_results in
      add_ner pattern_results
        (if negb overlaps then merged ++ [ner_item] else merged)%list rest
  end.

Definition _merge_detections (pattern_results ner_results : list Detection)
  : list Detection :=
  let merged := pattern_results in
  let merged := add_ner pattern_results merged ner_results in
  sort_by_start merged.

Definition high_risk_types : list string :=
  ["Social Insurance Number (SIN)"; "Credit Card Number"; "SSN";
   "CreditCard"; "Personal Health Number (PHN)"].

Definition mem (x : string) (set : list string) : bool :=
  existsb (String.eqb x) set.

(** The loop that returns at the first high-risk detection. *)
Fixpoint any_high_risk (detections : list Detection) : bool :=
  match detections with
  | [] => false
  | detection :: rest =>
      if mem (type detection) high_risk_types then true
      else any_high_risk rest
  end.

Definition _calculate_risk (detections : list Detection) : string :=
  match detections with
  | [] => "LOW"
  | _ =>
      if any_high_risk detections then "HIGH"
      else if (3 <=? List.length detections)%nat then "MEDIUM"
      else "LOW"
  end.

Definition placeholder (detection : Detection) : string :=
  let phi_type := replace " " "_" (upper (type detection)) in
  "[" ++ phi_type ++ "]".

(** One round of the loop:
    [redacted = redacted[:start] + placeholder + redacted[end:]] *)
Definition splice (redacted : string) (detection : Detection) : string :=
  slice redacted None (Some (start detection))
  ++ placeholder detection
  ++ slice redacted (Some (end_ detection)) None.

Definition _redact_text (text : string) (detections : list Detection) : string :=
  match detections with
  | [] => text
  | _ =>
      let sorted_detections := sort_by_start_reverse detections in
      fold_left splice sorted_detections text
  end.

Record AnalysisResult := {
  has_phi : bool;
  risk_level : string;
  detections : list Detection;
  redacted_text : string
}.

(** [text] is a [str] once [detect_all] has returned: [py_str] is then the
    text itself. *)
Definition analyze (self : t) (text : pyobj) : result AnalysisResult :=
  pattern_results <- Patterns.detect_all text ;;
  ner_results <- NERDetector.detect_entities (ner_detector self) text ;;
  let merged_detections := _merge_detections pattern_results ner_results in
  let risk_level_ := _calculate_risk merged_detections in
  let redacted_text_ := _redact_text (py_str text) merged_detections in
  Ok {| has_phi := (0 <? List.length merged_detections)%nat;
        risk_level := risk_level_;
        detections := merged_detections;
        redacted_text := redacted_text_ |}.

End PHIDetector.

(** ** [chatbot.py]: the risk assessor of the orchestration layer *)

Module ChatBot.

Definition critical_types : list string :=
  ["SSN"; "Social Insurance Number (SIN)"; "MEDICAL_RECORD_NUMBER";
   "HEALTH_PLAN_NUMBER"; "Personal Health Number (PHN)";
   "DIAGNOSIS_CODE"; "PRESCRIPTION"; "Credit Card Number"].

Definition high_risk_types : list string :=
  ["CREDIT_CARD"; "BANK_ACCOUNT"; "DATE_OF_BIRTH"; "BIOMETRIC";
   "FULL_FACE_PHOTO"].

Definition medium_risk_types : list string :=
  ["PERSON_NAME"; "NAME"; "Phone Number"; "PHONE_NUMBER"; "Email Address";
   "EMAIL"; "IP Address"; "IP_ADDRESS"; "VEHICLE_ID"; "Postal Code"].

(** [a & b] on sets of strings *)
Definition inter (a b : list string) : list string :=
  filter (fun x => PHIDetector.mem x b) a.

Definition nonempty (set : list string) : bool :=
  match set with [] => false | _ => true end.

(** The risk level returned when [return_reasoning] is false; the reasoning
    chain built on the way is dropped. *)
Definition _assess_risk_level (detections : list Detection) : string :=
  match detections with
  | [] => "LOW"
  | _ =>
      let detected_types := nodup string_dec (map type detections) in
      if nonempty (inter detected_types critical_types) then "CRITICAL"
      else if nonempty (inter detected_types high_risk_types) then "HIGH"
      else if nonempty (inter detected_types medium_risk_types) then
        if (5 <? List.length detections)%nat then "HIGH" else "MEDIUM"
      else "LOW"
  end.

End ChatBot.

(** ** Notions used by the properties *)

(** Ascending and descending order of [start]. *)
Definition le_start (a b : Detection) : Prop := start a <= start b.
Definition ge_start (a b : Detection) : Prop := start b <= start a.

(** The intersection test of the specification, on two detections. *)
Definition intersects (e g : Detection) : bool :=
  negb ((end_ e <=? start g) || (start e >=? end_ g)).

(** The entity detections the specification retains: those that intersect
    no grammar detection. *)
Definition retained (G E : list Detection) : list Detection :=
  filter (fun e => forallb (fun g => negb (intersects e g)) G) E.

(** Two spans that do not intersect. *)
Definition disjoint (a b : Detection) : Prop :=
  end_ a <= start b \/ end_ b <= start a.

(** No two elements at different places of the list intersect. *)
Definition pairwise_disjoint (l : list Detection) : Prop :=
  forall i j a b, i <> j ->
    nth_error l i = Some a -> nth_error l j = Some b -> disjoint a b.

(** A detector whose entity recognizer finds no entity in any text. *)
Definition quiet : PHIDetector.t :=
  {| PHIDetector.ner_detector := {| NERDetector.nlp := fun _ => Ok [] |} |}.

(** A detector whose entity recognizer reports the entities [ents] on every
    text. *)
Definition scripted (ents : list NERDetector.Ent) : PHIDetector.t :=
  {| PHIDetector.ner_detector := {| NERDetector.nlp := fun _ => Ok ents |} |}.

(** A detector whose entity recognizer raises [e] on every text. *)
Definition failing (e : exc) : PHIDetector.t :=
  {| PHIDetector.ner_detector := {| NERDetector.nlp := fun _ => Raise e |} |}.

(** The canonical type vocabulary of the specification. *)
Definition vocabulary : list string :=
  ["Social Insurance Number (SIN)"; "Personal Health Number (PHN)";
   "Phone Number"; "Email Address"; "Credit Card Number"; "Postal Code";
   "IP Address"; "Date"; "NAME"; "LOCATION"; "ORGANIZATION"; "DATE"].

(** The high-risk set of the specification: national ID number, payment
    card number, health plan number. *)
Definition spec_high_risk : list string :=
  ["Social Insurance Number (SIN)"; "Credit Card Number";
   "Personal Health Number (PHN)"].

(** The risk rules as the specification words them, first match wins. *)
Definition spec_risk (detections : list Detection) : string :=
  if (List.length detections =? 0)%nat then "LOW"
  else if existsb (fun x => PHIDetector.mem (type x) spec_high_risk) detections
       then "HIGH"
  else if (3 <=? List.length detections)%nat then "MEDIUM"
  else "LOW".

(** The only detection of the grammar matcher in [SIN: 123-456-789]. *)
Definition sin_example : Detection :=
  {| type := "Social Insurance Number (SIN)";
     value := "123-456-789";
     start := 5;
     end_ := 16;
     confidence := 0.85;
     hipaa_identifier := "National identification number" |}.

(** A string of decimal digits. *)
Definition digit_string (s : string) : bool :=
  forallb is_0_9 (list_ascii_of_string s).

Definition digit_value (c : ascii) : Z := Z.of_nat (code c - 48).

(** The Luhn check as the specification words it.  A doubled digit counts
    for the sum of the digits of its double when the double exceeds 9. *)
Definition luhn_doubled (x : Z) : Z :=
  let y := 2 * x in
  if 9 <? y then y / 10 + y mod 10 else y.

(** The total over the digits read from the right; [second] tells whether
    the digit at the head is a second one and so is doubled. *)
Fixpoint luhn_total (second : bool) (from_right : list Z) : Z :=
  match from_right with
  | [] => 0
  | x :: rest =>
      (if second then luhn_doubled x else x) + luhn_total (negb second) rest
  end.

Definition luhn_spec (s : string) : bool :=
  luhn_total false (rev (map digit_value (list_ascii_of_string s))) mod 10 =? 0.

(** The candidate with its dashes and spaces removed, as
    [detect_credit_card] passes it to the check. *)
Definition strip_separators (s : string) : string :=
  replace " " "" (replace "-" "" s).

(** A detection whose span lies inside the text and is not empty. *)
Definition valid_in (text : string) (x : Detection) : Prop :=
  0 <= start x /\ start x < end_ x /\ end_ x <= len text.

(** The redacted text as an ascending scan builds it: the stretch of the
    text from the cursor to the next span is copied, the placeholder of the
    span follows, and the cursor moves to the end of the span; after the
    last span the rest of the text is copied. *)
Fixpoint stitch (text : string) (cursor : Z) (asc : list Detection) : string :=
  match asc with
  | [] => slice text (Some cursor) None
  | x :: rest =>
      slice text (Some cursor) (Some (start x))
      ++ PHIDetector.placeholder x
      ++ stitch text (end_ x) rest
  end.

(** The same scan stopped at the offset [stop]. *)
Fixpoint stitch_upto (text : string) (cursor : Z) (asc : list Detection)
    (stop : Z) : string :=
  match asc with
  | [] => slice text (Some cursor) (Some stop)
  | x :: rest =>
      slice text (Some cursor) (Some (start x))
      ++ PHIDetector.placeholder x
      ++ stitch_upto text (end_ x) rest stop
  end.

(** [a] ends before [b] begins. *)
Definition left_of (a b : Detection) : Prop := end_ a <= start b.
Definition right_of (a b : Detection) : Prop := end_ b <= start a.

(** The [n] characters from offset [i] on exist and belong to the class. *)
Fixpoint all_at (p : ascii -> bool) (s : string) (i n : nat) : bool :=
  match n with
  | O => true
  | S n' =>
      match char_at s i with
      | Some c => p c
      | None => false
      end && all_at p s (S i) n'
  end.

(** A word-bounded run of exactly ten digits at offset [i]. *)
Definition ten_digit_run (s : string) (i : nat) : bool :=
  boundary s i && all_at is_digit s i 10 && boundary s (i + 10).

(** The context of a run at offset [i]: from 20 characters before it to 20
    characters after it, in lower case. *)
Definition phn_context (s : string) (i : nat) : string :=
  lower (slice s (Some (Z.max 0 (Z.of_nat i - 20)))
                 (Some (Z.min (len s) (Z.of_nat i + 10 + 20)))).

(** The keywords as the specification lists them. *)
Definition spec_phn_keywords : list string :=
  ["phn"; "health number"; "care card"; "health"].

Definition mentions (keywords : list string) (context : string) : bool :=
  existsb (fun keyword => contains keyword context) keywords.

(** The detection of the run at offset [i] of [s] with confidence [q]. *)
Definition phn_detection (s : string) (i : nat) (q : Q) : Detection :=
  {| type := "Personal Health Number (PHN)";
     value := take 10 (drop i s);
     start := Z.of_nat i;
     end_ := Z.of_nat i + 10;
     confidence := q;
     hipaa_identifier := "Health plan beneficiary number" |}.

(** The confidence the code gives to the run at offset [i]. *)
Definition phn_confidence (s : string) (i : nat) : Q :=
  if mentions Patterns.phn_keywords (phn_context s i) then 0.9 else 0.5.

(** The total of the doubled digits. *)
Definition doubled_sum (l : list Z) : Z :=
  fold_right (fun x acc => luhn_doubled x + acc) 0 l.

(** The detection [detect_phn] builds from a match object. *)
Definition phn_of_match (s : string) (m : Match) : Detection :=
  {| type := "Personal Health Number (PHN)";
     value := group m;
     start := m_start m;
     end_ := m_end m;
     confidence :=
       if mentions Patterns.phn_keywords
            (lower (slice s (Some (Z.max 0 (m_start m - 20)))
                            (Some (Z.min (len s) (m_end m + 20)))))
       then 0.9 else 0.5;
     hipaa_identifier := "Health plan beneficiary number" |}.

(** By how much a character at offset [i] of the text is moved by the
    redaction: each span that ends at [i] or before trades its length for
    the length of its placeholder. *)
Fixpoint shift (D : list Detection) (i : Z) : Z :=
  match D with
  | [] => 0
  | x :: rest =>
      (if end_ x <=? i
       then len (PHIDetector.placeholder x) - (end_ x - start x)
       else 0) + shift rest i
  end.

(** ** Notions used by the further properties *)

(** The least number of characters a match of [r] takes. *)
Fixpoint min_len (r : regex) : nat :=
  match r with
  | Empty => 0
  | Class _ => 1
  | Cat r1 r2 => min_len r1 + min_len r2
  | Alt r1 r2 => Nat.min (min_len r1) (min_len r2)
  | Many _ => 0
  | WordB => 0
  end.

(** A match object of a search in [s]: its offsets lie in the text, it
    takes [n] characters at least, and its group is the text between its
    offsets. *)
Definition match_in (n : nat) (s : string) (m : Match) : Prop :=
  0 <= m_start m /\ m_start m + Z.of_nat n <= m_end m /\ m_end m <= len s
  /\ group m = slice s (Some (m_start m)) (Some (m_end m)).

(** [a] ends where [b] starts or before, and starts before it. *)
Definition match_before (a b : Match) : Prop :=
  m_end a <= m_start b /\ m_start a < m_start b.

Definition before (a b : Detection) : Prop :=
  end_ a <= start b /\ start a < start b.

(** The detection [x] carries the span and the text of the match [m]. *)
Definition carries (m : Match) (x : Detection) : Prop :=
  value x = group m /\ start x = m_start m /\ end_ x = m_end m.

(** A detection whose value is the non-empty stretch of the text between
    its offsets. *)
Definition span_in (s : string) (x : Detection) : Prop :=
  valid_in s x /\ value x = slice s (Some (start x)) (Some (end_ x)).

(** The eight detectors of [Patterns], in the order [detect_all] runs
    them, each with the type it reports. *)
Definition detectors : list (string * (pyobj -> result (list Detection))) :=
  [("Social Insurance Number (SIN)", Patterns.detect_sin);
   ("Personal Health Number (PHN)", Patterns.detect_phn);
   ("Phone Number", Patterns.detect_phone);
   ("Email Address", Patterns.detect_email);
   ("Credit Card Number", Patterns.detect_credit_card);
   ("Postal Code", Patterns.detect_postal_code);
   ("IP Address", Patterns.detect_ip);
   ("Date", Patterns.detect_date)].

(** The key of the duplicate check of [detect_all]. *)
Definition key (x : Detection) : Z * Z * string := (start x, end_ x, type x).

(** The detector [f] reports the matches of the pattern [r] that pass its
    own check, each as a detection of type [T] that carries the match. *)
Definition reports (T : string) (r : regex)
    (f : pyobj -> result (list Detection)) : Prop :=
  forall s found,
    f (PyStr s) = Ok found ->
    exists ms body,
      finditer r (PyStr s) = Ok ms
      /\ for_append ms body = Ok found
      /\ forall m x, body m = Ok (Some x) -> type x = T /\ carries m x.

(** The strings a pattern matches, the word boundary read as the empty
    string. *)
Fixpoint lang (r : regex) (w : string) : Prop :=
  match r with
  | Empty => w = ""
  | Class p => exists c, w = String c "" /\ p c = true
  | Cat r1 r2 => exists u v, w = u ++ v /\ lang r1 u /\ lang r2 v
  | Alt r1 r2 => lang r1 w \/ lang r2 w
  | Many p => forallb p (list_ascii_of_string w) = true
  | WordB => w = ""
  end.

(** Every class of the pattern lies in [P]. *)
Fixpoint classes_in (P : ascii -> Prop) (r : regex) : Prop :=
  match r with
  | Empty | WordB => True
  | Class p | Many p => forall c, p c = true -> P c
  | Cat r1 r2 | Alt r1 r2 => classes_in P r1 /\ classes_in P r2
  end.

(** A group of one to three digits whose value is 255 at most. *)
Definition octet (o : string) : Prop :=
  digit_string o = true /\ (1 <= String.length o <= 3)%nat
  /\ exists n, py_int o = Ok n /\ 0 <= n <= 255.

(** A text whose only white space is the space character. *)
Definition plain_spaces (s : string) : Prop :=
  forall c, In c (list_ascii_of_string s) -> is_space c = true -> c = " "%char.

(** The exception of [int] on a string that is no numeral. *)
Definition not_a_number : exc :=
  Exc ValueError "invalid literal for int() with base 10".

(** The test [0 <= int(octet) <= 255] of [detect_ip]. *)
Definition octet_in_range (o : string) : result bool :=
  n <- py_int o ;; Ok ((0 <=? n) && (n <=? 255)).

(** The order of the risk levels: LOW below MEDIUM below HIGH. *)
Definition risk_rank (level : string) : nat :=
  if String.eqb level "HIGH" then 2
  else if String.eqb level "MEDIUM" then 1
  else 0.

(** The types [detect_entities] maps the labels of the pipeline to. *)
Definition entity_types : list string :=
  ["NAME"; "LOCATION"; "ORGANIZATION"; "DATE"].

(** Every string of the pattern holds a character of [P]. *)
Fixpoint must_have (P : ascii -> Prop) (r : regex) : Prop :=
  match r with
  | Class p => forall c, p c = true -> P c
  | Cat r1 r2 => must_have P r1 \/ must_have P r2
  | Alt r1 r2 => must_have P r1 /\ must_have P r2
  | Empty | Many _ | WordB => False
  end.

(** A digit or the at sign. *)
Definition digit_or_at (c : ascii) : Prop :=
  is_digit c = true \/ c = "@"%char.

(** The line break. *)
Definition newline : ascii := ascii_of_nat 10.

(** [sep.join(lines)] *)
Fixpoint join (sep : string) (lines : list string) : string :=
  match lines with
  | [] => ""
  | [line] => line
  | line :: rest => line ++ sep ++ join sep rest
  end.

(** ** [chatbot.py]: the detections as lines of a prompt *)

Module ChatBotPrompt.

(** The line [f"- {det['type']}: {det['value']}"]. *)
Definition prompt_line (det : Detection) : string :=
  "- " ++ type det ++ ": " ++ value det.

Definition _format_detections_for_prompt (detections : list Detection)
  : string :=
  match detections with
  | [] => "No PII detected"
  | _ => join (String newline "") (map prompt_line detections)
  end.

End ChatBotPrompt.

(** ** [chain_of_thought.py]: the reasoning chain *)

Module ReasoningChain.

Record ReasoningStep := {
  step_num : Z;
  description : string;
  findings : list string;
  conclusion : string
}.

Record t := {
  title : string;
  steps : list ReasoningStep;
  final_conclusion : option string;
  confidence : option string
}.

Definition __init__ (title_ : string) : t :=
  {| title := title_; steps := []; final_conclusion := None;
     confidence := None |}.

(** [add_step] appends to the steps of the chain and returns the chain. *)
Definition add_step (self : t) (description_ : string)
    (findings_ : list string) (conclusion_ : string) : t :=
  let step := {| step_num := Z.of_nat (List.length (steps self)) + 1;
                 description := description_;
                 findings := findings_;
                 conclusion := conclusion_ |} in
  {| title := title self;
     steps := (steps self ++ [step])%list;
     final_conclusion := final_conclusion self;
     confidence := confidence self |}.

Definition set_conclusion (self : t) (conclusion_ : string)
    (confidence_ : option string) : t :=
  {| title := title self;
     steps := steps self;
     final_conclusion := Some conclusion_;
     confidence := confidence_ |}.

End ReasoningChain.

(** A run of calls of [add_step], one for each triple of a description,
    findings and a conclusion. *)
Definition add_steps (chain : ReasoningChain.t)
    (args : list (string * list string * string)) : ReasoningChain.t :=
  fold_left
    (fun c a => ReasoningChain.add_step c (fst (fst a)) (snd (fst a)) (snd a))
    args chain.

(** The steps with the given contents, numbered from [k + 1] on. *)
Fixpoint number_from (k : nat) (args : list (string * list string * string))
  : list ReasoningChain.ReasoningStep :=
  match args with
  | [] => []
  | (d, f, c) :: rest =>
      {| ReasoningChain.step_num := Z.of_nat k + 1;
         ReasoningChain.description := d;
         ReasoningChain.findings := f;
         ReasoningChain.conclusion := c |} :: number_from (S k) rest
  end.

(** * Properties *)

Import PHIDetector.

(** ** The error monad and the loops *)

Lemma bind_ok {A B} (m : result A) (f : A -> result B) (b : B) :
  bind m f = Ok b -> exists a, m = Ok a /\ f a = Ok b.
Proof.
  destruct m as [a|e]; simpl; intros H; [eauto | discriminate].
Qed.

Ltac lia_split :=
  repeat match goal with
         | H : _ /\ _ |- _ => destruct H
         end;
  repeat split; try assumption; try lia.

Ltac bind_inv H :=
  let a := fresh "v" in
  let Ha := fresh "Hv" in
  apply bind_ok in H; destruct H as (a & Ha & H).

(** An item of the list a loop returns was appended by the body on some
    element of the list it ran over. *)
Lemma for_append_in {A B} (xs : list A) (body : A -> result (option B))
    (out : list B) (b : B) :
  for_append xs body = Ok out -> In b out ->
  exists x, In x xs /\ body x = Ok (Some b).
Proof.
  revert out; induction xs as [|x xs IH]; simpl; intros out H Hin.
  - inversion H; subst; contradiction.
  - bind_inv H. bind_inv H. inversion H; subst; clear H.
    destruct v as [b'|].
    + destruct Hin as [->|Hin]; [exists x; auto|].
      destruct (IH _ Hv0 Hin) as (y & Hy & Hb); eauto.
    + destruct (IH _ Hv0 Hin) as (y & Hy & Hb); eauto.
Qed.

(** A loop whose body never raises and always appends is a [map]. *)
Lemma for_append_map {A B} (xs : list A) (body : A -> result (option B))
    (f : A -> B) :
  (forall x, In x xs -> body x = Ok (Some (f x))) ->
  for_append xs body = Ok (map f xs).
Proof.
  induction xs as [|x xs IH]; simpl; intros H; [reflexivity|].
  rewrite (H x) by auto. simpl. rewrite IH by auto. reflexivity.
Qed.

(** ** Sorting by [start] *)

Lemma insert_asc_perm (x : Detection) (l : list Detection) :
  Permutation (insert_asc x l) (x :: l).
Proof.
  induction l as [|y l IH]; simpl; [reflexivity|].
  destruct (start x <=? start y); [reflexivity|].
  rewrite IH. apply perm_swap.
Qed.

Lemma sort_by_start_perm (l : list Detection) :
  Permutation (sort_by_start l) l.
Proof.
  induction l as [|x l IH]; simpl; [constructor|].
  rewrite insert_asc_perm. now constructor.
Qed.

Lemma insert_asc_sorted (x : Detection) (l : list Detection) :
  StronglySorted le_start l -> StronglySorted le_start (insert_asc x l).
Proof.
  induction 1 as [|y l Hs IH Hy]; simpl.
  - repeat constructor.
  - destruct (start x <=? start y) eqn:E.
    + apply Z.leb_le in E. constructor; [now constructor|].
      constructor; [exact E|].
      eapply Forall_impl; [|exact Hy]. unfold le_start; intros; lia.
    + apply Z.leb_gt in E. constructor; [exact IH|].
      eapply Permutation_Forall; [symmetry; apply insert_asc_perm|].
      constructor; [unfold le_start; lia | exact Hy].
Qed.

Lemma sort_by_start_sorted (l : list Detection) :
  StronglySorted le_start (sort_by_start l).
Proof.
  induction l as [|x l IH]; simpl; [constructor|].
  now apply insert_asc_sorted.
Qed.

Lemma insert_desc_perm (x : Detection) (l : list Detection) :
  Permutation (insert_desc x l) (x :: l).
Proof.
  induction l as [|y l IH]; simpl; [reflexivity|].
  destruct (start y <=? start x); [reflexivity|].
  rewrite IH. apply perm_swap.
Qed.

Lemma sort_by_start_reverse_perm (l : list Detection) :
  Permutation (sort_by_start_reverse l) l.
Proof.
  induction l as [|x l IH]; simpl; [constructor|].
  rewrite insert_desc_perm. now constructor.
Qed.

Lemma insert_desc_sorted (x : Detection) (l : list Detection) :
  StronglySorted ge_start l -> StronglySorted ge_start (insert_desc x l).
Proof.
  induction 1 as [|y l Hs IH Hy]; simpl.
  - repeat constructor.
  - destruct (start y <=? start x) eqn:E.
    + apply Z.leb_le in E. constructor; [now constructor|].
      constructor; [exact E|].
      eapply Forall_impl; [|exact Hy]. unfold ge_start; intros; lia.
    + apply Z.leb_gt in E. constructor; [exact IH|].
      eapply Permutation_Forall; [symmetry; apply insert_desc_perm|].
      constructor; [unfold ge_start; lia | exact Hy].
Qed.

Lemma sort_by_start_reverse_sorted (l : list Detection) :
  StronglySorted ge_start (sort_by_start_reverse l).
Proof.
  induction l as [|x l IH]; simpl; [constructor|].
  now apply insert_desc_sorted.
Qed.

(** ** The merge *)

Lemma overlaps_any_spec (e : Detection) (G : list Detection) :
  negb (overlaps_any (start e) (end_ e) G)
  = forallb (fun g => negb (intersects e g)) G.
Proof.
  induction G as [|g G IH]; simpl; [reflexivity|].
  unfold overlap, intersects in *.
  destruct ((end_ e <=? start g) || (start e >=? end_ g)); simpl; auto.
Qed.

Lemma add_ner_spec (G merged E : list Detection) :
  add_ner G merged E = (merged ++ retained G E)%list.
Proof.
  revert merged; induction E as [|e E IH]; simpl; intros merged.
  - now rewrite app_nil_r.
  - rewrite IH. unfold retained at 2. simpl.
    rewrite <- overlaps_any_spec.
    destruct (negb (overlaps_any (start e) (end_ e) G)); simpl.
    + now rewrite <- app_assoc.
    + reflexivity.
Qed.

Lemma merge_unfold (G E : list Detection) :
  _merge_detections G E = sort_by_start (G ++ retained G E).
Proof.
  unfold _merge_detections. now rewrite add_ner_spec.
Qed.

Lemma retained_spec (G E : list Detection) (e : Detection) :
  In e (retained G E) <->
  In e E /\ forall g, In g G -> end_ e <= start g \/ start e >= end_ g.
Proof.
  unfold retained. rewrite filter_In, forallb_forall.
  split; intros [HE H]; (split; [exact HE|]); intros g Hg;
    specialize (H g Hg); unfold intersects in *.
  - rewrite negb_involutive in H. apply orb_true_iff in H.
    destruct H as [H|H]; [left; now apply Z.leb_le | right].
    apply Z.geb_le in H. lia.
  - rewrite negb_involutive. apply orb_true_iff.
    destruct (Z.leb_spec (end_ e) (start g)); [now left|right].
    apply Z.geb_le. lia.
Qed.

Lemma merge_perm_sorted (G E : list Detection) :
  Permutation (_merge_detections G E) (G ++ retained G E)
  /\ StronglySorted le_start (_merge_detections G E).
Proof.
  rewrite merge_unfold. split;
    [apply sort_by_start_perm | apply sort_by_start_sorted].
Qed.

(** C1.  The merge returns every grammar detection and exactly those entity
    detections whose span intersects no grammar detection's span, sorted
    ascending by [start]; detections with the same [start] stay in the
    order grammar first, then input order. *)
Theorem C1_merge_retains_and_sorts (G E : list Detection) :
  _merge_detections G E = sort_by_start (G ++ retained G E)
  /\ Permutation (_merge_detections G E) (G ++ retained G E)
  /\ StronglySorted le_start (_merge_detections G E)
  /\ (forall e, In e (retained G E) <->
        In e E /\ forall g, In g G ->
          end_ e <= start g \/ start e >= end_ g).
Proof.
  split; [apply merge_unfold|].
  split; [apply merge_perm_sorted|].
  split; [apply merge_perm_sorted|].
  intros e. apply retained_spec.
Qed.

Lemma C1_merge_retains_and_sorts_witness :
  let phone := {| type := "Phone Number"; value := "604-555-1234";
                  start := 10; end_ := 22; confidence := 0.8;
                  hipaa_identifier := "Telephone number" |} in
  let date := {| type := "DATE"; value := "555-1234 t";
                 start := 14; end_ := 24; confidence := 0.85;
                 hipaa_identifier := "#7 - Dates" |} in
  let name := {| type := "NAME"; value := "Ann";
                 start := 2; end_ := 5; confidence := 0.85;
                 hipaa_identifier := "#1 - Names" |} in
  In name (retained [phone] [date; name])
  /\ ~ In date (retained [phone] [date; name])
  /\ _merge_detections [phone] [date; name] = [name; phone].
Proof.
  intros phone date name.
  destruct (C1_merge_retains_and_sorts [phone] [date; name])
    as (Heq & _ & _ & Hret).
  split; [|split].
  - apply Hret. split; [right; left; reflexivity|].
    intros g [<-|[]]. simpl. lia.
  - intros H. apply Hret in H. destruct H as [_ H].
    specialize (H phone (or_introl eq_refl)). simpl in H. lia.
  - rewrite Heq. reflexivity.
Defined.




(** ** The risk classifier *)

Lemma any_high_risk_existsb (ds : list Detection) :
  any_high_risk ds = existsb (fun x => mem (type x) high_risk_types) ds.
Proof.
  induction ds as [|x ds IH]; simpl; [reflexivity|].
  rewrite IH. now destruct (mem (type x) high_risk_types).
Qed.

(** On the canonical vocabulary the high-risk set of the code and that of
    the specification have the same members. *)
Lemma high_risk_on_vocabulary (t : string) :
  In t vocabulary -> mem t high_risk_types = mem t spec_high_risk.
Proof.
  unfold vocabulary. simpl.
  intros H. repeat (destruct H as [<-|H]; [reflexivity|]). contradiction.
Qed.

Lemma existsb_ext_in {A} (f g : A -> bool) (l : list A) :
  (forall x, In x l -> f x = g x) -> existsb f l = existsb g l.
Proof.
  induction l as [|x l IH]; simpl; intros H; [reflexivity|].
  rewrite H by now left. rewrite IH; [reflexivity|].
  intros; apply H; now right.
Qed.

(** C3.  On detections whose types belong to the canonical vocabulary the
    classifier follows the rules of the specification in order: no detection
    gives LOW; a national ID, payment card or health plan number gives
    HIGH; otherwise three detections or more give MEDIUM; otherwise LOW. *)
Theorem C3_risk_rules (ds : list Detection) :
  (forall x, In x ds -> In (type x) vocabulary) ->
  _calculate_risk ds = spec_risk ds.
Proof.
  intros Hv. unfold _calculate_risk, spec_risk.
  destruct ds as [|x ds]; [reflexivity|].
  rewrite any_high_risk_existsb.
  rewrite (existsb_ext_in _ (fun y => mem (type y) spec_high_risk)).
  - reflexivity.
  - intros y Hy. apply high_risk_on_vocabulary. now apply Hv.
Qed.

Lemma C3_risk_rules_witness :
  let mk t := {| type := t; value := "v"; start := 0; end_ := 1;
                 confidence := 0.85; hipaa_identifier := "h" |} in
  let ds := [mk "NAME"; mk "Date"; mk "Postal Code"] in
  (forall x, In x ds -> In (type x) vocabulary)
  /\ _calculate_risk ds = spec_risk ds
  /\ spec_risk ds = "MEDIUM".
Proof.
  intros mk ds.
  assert (Hv : forall x, In x ds -> In (type x) vocabulary).
  { simpl. intros x H.
    repeat (destruct H as [<-|H]; [simpl; tauto|]). contradiction. }
  split; [exact Hv|].
  split; [exact (C3_risk_rules ds Hv) | reflexivity].
Defined.

Lemma calculate_risk_cases (ds : list Detection) :
  _calculate_risk ds = "LOW" \/ _calculate_risk ds = "MEDIUM"
  \/ _calculate_risk ds = "HIGH".
Proof.
  unfold _calculate_risk. destruct ds as [|x ds]; [now left|].
  destruct (any_high_risk (x :: ds)); [now right; right|].
  destruct (3 <=? List.length (x :: ds))%nat; [right|]; now left.
Qed.

(** C10.  The classifier of the core returns LOW, MEDIUM or HIGH on every
    list of detections, never CRITICAL, and so does every result of
    [analyze]; the assessor of the chat layer does return CRITICAL. *)
Theorem C10_three_tiers_in_core :
  (forall ds, _calculate_risk ds = "LOW" \/ _calculate_risk ds = "MEDIUM"
              \/ _calculate_risk ds = "HIGH")
  /\ (forall ds, _calculate_risk ds <> "CRITICAL")
  /\ (forall self text,
        match analyze self text with
        | Ok r => risk_level r = "LOW" \/ risk_level r = "MEDIUM"
                  \/ risk_level r = "HIGH"
        | Raise _ => True
        end)
  /\ (exists ds, ChatBot._assess_risk_level ds = "CRITICAL"
                 /\ _calculate_risk ds = "HIGH").
Proof.
  split; [exact calculate_risk_cases|].
  split.
  { intros ds H. destruct (calculate_risk_cases ds) as [E|[E|E]];
      rewrite E in H; discriminate. }
  split.
  { intros self text. unfold analyze.
    destruct (Patterns.detect_all text); simpl; [|exact I].
    destruct (NERDetector.detect_entities (ner_detector self) text); simpl;
      [|exact I].
    apply calculate_risk_cases. }
  exists [ {| type := "Social Insurance Number (SIN)"; value := "123-456-789";
              start := 5; end_ := 16; confidence := 0.85;
              hipaa_identifier := "National identification number" |} ].
  split; reflexivity.
Qed.

(** ** The facade *)

(** C5, as stated, fails: when the recognizer raises during detection,
    [analyze] raises the same exception and returns no result, although the
    grammar matcher finds a national ID number in the text; and when the
    model cannot be loaded, no detector is built at all. *)
Lemma C5_counterexample :
  let e := Exc OtherError "recognizer failed" in
  Patterns.detect_sin (PyStr "SIN: 123-456-789") <> Ok []
  /\ analyze (failing e) (PyStr "SIN: 123-456-789") = Raise e
  /\ ~ (exists r, analyze (failing e) (PyStr "SIN: 123-456-789") = Ok r)
  /\ ~ (exists self,
          PHIDetector.__init__
            (fun _ => Raise (Exc OSError "[E050] Can't find model"))
          = Ok self).
Proof.
  intros e. split; [vm_compute; discriminate|].
  split; [vm_compute; reflexivity|].
  split; intros [x H]; vm_compute in H; discriminate.
Qed.

(** C5, amended.  A failure of the recognizer is not absorbed: if the model
    fails to load, building the detector raises, an [OSError] being raised
    again as an [OSError]; and if the recognizer raises during detection on
    a text the grammar matcher accepts, [analyze] raises that exception. *)
Theorem C5_recognizer_failure_propagates :
  (forall spacy_load e,
      spacy_load "en_core_web_sm" = Raise e ->
      exists e', PHIDetector.__init__ spacy_load = Raise e'
                 /\ (forall m, e = Exc OSError m ->
                       exists m', e' = Exc OSError m'))
  /\ (forall self text G e,
        Patterns.detect_all text = Ok G ->
        NERDetector.nlp (ner_detector self) text = Raise e ->
        analyze self text = Raise e).
Proof.
  split.
  - intros spacy_load e H.
    unfold PHIDetector.__init__, NERDetector.__init__. rewrite H.
    destruct e as [[] msg]; simpl; eexists; (split; [reflexivity|]);
      intros m Hm; try discriminate; eauto.
  - intros self text G e HG HN. unfold analyze. rewrite HG. simpl.
    unfold NERDetector.detect_entities. rewrite HN. reflexivity.
Qed.

Lemma C5_recognizer_failure_propagates_witness :
  (exists e', PHIDetector.__init__
                (fun _ => Raise (Exc OSError "[E050] Can't find model"))
              = Raise e')
  /\ analyze (failing (Exc ValueError "bad input")) (PyStr "a@b.ca")
     = Raise (Exc ValueError "bad input").
Proof.
  destruct C5_recognizer_failure_propagates as [Hinit Hrun]. split.
  - destruct (Hinit (fun _ => Raise (Exc OSError "[E050] Can't find model"))
                _ eq_refl) as (e' & He & _).
    exists e'. exact He.
  - apply (Hrun (failing (Exc ValueError "bad input")) (PyStr "a@b.ca")
             [ {| type := "Email Address"; value := "a@b.ca";
                  start := 0; end_ := 6; confidence := 0.95;
                  hipaa_identifier := "Email address" |} ]);
      reflexivity.
Defined.

Lemma sort_keeps_high_risk (l : list Detection) :
  any_high_risk (sort_by_start l) = any_high_risk l.
Proof.
  rewrite (any_high_risk_existsb l), (any_high_risk_existsb (sort_by_start l)).
  apply eq_true_iff_eq. rewrite !existsb_exists.
  split; intros [x [Hx H]]; exists x; (split; [|exact H]).
  - eapply Permutation_in; [apply sort_by_start_perm | exact Hx].
  - eapply Permutation_in; [symmetry; apply sort_by_start_perm | exact Hx].
Qed.

(** ** The national ID scenarios *)

Lemma filter_perm {A} (p : A -> bool) (l l' : list A) :
  Permutation l l' -> Permutation (filter p l) (filter p l').
Proof.
  induction 1; cbn [filter].
  - constructor.
  - destruct (p x); [constructor|]; assumption.
  - destruct (p x), (p y);
      first [apply perm_swap | apply Permutation_refl].
  - etransitivity; eassumption.
Qed.

Lemma filter_none {A} (p : A -> bool) (l : list A) :
  (forall x, In x l -> p x = false) -> filter p l = [].
Proof.
  induction l as [|x l IH]; intros H; cbn [filter]; [reflexivity|].
  rewrite (H x) by now left. apply IH. intros y Hy. apply H. now right.
Qed.

(** No detection of the entity recognizer has the type of a national ID
    number: the mapped types are NAME, LOCATION, ORGANIZATION and DATE. *)
Lemma entities_not_sin (ner : NERDetector.t) (text : pyobj)
    (N : list Detection) (d : Detection) :
  NERDetector.detect_entities ner text = Ok N -> In d N ->
  String.eqb (type d) "Social Insurance Number (SIN)" = false.
Proof.
  unfold NERDetector.detect_entities. intros H Hd.
  bind_inv H. bind_inv H. injection H as <-.
  eapply Permutation_in in Hd; [|apply sort_by_start_perm].
  destruct (for_append_in _ _ _ _ Hv0 Hd) as (ent & _ & Hb).
  cbv beta in Hb. revert Hb.
  unfold NERDetector.entity_type_map, NERDetector.hipaa_identifiers.
  cbn [NERDetector.lookup].
  destruct (String.eqb "PERSON" (NERDetector.label_ ent)),
    (String.eqb "GPE" (NERDetector.label_ ent)),
    (String.eqb "LOC" (NERDetector.label_ ent)),
    (String.eqb "ORG" (NERDetector.label_ ent)),
    (String.eqb "DATE" (NERDetector.label_ ent));
    intros Hb; try discriminate Hb; injection Hb as <-; reflexivity.
Qed.

(** What [detect_sin] reports passed its test: once dashes and spaces are
    removed, the candidate has at least two distinct characters. *)
Lemma detect_sin_passed (text : pyobj) (found : list Detection)
    (d : Detection) :
  Patterns.detect_sin text = Ok found -> In d found ->
  type d = "Social Insurance Number (SIN)"
  /\ confidence d = 0.85%Q
  /\ (1 < distinct_chars (replace " " "" (replace "-" "" (value d))))%nat.
Proof.
  unfold Patterns.detect_sin. intros H Hd. bind_inv H.
  destruct (for_append_in _ _ _ _ H Hd) as (m & _ & Hb).
  cbv zeta in Hb.
  destruct (1 <? distinct_chars _)%nat eqn:E; [|discriminate Hb].
  injection Hb as <-. cbn [type confidence value].
  split; [reflexivity|]. split; [reflexivity|]. now apply Nat.ltb_lt.
Qed.

(** One digit written nine times, in three groups of three with a dash, a
    space or nothing between the groups, is no national ID number. *)
Lemma detect_sin_one_digit (c : ascii) (s1 s2 g : string) :
  is_digit c = true -> g = String c (String c (String c "")) ->
  In s1 ["-"; " "; ""] -> In s2 ["-"; " "; ""] ->
  Patterns.detect_sin (PyStr (g ++ s1 ++ g ++ s2 ++ g)) = Ok [].
Proof.
  intros Hc -> H1 H2.
  destruct c as [b0 b1 b2 b3 b4 b5 b6 b7].
  destruct b0, b1, b2, b3, b4, b5, b6, b7; try discriminate Hc;
    cbn [In] in H1, H2;
    destruct H1 as [<-|[<-|[<-|[]]]]; destruct H2 as [<-|[<-|[<-|[]]]];
    vm_compute; reflexivity.
Qed.

(** C8, as stated, fails: it puts no condition on the entity
    recognizer, and [analyze] always merges its detections with those of
    the grammar matcher.  When the recognizer tags the word [SIN] on
    [0, 3) as an organisation, a span that does not intersect [5, 16),
    [analyze] returns two detections on [SIN: 123-456-789], not one. *)
Lemma C8_counterexample :
  exists r,
    analyze (scripted [ {| NERDetector.label_ := "ORG";
                           NERDetector.text := "SIN";
                           NERDetector.start_char := 0;
                           NERDetector.end_char := 3 |} ])
            (PyStr "SIN: 123-456-789") = Ok r
    /\ detections r
       = [ {| type := "ORGANIZATION"; value := "SIN"; start := 0; end_ := 3;
              confidence := 0.85;
              hipaa_identifier := "Organization name (potential identifier)" |};
           sin_example ]
    /\ List.length (detections r) = 2%nat
    /\ redacted_text r
       = "[ORGANIZATION]: [SOCIAL_INSURANCE_NUMBER_(SIN)]".
Proof.
  eexists. split; [vm_compute; reflexivity|].
  split; [reflexivity|]. split; reflexivity.
Qed.

(** C8, amended.  On [SIN: 123-456-789] the grammar matcher finds exactly
    one detection, the national ID number [123-456-789] on [5, 16) with
    confidence 0.85, and [analyze] returns exactly that detection when the
    recognizer reports no entity.  Whatever the recognizer reports, when it
    returns so does [analyze], with risk HIGH and with the detections made
    of that one and of the recognizer's detections whose span does not
    intersect [5, 16), in ascending order of [start]: among them exactly
    one has the type of a national ID number, and the list has one element
    if and only if every detection of the recognizer intersects [5, 16).
    On [111-111-111], and on every one digit written nine times in three
    groups with a dash, a space or nothing between them, the national ID
    detector finds nothing; what it reports on any text has at least two
    distinct characters once dashes and spaces are removed. *)
Theorem C8_sin_scenarios :
  Patterns.detect_all (PyStr "SIN: 123-456-789") = Ok [sin_example]
  /\ analyze quiet (PyStr "SIN: 123-456-789")
     = Ok {| has_phi := true;
             risk_level := "HIGH";
             detections := [sin_example];
             redacted_text := "SIN: [SOCIAL_INSURANCE_NUMBER_(SIN)]" |}
  /\ (forall self N,
        NERDetector.detect_entities (ner_detector self)
          (PyStr "SIN: 123-456-789") = Ok N ->
        exists r,
          analyze self (PyStr "SIN: 123-456-789") = Ok r
          /\ risk_level r = "HIGH"
          /\ has_phi r = true
          /\ detections r
             = sort_by_start (sin_example :: retained [sin_example] N)
          /\ filter (fun d => String.eqb (type d)
                                "Social Insurance Number (SIN)")
               (detections r) = [sin_example]
          /\ (forall d, In d (detections r) <->
                d = sin_example
                \/ (In d N /\ (end_ d <= 5 \/ 16 <= start d)))
          /\ (List.length (detections r) = 1%nat <->
                forall d, In d N -> 5 < end_ d /\ start d < 16))
  /\ Patterns.detect_sin (PyStr "111-111-111") = Ok []
  /\ (forall c s1 s2 g,
        is_digit c = true -> g = String c (String c (String c "")) ->
        In s1 ["-"; " "; ""] -> In s2 ["-"; " "; ""] ->
        Patterns.detect_sin (PyStr (g ++ s1 ++ g ++ s2 ++ g)) = Ok [])
  /\ (forall text found d,
        Patterns.detect_sin text = Ok found -> In d found ->
        type d = "Social Insurance Number (SIN)"
        /\ confidence d = 0.85%Q
        /\ (1 < distinct_chars
                  (replace " " "" (replace "-" "" (value d))))%nat).
Proof.
  assert (HG : Patterns.detect_all (PyStr "SIN: 123-456-789")
               = Ok [sin_example]) by (vm_compute; reflexivity).
  split; [exact HG|].
  split; [vm_compute; reflexivity|].
  split; [|split; [vm_compute; reflexivity|
           split; [exact detect_sin_one_digit | exact detect_sin_passed]]].
  intros self N HN. unfold analyze. rewrite HG, HN. cbn [bind].
  eexists. split; [reflexivity|].
  cbn [risk_level has_phi detections]. rewrite merge_unfold. cbn [app].
  pose proof (sort_by_start_perm (sin_example :: retained [sin_example] N))
    as Hperm.
  assert (Hret : forall d, In d (retained [sin_example] N) <->
                   In d N /\ (end_ d <= 5 \/ 16 <= start d)).
  { intros d. rewrite retained_spec. split; intros [Hd H]; (split; [exact Hd|]).
    - specialize (H sin_example (or_introl eq_refl)).
      cbn [sin_example start end_] in H. lia.
    - intros g [<-|[]]. cbn [sin_example start end_]. lia. }
  split; [|split; [|split; [reflexivity|split; [|split]]]].
  - unfold _calculate_risk.
    destruct (sort_by_start _) eqn:E.
    + apply Permutation_nil in Hperm. discriminate Hperm.
    + rewrite <- E, sort_keeps_high_risk. reflexivity.
  - rewrite (Permutation_length Hperm). reflexivity.
  - apply Permutation_length_1_inv. symmetry.
    etransitivity; [apply filter_perm, Hperm|].
    cbn [filter sin_example type]. cbn [String.eqb Ascii.eqb Bool.eqb].
    rewrite filter_none; [apply Permutation_refl|].
    intros x Hx. apply Hret in Hx. exact (entities_not_sin _ _ _ _ HN (proj1 Hx)).
  - intros d. rewrite <- Hret. split; intros H.
    + apply (Permutation_in _ Hperm) in H. destruct H as [<-|H]; auto.
    + apply (Permutation_in _ (Permutation_sym Hperm)).
      destruct H as [->|H]; [now left | now right].
  - rewrite (Permutation_length Hperm). cbn [List.length]. split; intros H.
    + intros d Hd.
      destruct (Z_lt_le_dec 5 (end_ d)) as [H5|H5];
        [destruct (Z_lt_le_dec (start d) 16) as [H16|H16]; [lia|]|].
      * assert (Hin : In d (retained [sin_example] N))
          by (apply Hret; auto).
        destruct (retained [sin_example] N); [contradiction|discriminate H].
      * assert (Hin : In d (retained [sin_example] N))
          by (apply Hret; auto).
        destruct (retained [sin_example] N); [contradiction|discriminate H].
    + destruct (retained [sin_example] N) as [|d l] eqn:E; [reflexivity|].
      destruct (proj1 (Hret d) (or_introl eq_refl)) as [Hd Hout].
      specialize (H d Hd). lia.
Qed.

Lemma C8_sin_scenarios_witness :
  exists r,
    analyze (scripted [ {| NERDetector.label_ := "PERSON";
                           NERDetector.text := "SIN";
                           NERDetector.start_char := 0;
                           NERDetector.end_char := 3 |};
                        {| NERDetector.label_ := "DATE";
                           NERDetector.text := "123-456";
                           NERDetector.start_char := 5;
                           NERDetector.end_char := 12 |} ])
            (PyStr "SIN: 123-456-789") = Ok r
    /\ risk_level r = "HIGH"
    /\ detections r
       = [ {| type := "NAME"; value := "SIN"; start := 0; end_ := 3;
              confidence := 0.85; hipaa_identifier := "#1 - Names" |};
           sin_example ].
Proof.
  destruct C8_sin_scenarios as (_ & _ & H & _).
  destruct (H (scripted [ {| NERDetector.label_ := "PERSON";
                             NERDetector.text := "SIN";
                             NERDetector.start_char := 0;
                             NERDetector.end_char := 3 |};
                          {| NERDetector.label_ := "DATE";
                             NERDetector.text := "123-456";
                             NERDetector.start_char := 5;
                             NERDetector.end_char := 12 |} ])
              _ eq_refl) as (r & Hr & Hrisk & _ & Hd & _).
  exists r. split; [exact Hr|]. split; [exact Hrisk|].
  rewrite Hd. reflexivity.
Defined.

(** The separators of a national ID candidate may be any white space, and
    only dashes and spaces are removed before the test on distinct
    characters: with tabs between the groups the tab counts as a second
    character, and one digit written nine times is reported. *)
Remark detect_sin_tab :
  let tab := String (ascii_of_nat 9) "" in
  Patterns.detect_sin (PyStr ("111" ++ tab ++ "111" ++ tab ++ "111"))
  = Ok [ {| type := "Social Insurance Number (SIN)";
            value := "111" ++ tab ++ "111" ++ tab ++ "111";
            start := 0; end_ := 11; confidence := 0.85;
            hipaa_identifier := "National identification number" |} ].
Proof.
  vm_compute. reflexivity.
Qed.

(** C9, as stated, fails on a null text: the first pattern search raises
    [TypeError], and [analyze] returns no result. *)
Lemma C9_counterexample :
  analyze quiet PyNone
  = Raise (Exc TypeError "expected string or bytes-like object")
  /\ ~ (exists r, analyze quiet PyNone = Ok r).
Proof.
  split; [reflexivity|]. intros [r H]. discriminate H.
Qed.

(** C9, amended.  A result of [analyze] reports findings exactly when its
    list of detections is not empty.  On a text in which the grammar matcher
    recognises nothing, the empty text among them, and for which the
    recognizer reports no span, the result has no findings, no detection,
    risk LOW and the text itself as redacted text.  On a null text
    [analyze] raises [TypeError]. *)
Theorem C9_no_findings :
  (forall self text r,
      analyze self text = Ok r ->
      (has_phi r = true <-> detections r <> []))
  /\ (forall self s,
        Patterns.detect_all (PyStr s) = Ok [] ->
        NERDetector.detect_entities (ner_detector self) (PyStr s) = Ok [] ->
        analyze self (PyStr s)
        = Ok {| has_phi := false; risk_level := "LOW";
                detections := []; redacted_text := s |})
  /\ Patterns.detect_all (PyStr "") = Ok []
  /\ (forall self,
        NERDetector.detect_entities (ner_detector self) (PyStr "") = Ok [] ->
        analyze self (PyStr "")
        = Ok {| has_phi := false; risk_level := "LOW";
                detections := []; redacted_text := "" |})
  /\ (forall self,
        analyze self PyNone
        = Raise (Exc TypeError "expected string or bytes-like object")).
Proof.
  assert (Hquiet : forall self s,
            Patterns.detect_all (PyStr s) = Ok [] ->
            NERDetector.detect_entities (ner_detector self) (PyStr s) = Ok [] ->
            analyze self (PyStr s)
            = Ok {| has_phi := false; risk_level := "LOW";
                    detections := []; redacted_text := s |}).
  { intros self s HG HN. unfold analyze. rewrite HG. simpl.
    rewrite HN. reflexivity. }
  split.
  { intros self text r H. unfold analyze in H. bind_inv H. bind_inv H.
    inversion H; subst; clear H. simpl.
    destruct (_merge_detections v v0); simpl.
    - split; [discriminate | congruence].
    - split; [discriminate | reflexivity]. }
  split; [exact Hquiet|].
  split; [reflexivity|].
  split; [|reflexivity].
  intros self HN. apply Hquiet; [reflexivity | exact HN].
Qed.

Lemma C9_no_findings_witness :
  let s := "This is a normal sentence without any sensitive data" in
  (has_phi {| has_phi := false; risk_level := "LOW";
              detections := []; redacted_text := s |} = true
   <-> @nil Detection <> [])
  /\ analyze quiet (PyStr s)
     = Ok {| has_phi := false; risk_level := "LOW";
             detections := []; redacted_text := s |}
  /\ analyze quiet (PyStr "")
     = Ok {| has_phi := false; risk_level := "LOW";
             detections := []; redacted_text := "" |}.
Proof.
  intros s. destruct C9_no_findings as (Hiff & Hnone & _ & Hempty & _).
  assert (Hs : analyze quiet (PyStr s)
               = Ok {| has_phi := false; risk_level := "LOW";
                       detections := []; redacted_text := s |}).
  { apply Hnone; vm_compute; reflexivity. }
  split; [exact (Hiff quiet (PyStr s) _ Hs)|].
  split; [exact Hs|].
  apply Hempty. reflexivity.
Defined.

(** ** The Luhn check *)

Lemma py_int_digit (c : ascii) :
  is_0_9 c = true -> py_int (String c "") = Ok (digit_value c).
Proof.
  intros H. unfold py_int. simpl. rewrite H. reflexivity.
Qed.

Lemma py_int_char_ok (c : ascii) (v : Z) :
  py_int (String c "") = Ok v -> is_0_9 c = true.
Proof.
  unfold py_int. simpl. destruct (is_0_9 c); [reflexivity | discriminate].
Qed.

Lemma digits_of_digit_string (s : string) :
  digit_string s = true ->
  Patterns.digits_of (PyStr s)
  = Ok (map digit_value (list_ascii_of_string s)).
Proof.
  unfold digit_string, Patterns.digits_of, py_str. intros H.
  apply for_append_map. intros c Hc. cbv beta.
  rewrite forallb_forall in H. rewrite (py_int_digit c (H c Hc)). reflexivity.
Qed.

Lemma digits_of_ok (s : string) (l : list Z) :
  Patterns.digits_of (PyStr s) = Ok l -> digit_string s = true.
Proof.
  unfold digit_string, Patterns.digits_of, py_str.
  generalize (list_ascii_of_string s). intros cs. revert l.
  induction cs as [|c cs IH]; cbn [for_append forallb]; intros l H;
    [reflexivity|].
  bind_inv H. bind_inv Hv. bind_inv H.
  apply py_int_char_ok in Hv0. rewrite Hv0. simpl. eauto.
Qed.

Lemma digit_value_range (c : ascii) :
  is_0_9 c = true -> 0 <= digit_value c <= 9.
Proof.
  unfold is_0_9, between, digit_value. intros H.
  apply andb_true_iff in H. destruct H as [H1 H2].
  apply Nat.leb_le in H1, H2. lia.
Qed.

(** The digits of the double of a digit add up as the specification says. *)
Lemma digits_of_double (x : Z) :
  0 <= x <= 9 ->
  exists l, Patterns.digits_of (PyInt (x * 2)) = Ok l
            /\ Patterns.sum l = luhn_doubled x.
Proof.
  intros H.
  assert (E : x = 0 \/ x = 1 \/ x = 2 \/ x = 3 \/ x = 4 \/ x = 5 \/ x = 6
              \/ x = 7 \/ x = 8 \/ x = 9) by lia.
  repeat (destruct E as [->|E]; [eexists; split; vm_compute; reflexivity|]).
  subst. eexists; split; vm_compute; reflexivity.
Qed.

Lemma add_doubled_spec (l : list Z) (checksum : Z) :
  Forall (fun x => 0 <= x <= 9) l ->
  Patterns.add_doubled checksum l = Ok (checksum + doubled_sum l).
Proof.
  intros H. revert checksum.
  induction H as [|x l Hx Hl IH]; intros checksum; simpl.
  - f_equal. lia.
  - destruct (digits_of_double x Hx) as (ds_ & -> & Hs). simpl.
    rewrite IH, Hs. f_equal. lia.
Qed.

Lemma sum_from (l : list Z) (a : Z) : fold_left Z.add l a = a + Patterns.sum l.
Proof.
  unfold Patterns.sum. revert a.
  induction l as [|x l IH]; intros a; simpl; [lia|].
  rewrite (IH (a + x)), (IH x). lia.
Qed.

Lemma sum_cons (x : Z) (l : list Z) : Patterns.sum (x :: l) = x + Patterns.sum l.
Proof.
  unfold Patterns.sum at 1. simpl. apply sum_from.
Qed.

Lemma every_other_cons (x : Z) (l : list Z) :
  Patterns.every_other (x :: l) = x :: Patterns.every_other (tl l).
Proof.
  destruct l; reflexivity.
Qed.

(** Splitting the digits into the untouched and the doubled ones, as the
    code does, gives the total of the specification. *)
Lemma luhn_total_split (l : list Z) :
  luhn_total false l
  = Patterns.sum (Patterns.every_other l)
    + doubled_sum (Patterns.every_other (tl l))
  /\ luhn_total true l
     = doubled_sum (Patterns.every_other l)
       + Patterns.sum (Patterns.every_other (tl l)).
Proof.
  induction l as [|x l [IH1 IH2]].
  - split; reflexivity.
  - rewrite every_other_cons. cbn [tl luhn_total negb].
    rewrite sum_cons. cbn [doubled_sum fold_right].
    fold (doubled_sum (Patterns.every_other (tl l))).
    rewrite IH1, IH2. split; lia.
Qed.

Lemma every_other_Forall (P : Z -> Prop) (l : list Z) :
  Forall P l ->
  Forall P (Patterns.every_other l)
  /\ Forall P (Patterns.every_other (tl l)).
Proof.
  induction 1 as [|x l Hx Hl [IH1 IH2]].
  - split; constructor.
  - rewrite every_other_cons. split; [now constructor | exact IH1].
Qed.

Lemma luhn_check_digit_string (s : string) :
  digit_string s = true -> Patterns._luhn_check s = Ok (luhn_spec s).
Proof.
  intros H. unfold Patterns._luhn_check, luhn_spec.
  rewrite (digits_of_digit_string s H). cbn [bind].
  set (l := rev (map digit_value (list_ascii_of_string s))).
  assert (Hl : Forall (fun x => 0 <= x <= 9) l).
  { apply Forall_rev, Forall_forall. intros x Hx.
    apply in_map_iff in Hx. destruct Hx as (c & <- & Hc).
    apply digit_value_range. unfold digit_string in H.
    rewrite forallb_forall in H. now apply H. }
  rewrite add_doubled_spec by apply (every_other_Forall _ l Hl).
  cbn [bind]. now rewrite (proj1 (luhn_total_split l)).
Qed.

Lemma luhn_check_ok (s : string) (b : bool) :
  Patterns._luhn_check s = Ok b -> digit_string s = true.
Proof.
  unfold Patterns._luhn_check. intros H. bind_inv H.
  eapply digits_of_ok; eassumption.
Qed.

(** C7.  On every string of digits the check of the code is the Luhn check
    of the specification; it accepts [4532015112830366] and
    [0000000000000000] and rejects [1234567890123456]; and every detection
    of [detect_credit_card] is a candidate that, with its dashes and spaces
    removed, passes the check. *)
Theorem C7_luhn :
  (forall s, digit_string s = true ->
             Patterns._luhn_check s = Ok (luhn_spec s))
  /\ Patterns._luhn_check "4532015112830366" = Ok true
  /\ Patterns._luhn_check "1234567890123456" = Ok false
  /\ Patterns._luhn_check "0000000000000000" = Ok true
  /\ (forall text found x,
        Patterns.detect_credit_card text = Ok found -> In x found ->
        type x = "Credit Card Number"
        /\ Patterns._luhn_check (strip_separators (value x)) = Ok true
        /\ luhn_spec (strip_separators (value x)) = true).
Proof.
  split; [exact luhn_check_digit_string|].
  do 3 (split; [vm_compute; reflexivity|]).
  intros text found x H Hx. unfold Patterns.detect_credit_card in H.
  bind_inv H.
  destruct (for_append_in _ _ _ _ H Hx) as (m & _ & Hm).
  cbv beta in Hm. bind_inv Hm.
  fold (strip_separators (group m)) in Hv0.
  destruct v0; inversion Hm; subst; clear Hm. cbn [type value].
  split; [reflexivity|]. split; [exact Hv0|].
  pose proof (luhn_check_ok _ _ Hv0) as Hd.
  rewrite (luhn_check_digit_string _ Hd) in Hv0. now inversion Hv0.
Qed.

Lemma C7_luhn_witness :
  Patterns._luhn_check "79927398713" = Ok (luhn_spec "79927398713")
  /\ luhn_spec "79927398713" = true
  /\ (exists x, Patterns.detect_credit_card (PyStr "Card: 4532-0151-1283-0366")
                = Ok [x]
                /\ Patterns._luhn_check (strip_separators (value x)) = Ok true).
Proof.
  destruct C7_luhn as (Hspec & _ & _ & _ & Hcard).
  split; [apply Hspec; reflexivity|].
  split; [reflexivity|].
  eexists. split; [vm_compute; reflexivity|].
  eapply (Hcard (PyStr "Card: 4532-0151-1283-0366")).
  - vm_compute. reflexivity.
  - left. reflexivity.
Defined.

(** ** Strings and slices *)

Lemma length_append (a b : string) :
  String.length (a ++ b) = (String.length a + String.length b)%nat.
Proof.
  induction a as [|c a IH]; simpl; [reflexivity | now rewrite IH].
Qed.

Lemma append_assoc (a b c : string) : (a ++ b) ++ c = a ++ (b ++ c).
Proof.
  induction a as [|x a IH]; simpl; [reflexivity | now rewrite IH].
Qed.

Lemma append_empty_r (a : string) : a ++ "" = a.
Proof.
  induction a as [|x a IH]; simpl; [reflexivity | now rewrite IH].
Qed.

Lemma take_0 (s : string) : take 0 s = "".
Proof. destruct s; reflexivity. Qed.

Lemma take_all (n : nat) (s : string) :
  (String.length s <= n)%nat -> take n s = s.
Proof.
  revert n; induction s as [|c s IH]; intros [|n] H; simpl in *;
    try reflexivity; try lia.
  rewrite IH by lia. reflexivity.
Qed.

Lemma drop_all (n : nat) (s : string) :
  (String.length s <= n)%nat -> drop n s = "".
Proof.
  revert n; induction s as [|c s IH]; intros [|n] H; simpl in *;
    try reflexivity; try lia.
  apply IH. lia.
Qed.

Lemma take_drop (n : nat) (s : string) : take n s ++ drop n s = s.
Proof.
  revert s; induction n as [|n IH]; intros [|c s]; simpl; try reflexivity.
  now rewrite IH.
Qed.

Lemma length_take (n : nat) (s : string) :
  String.length (take n s) = Nat.min n (String.length s).
Proof.
  revert s; induction n as [|n IH]; intros [|c s]; simpl; try reflexivity.
  now rewrite IH.
Qed.

Lemma length_drop (n : nat) (s : string) :
  String.length (drop n s) = (String.length s - n)%nat.
Proof.
  revert s; induction n as [|n IH]; intros [|c s]; simpl; try reflexivity.
  apply IH.
Qed.

Lemma take_append_le (n : nat) (a b : string) :
  (n <= String.length a)%nat -> take n (a ++ b) = take n a.
Proof.
  revert a; induction n as [|n IH]; intros a H; [now rewrite !take_0|].
  destruct a as [|c a]; simpl in *; [lia|].
  rewrite IH by lia. reflexivity.
Qed.

Lemma drop_append_le (n : nat) (a b : string) :
  (n <= String.length a)%nat -> drop n (a ++ b) = drop n a ++ b.
Proof.
  revert a; induction n as [|n IH]; intros [|c a] H; simpl in *;
    try reflexivity; try lia.
  apply IH. lia.
Qed.

Lemma take_take (n m : nat) (s : string) :
  (n <= m)%nat -> take n (take m s) = take n s.
Proof.
  revert m s; induction n as [|n IH]; intros [|m] [|c s] H; simpl;
    try reflexivity; try lia.
  rewrite IH by lia. reflexivity.
Qed.

Lemma drop_take (n m : nat) (s : string) :
  drop n (take m s) = take (m - n) (drop n s).
Proof.
  revert m s; induction n as [|n IH]; intros m s.
  - rewrite Nat.sub_0_r. now destruct m, s.
  - destruct m as [|m], s as [|c s]; simpl; try reflexivity;
      try (now rewrite ?take_0); try apply IH.
    now destruct (m - n)%nat.
Qed.

Lemma slice_index_id (n i : Z) : 0 <= i <= n -> slice_index n i = i.
Proof.
  intros H. unfold slice_index.
  destruct (Z.ltb_spec i 0); lia.
Qed.

Lemma len_nonneg (s : string) : 0 <= len s.
Proof. unfold len. lia. Qed.

(** Inside the bounds a slice is a [take] of a [drop]. *)
Lemma slice_inside (s : string) (a b : Z) :
  0 <= a <= len s -> 0 <= b <= len s ->
  slice s (Some a) (Some b)
  = take (Z.to_nat b - Z.to_nat a) (drop (Z.to_nat a) s).
Proof.
  intros Ha Hb. unfold slice.
  rewrite !slice_index_id by assumption.
  f_equal. lia.
Qed.

Lemma slice_to (s : string) (b : Z) :
  0 <= b <= len s -> slice s None (Some b) = take (Z.to_nat b) s.
Proof.
  intros Hb. unfold slice. rewrite slice_index_id by assumption.
  rewrite Z.sub_0_r. reflexivity.
Qed.

Lemma slice_from (s : string) (a : Z) :
  0 <= a <= len s -> slice s (Some a) None = drop (Z.to_nat a) s.
Proof.
  intros Ha. unfold slice. rewrite slice_index_id by assumption.
  apply take_all. rewrite length_drop. unfold len in *. lia.
Qed.

Lemma slice_from_upto (s : string) (a : Z) :
  0 <= a <= len s -> slice s (Some a) None = slice s (Some a) (Some (len s)).
Proof.
  intros Ha. unfold slice. rewrite (slice_index_id (len s) (len s)); [reflexivity|].
  pose proof (len_nonneg s). lia.
Qed.

(** ** Redaction *)

Lemma stitch_upto_snoc (text : string) (x : Detection) (stop : Z)
    (asc : list Detection) (cursor : Z) :
  stitch_upto text cursor (asc ++ [x]) stop
  = stitch_upto text cursor asc (start x)
    ++ placeholder x ++ slice text (Some (end_ x)) (Some stop).
Proof.
  revert cursor; induction asc as [|y asc IH]; intros cursor;
    cbn [stitch_upto List.app].
  - reflexivity.
  - rewrite IH, !append_assoc. reflexivity.
Qed.

Lemma stitch_upto_len (text : string) (asc : list Detection) (cursor : Z) :
  stitch_upto text cursor asc (len text) = stitch text cursor asc.
Proof.
  revert cursor; induction asc as [|y asc IH]; intros cursor;
    cbn [stitch_upto stitch].
  - unfold slice. rewrite (slice_index_id (len text) (len text)); [reflexivity|].
    pose proof (len_nonneg text). lia.
  - now rewrite IH.
Qed.

(** One splice on a buffer whose first [c] characters are still those of
    the text, for a span that ends at [c] or before. *)
Lemma splice_buffer (text tail : string) (c : Z) (x : Detection) :
  0 <= start x -> start x <= end_ x -> end_ x <= c -> c <= len text ->
  splice (slice text None (Some c) ++ tail) x
  = slice text None (Some (start x))
    ++ (placeholder x ++ slice text (Some (end_ x)) (Some c) ++ tail).
Proof.
  intros H0 H1 H2 H3. unfold splice.
  rewrite (slice_to text c) by lia.
  set (buf := take (Z.to_nat c) text ++ tail).
  assert (Hlen : String.length (take (Z.to_nat c) text) = Z.to_nat c).
  { rewrite length_take. unfold len in H3. lia. }
  assert (Hbuf : len buf = c + len tail).
  { unfold len, buf. rewrite length_append, Hlen. lia. }
  pose proof (len_nonneg tail) as Ht.
  rewrite (slice_to buf (start x)) by lia.
  rewrite (slice_from buf (end_ x)) by lia.
  rewrite (slice_to text (start x)) by lia.
  rewrite (slice_inside text (end_ x) c) by lia.
  unfold buf.
  rewrite take_append_le by lia.
  rewrite take_take by lia.
  rewrite drop_append_le by lia.
  rewrite drop_take. reflexivity.
Qed.

Lemma fold_splice (text : string) (desc : list Detection) :
  StronglySorted right_of desc ->
  forall (c : Z) (tail : string),
    c <= len text ->
    Forall (fun x => 0 <= start x /\ start x < end_ x /\ end_ x <= c) desc ->
    fold_left splice desc (slice text None (Some c) ++ tail)
    = stitch_upto text 0 (rev desc) c ++ tail.
Proof.
  induction 1 as [|x desc Hs IH Hx]; intros c tail Hc Hv;
    cbn [fold_left rev stitch_upto].
  - unfold slice. rewrite (slice_index_id (len text) 0); [reflexivity|].
    pose proof (len_nonneg text). lia.
  - inversion Hv as [|? ? (H0 & H1 & H2) Hv']; subst.
    rewrite splice_buffer by lia.
    rewrite IH.
    + rewrite stitch_upto_snoc, !append_assoc. reflexivity.
    + lia.
    + rewrite Forall_forall in *. intros y Hy.
      specialize (Hv' y Hy). specialize (Hx y Hy). unfold right_of in Hx. lia.
Qed.

(** Disjointness of the pairs of a list, whatever their order. *)
Lemma pairwise_disjoint_ordered (l : list Detection) :
  pairwise_disjoint l -> ForallOrdPairs disjoint l.
Proof.
  induction l as [|x l IH]; intros H; constructor.
  - apply Forall_forall. intros y Hy.
    apply In_nth_error in Hy. destruct Hy as [j Hj].
    apply (H 0%nat (S j)); [discriminate | reflexivity | exact Hj].
  - apply IH. intros i j a b Hij Ha Hb.
    apply (H (S i) (S j)); [congruence | exact Ha | exact Hb].
Qed.

Lemma disjoint_sym (a b : Detection) : disjoint a b -> disjoint b a.
Proof. unfold disjoint. tauto. Qed.

Lemma ordered_pairs_perm (l l' : list Detection) :
  Permutation l l' ->
  ForallOrdPairs disjoint l -> ForallOrdPairs disjoint l'.
Proof.
  induction 1 as [|x l l' Hp IH|x y l|l l' l'' H1 IH1 H2 IH2]; intros H.
  - constructor.
  - inversion H; subst. constructor; [|now apply IH].
    eapply Permutation_Forall; eassumption.
  - inversion H as [|? ? Hy H']; subst. inversion H' as [|? ? Hx H'']; subst.
    inversion Hy as [|? ? Hyx Hyl]; subst.
    constructor; [constructor; [now apply disjoint_sym | exact Hx]|].
    constructor; assumption.
  - auto.
Qed.

Lemma descending_chain (text : string) (l : list Detection) :
  StronglySorted ge_start l -> ForallOrdPairs disjoint l ->
  Forall (valid_in text) l -> StronglySorted right_of l.
Proof.
  induction 1 as [|x l Hs IH Hx]; intros Hd Hv; constructor;
    inversion Hd; inversion Hv; subst.
  - now apply IH.
  - rewrite Forall_forall in *. intros y Hy.
    match goal with
    | H1 : forall z, In z l -> disjoint x z,
      H2 : forall z, In z l -> valid_in text z,
      H3 : valid_in text x |- _ =>
        specialize (H1 y Hy); specialize (H2 y Hy);
        specialize (Hx y Hy);
        unfold disjoint, valid_in, ge_start, right_of in *; lia
    end.
Qed.

Lemma ascending_chain (text : string) (l : list Detection) :
  StronglySorted le_start l -> ForallOrdPairs disjoint l ->
  Forall (valid_in text) l -> StronglySorted left_of l.
Proof.
  induction 1 as [|x l Hs IH Hx]; intros Hd Hv; constructor;
    inversion Hd; inversion Hv; subst.
  - now apply IH.
  - rewrite Forall_forall in *. intros y Hy.
    match goal with
    | H1 : forall z, In z l -> disjoint x z,
      H2 : forall z, In z l -> valid_in text z,
      H3 : valid_in text x |- _ =>
        specialize (H1 y Hy); specialize (H2 y Hy);
        specialize (Hx y Hy);
        unfold disjoint, valid_in, le_start, left_of in *; lia
    end.
Qed.

Lemma sorted_snoc (R : Detection -> Detection -> Prop)
    (l : list Detection) (x : Detection) :
  StronglySorted R l -> Forall (fun a => R a x) l ->
  StronglySorted R (l ++ [x]).
Proof.
  induction 1 as [|y l Hs IH Hy]; intros H; simpl.
  - repeat constructor.
  - inversion H; subst. constructor; [now apply IH|].
    apply Forall_app. split; [exact Hy | now constructor].
Qed.

Lemma sorted_rev (l : list Detection) :
  StronglySorted right_of l -> StronglySorted left_of (rev l).
Proof.
  induction 1 as [|x l Hs IH Hx]; simpl; [constructor|].
  apply sorted_snoc; [exact IH|].
  apply Forall_rev. exact Hx.
Qed.

(** A list of non-empty spans has one arrangement at most in which each
    span ends before the next begins. *)
Lemma chain_unique (l1 l2 : list Detection) :
  StronglySorted left_of l1 -> StronglySorted left_of l2 ->
  Permutation l1 l2 -> Forall (fun x => start x < end_ x) l1 -> l1 = l2.
Proof.
  intros H1; revert l2.
  induction H1 as [|a l1 Hs IH Ha]; intros l2 H2 Hp Hv.
  - apply Permutation_nil in Hp. now subst.
  - destruct H2 as [|b l2 Hs2 Hb].
    + apply Permutation_sym, Permutation_nil in Hp. discriminate.
    + assert (Hab : a = b).
      { assert (Hin1 : In a (b :: l2))
          by (eapply Permutation_in; [exact Hp | now left]).
        assert (Hin2 : In b (a :: l1))
          by (eapply Permutation_in; [symmetry; exact Hp | now left]).
        destruct Hin1 as [->|Hin1]; [reflexivity|].
        destruct Hin2 as [->|Hin2]; [reflexivity|].
        rewrite Forall_forall in Ha, Hb, Hv.
        specialize (Ha b Hin2). specialize (Hb a Hin1).
        pose proof (Hv a (or_introl eq_refl)).
        pose proof (Hv b (or_intror Hin2)).
        unfold left_of in *. lia. }
      subst b. f_equal. apply IH; [exact Hs2 | | now inversion Hv].
      eapply Permutation_cons_inv; exact Hp.
Qed.

Lemma char_at_append_l (a b : string) (n : nat) :
  (n < String.length a)%nat -> char_at (a ++ b) n = char_at a n.
Proof.
  unfold char_at. revert n; induction a as [|c a IH]; intros n H; simpl in *.
  - lia.
  - destruct n as [|n]; [reflexivity|]. apply IH. lia.
Qed.

Lemma char_at_append_r (a b : string) (n : nat) :
  char_at (a ++ b) (String.length a + n) = char_at b n.
Proof.
  unfold char_at. induction a as [|c a IH]; simpl; [reflexivity | exact IH].
Qed.

Lemma char_at_drop (s : string) (n m : nat) :
  char_at (drop n s) m = char_at s (n + m).
Proof.
  unfold char_at. revert s; induction n as [|n IH]; intros s.
  - now destruct s.
  - destruct s as [|c s]; simpl; [now destruct m | apply IH].
Qed.

Lemma char_at_take (s : string) (n m : nat) :
  (m < n)%nat -> char_at (take n s) m = char_at s m.
Proof.
  unfold char_at. revert s m; induction n as [|n IH]; intros s m H; [lia|].
  destruct s as [|c s]; simpl; [reflexivity|].
  destruct m as [|m]; [reflexivity|]. apply IH. lia.
Qed.

Lemma shift_before (asc : list Detection) (i : Z) :
  Forall (fun x => i < end_ x) asc -> shift asc i = 0.
Proof.
  induction 1 as [|x asc Hx _ IH]; simpl; [reflexivity|].
  destruct (Z.leb_spec (end_ x) i); lia.
Qed.

Lemma shift_perm (l l' : list Detection) (i : Z) :
  Permutation l l' -> shift l i = shift l' i.
Proof.
  induction 1; simpl; lia.
Qed.

(** Where a character outside the spans stands in the stitched text. *)
Lemma stitch_char (text : string) (i : Z) (asc : list Detection) :
  StronglySorted left_of asc ->
  forall cursor,
    Forall (valid_in text) asc ->
    Forall (fun x => cursor <= start x) asc ->
    Forall (fun x => i < start x \/ end_ x <= i) asc ->
    0 <= cursor -> cursor <= i -> i < len text ->
    0 <= i - cursor + shift asc i
    /\ char_at (stitch text cursor asc) (Z.to_nat (i - cursor + shift asc i))
       = char_at text (Z.to_nat i).
Proof.
  induction 1 as [|x asc Hs IH Hx]; intros cursor Hv Hc Ho H0 H1 H2;
    cbn [stitch shift].
  - rewrite Z.add_0_r. split; [lia|].
    rewrite slice_from by lia. rewrite char_at_drop. f_equal. lia.
  - inversion Hv as [|? ? (Hv0 & Hv1 & Hv2) Hv']; subst.
    inversion Hc as [|? ? Hcx Hc']; subst.
    inversion Ho as [|? ? Hox Ho']; subst.
    assert (Hpiece : slice text (Some cursor) (Some (start x))
                     = take (Z.to_nat (start x) - Z.to_nat cursor)
                            (drop (Z.to_nat cursor) text))
      by (apply slice_inside; lia).
    assert (Hplen : String.length (slice text (Some cursor) (Some (start x)))
                    = (Z.to_nat (start x) - Z.to_nat cursor)%nat).
    { rewrite Hpiece, length_take, length_drop. unfold len in *. lia. }
    destruct Hox as [Hbefore|Hafter].
    + assert (Hrest : shift asc i = 0).
      { apply shift_before. rewrite Forall_forall in *. intros y Hy.
        specialize (Hx y Hy). unfold left_of in Hx.
        destruct (Hv' y Hy) as (_ & Hy1 & _). lia. }
      destruct (Z.leb_spec (end_ x) i); [lia|]. rewrite Hrest.
      split; [lia|].
      rewrite char_at_append_l by (rewrite Hplen; lia).
      rewrite Hpiece, char_at_take by lia.
      rewrite char_at_drop. f_equal. lia.
    + destruct (Z.leb_spec (end_ x) i); [|lia].
      destruct (IH (end_ x) Hv' Hx Ho') as [Hpos Hchar]; try lia.
      split; [unfold len; lia|].
      replace (Z.to_nat (i - cursor
                 + (len (placeholder x) - (end_ x - start x) + shift asc i)))
        with (String.length (slice text (Some cursor) (Some (start x)))
              + (String.length (placeholder x)
                 + Z.to_nat (i - end_ x + shift asc i)))%nat
        by (rewrite Hplen; unfold len; lia).
      rewrite char_at_append_r, char_at_append_r. exact Hchar.
Qed.

Lemma redact_unfold (text : string) (D : list Detection) :
  _redact_text text D = fold_left splice (sort_by_start_reverse D) text.
Proof.
  destruct D; reflexivity.
Qed.

Lemma ascending_sort_chain (text : string) (D : list Detection) :
  Forall (valid_in text) D -> pairwise_disjoint D ->
  StronglySorted left_of (sort_by_start D).
Proof.
  intros Hv Hd. apply pairwise_disjoint_ordered in Hd.
  apply (ascending_chain text).
  - apply sort_by_start_sorted.
  - eapply ordered_pairs_perm; [symmetry; apply sort_by_start_perm | exact Hd].
  - eapply Permutation_Forall; [symmetry; apply sort_by_start_perm | exact Hv].
Qed.

Lemma redact_stitch (text : string) (D : list Detection) :
  Forall (valid_in text) D -> pairwise_disjoint D ->
  _redact_text text D = stitch text 0 (sort_by_start D).
Proof.
  intros Hv Hd. rewrite redact_unfold.
  pose proof (ascending_sort_chain text D Hv Hd) as Hasc.
  apply pairwise_disjoint_ordered in Hd.
  set (desc := sort_by_start_reverse D).
  assert (Hperm : Permutation desc D) by apply sort_by_start_reverse_perm.
  assert (Hvd : Forall (valid_in text) desc)
    by (eapply Permutation_Forall; [symmetry; exact Hperm | exact Hv]).
  assert (Hchain : StronglySorted right_of desc).
  { apply (descending_chain text).
    - apply sort_by_start_reverse_sorted.
    - eapply ordered_pairs_perm; [symmetry; exact Hperm | exact Hd].
    - exact Hvd. }
  assert (Hrev : rev desc = sort_by_start D).
  { apply chain_unique.
    - now apply sorted_rev.
    - exact Hasc.
    - rewrite <- Permutation_rev, Hperm. symmetry. apply sort_by_start_perm.
    - apply Forall_rev. eapply Forall_impl; [|exact Hvd].
      unfold valid_in. intros; lia. }
  rewrite <- Hrev, <- stitch_upto_len.
  rewrite <- (append_empty_r (stitch_upto _ _ _ _)).
  rewrite <- fold_splice.
  - rewrite append_empty_r, slice_to by (pose proof (len_nonneg text); lia).
    rewrite take_all; [reflexivity|]. unfold len. lia.
  - exact Hchain.
  - lia.
  - eapply Forall_impl; [|exact Hvd]. unfold valid_in. intros; lia.
Qed.

(** A character of the text outside every span is found again in the
    redacted text, moved by the spans replaced before it. *)
Lemma redact_keeps_char (text : string) (D : list Detection) (i : Z) :
  Forall (valid_in text) D -> pairwise_disjoint D ->
  0 <= i < len text ->
  (forall x, In x D -> i < start x \/ end_ x <= i) ->
  0 <= i + shift D i
  /\ char_at (_redact_text text D) (Z.to_nat (i + shift D i))
     = char_at text (Z.to_nat i).
Proof.
  intros Hv Hd Hi Hout.
  rewrite (redact_stitch text D Hv Hd).
  assert (Hperm : Permutation (sort_by_start D) D) by apply sort_by_start_perm.
  rewrite <- (shift_perm _ _ i Hperm).
  replace (i + shift (sort_by_start D) i)
    with (i - 0 + shift (sort_by_start D) i) by lia.
  apply stitch_char; try lia.
  - exact (ascending_sort_chain text D Hv Hd).
  - eapply Permutation_Forall; [symmetry; exact Hperm | exact Hv].
  - eapply Permutation_Forall; [symmetry; exact Hperm|].
    eapply Forall_impl; [|exact Hv]. unfold valid_in. intros; lia.
  - eapply Permutation_Forall; [symmetry; exact Hperm|].
    apply Forall_forall. exact Hout.
Qed.

(** C4.  For a text and a list of detections with non-empty spans inside
    the text, no two of which intersect: the redaction splices the
    placeholders in, one detection after the other in descending order of
    [start]; the placeholder is the type in upper case, each space replaced
    by an underscore, between square brackets; the result is the text with
    each span replaced by its placeholder and every stretch outside the
    spans copied as it is, so that the character at an offset [i] outside
    the spans stands at the offset [i + shift D i] of the result; and with
    no detection the text is returned unchanged. *)
Theorem C4_redaction (text : string) (D : list Detection) :
  Forall (valid_in text) D -> pairwise_disjoint D ->
  _redact_text text D = fold_left splice (sort_by_start_reverse D) text
  /\ StronglySorted ge_start (sort_by_start_reverse D)
  /\ Permutation (sort_by_start_reverse D) D
  /\ (forall redacted x,
        splice redacted x
        = slice redacted None (Some (start x))
          ++ placeholder x ++ slice redacted (Some (end_ x)) None)
  /\ (forall x, placeholder x = "[" ++ replace " " "_" (upper (type x)) ++ "]")
  /\ (forall x, type x = "Social Insurance Number (SIN)" ->
                placeholder x = "[SOCIAL_INSURANCE_NUMBER_(SIN)]")
  /\ _redact_text text D = stitch text 0 (sort_by_start D)
  /\ (forall i, 0 <= i < len text ->
        (forall x, In x D -> i < start x \/ end_ x <= i) ->
        0 <= i + shift D i
        /\ char_at (_redact_text text D) (Z.to_nat (i + shift D i))
           = char_at text (Z.to_nat i))
  /\ _redact_text text [] = text.
Proof.
  intros Hv Hd.
  split; [apply redact_unfold|].
  split; [apply sort_by_start_reverse_sorted|].
  split; [apply sort_by_start_reverse_perm|].
  split; [reflexivity|].
  split; [reflexivity|].
  split; [intros x Hx; unfold placeholder; rewrite Hx; reflexivity|].
  split; [now apply redact_stitch|].
  split; [|reflexivity].
  intros i Hi Hout. now apply redact_keeps_char.
Qed.

Lemma C4_redaction_witness :
  let text := "Email: test@x.com, Phone: 604-555-1234" in
  let email := {| type := "Email Address"; value := "test@x.com";
                  start := 7; end_ := 17; confidence := 0.95;
                  hipaa_identifier := "Email address" |} in
  let phone := {| type := "Phone Number"; value := "604-555-1234";
                  start := 26; end_ := 38; confidence := 0.8;
                  hipaa_identifier := "Telephone number" |} in
  Forall (valid_in text) [email; phone]
  /\ pairwise_disjoint [email; phone]
  /\ _redact_text text [email; phone]
     = stitch text 0 (sort_by_start [email; phone])
  /\ _redact_text text [email; phone]
     = "Email: [EMAIL_ADDRESS], Phone: [PHONE_NUMBER]".
Proof.
  intros text email phone.
  assert (Hv : Forall (valid_in text) [email; phone]).
  { repeat constructor; vm_compute; congruence. }
  assert (Hd : pairwise_disjoint [email; phone]).
  { intros i j a b Hij Ha Hb.
    destruct i as [|[|i]], j as [|[|j]]; simpl in Ha, Hb;
      try congruence;
      try (destruct i; discriminate); try (destruct j; discriminate);
      inversion Ha; inversion Hb; subst; unfold disjoint; simpl; lia. }
  split; [exact Hv|]. split; [exact Hd|].
  split; [apply (C4_redaction text [email; phone] Hv Hd) | reflexivity].
Defined.

(** ** The health plan number *)

(** C6, as stated, fails: in [health 1234567890] the context of the run
    contains the keyword [health] of the specification, and the confidence
    is 0.5; the code looks for [bc health], not for [health]. *)
Lemma C6_counterexample :
  let s := "health 1234567890" in
  ten_digit_run s 7 = true
  /\ mentions spec_phn_keywords (phn_context s 7) = true
  /\ Patterns.detect_phn (PyStr s) = Ok [phn_detection s 7 0.5]
  /\ ~ (confidence (phn_detection s 7 0.5) == 0.9)%Q.
Proof.
  intros s. repeat split; try (vm_compute; reflexivity).
  vm_compute. discriminate.
Qed.

Lemma rmatch_rep_class (p : ascii -> bool) (s : string)
    (k : nat -> option nat) (n i : nat) :
  rmatch (Rep n (Class p)) s i k
  = if all_at p s i n then k (i + n)%nat else None.
Proof.
  revert i; induction n as [|n IH]; intros i; cbn [Rep rmatch all_at].
  - now rewrite Nat.add_0_r.
  - destruct (char_at s i) as [c|]; [|reflexivity].
    destruct (p c); [|reflexivity]. cbn [andb].
    rewrite IH. now rewrite Nat.add_succ_comm.
Qed.

Lemma match_phn (s : string) (i : nat) :
  match_at phn_pattern s i
  = if ten_digit_run s i then Some (i + 10)%nat else None.
Proof.
  unfold match_at, phn_pattern, ten_digit_run, digit.
  cbn [Seq rmatch]. 
  destruct (boundary s i); [|reflexivity].
  rewrite rmatch_rep_class.
  destruct (all_at is_digit s i 10); [|reflexivity].
  cbn [andb]. destruct (boundary s (i + 10)); reflexivity.
Qed.

Lemma digit_is_word (c : ascii) : is_digit c = true -> is_word c = true.
Proof.
  unfold is_word, is_digit. intros ->. reflexivity.
Qed.

Lemma all_at_nth (p : ascii -> bool) (s : string) (n i j : nat) :
  all_at p s i n = true -> (j < n)%nat ->
  exists c, char_at s (i + j) = Some c /\ p c = true.
Proof.
  revert i j; induction n as [|n IH]; intros i j H Hj; [lia|].
  cbn [all_at] in H. apply andb_true_iff in H. destruct H as [H1 H2].
  destruct j as [|j].
  - rewrite Nat.add_0_r. destruct (char_at s i) as [c|]; [eauto|discriminate].
  - destruct (IH (S i) j H2) as (c & Hc & Hp); [lia|].
    exists c. split; [|exact Hp]. now rewrite <- Nat.add_succ_comm.
Qed.

Lemma digits_are_words (s : string) (n i j : nat) :
  all_at is_digit s i n = true -> (j < n)%nat -> word_at s (i + j) = true.
Proof.
  intros H Hj. destruct (all_at_nth _ _ _ _ _ H Hj) as (c & Hc & Hp).
  unfold word_at. rewrite Hc. now apply digit_is_word.
Qed.

(** No word boundary lies strictly inside a run of digits. *)
Lemma no_boundary_inside (s : string) (n j i : nat) :
  all_at is_digit s j n = true -> (j < i)%nat -> (i < j + n)%nat ->
  boundary s i = false.
Proof.
  intros H H1 H2. unfold boundary.
  destruct i as [|i']; [lia|].
  replace i' with (j + (i' - j))%nat by lia.
  rewrite (digits_are_words s n j (i' - j) H) by lia.
  replace (S (j + (i' - j)))%nat with (j + (S i' - j))%nat by lia.
  rewrite (digits_are_words s n j (S i' - j) H) by lia.
  reflexivity.
Qed.

(** ** The scan of [finditer] *)

Lemma scan_sound (r : regex) (s : string) (n i0 resume i e : nat) :
  In (i, e) (scan r s n i0 resume) ->
  match_at r s i = Some e /\ (i0 <= i < i0 + n)%nat /\ (resume <= i)%nat.
Proof.
  revert i0 resume; induction n as [|n IH]; intros i0 resume H;
    cbn [scan] in H; [contradiction|].
  destruct (Nat.ltb_spec i0 resume) as [Hlt|Hge].
  - apply IH in H. lia_split.
  - destruct (match_at r s i0) as [e0|] eqn:E.
    + destruct H as [H|H].
      * inversion H; subst. repeat split; [exact E | lia | lia | lia].
      * apply IH in H. lia_split.
    + apply IH in H. lia_split.
Qed.

(** A match is reported when no match that starts before it reaches
    beyond its start. *)
Lemma scan_complete (r : regex) (s : string) (i e : nat) :
  match_at r s i = Some e ->
  (forall j e', (j < i)%nat -> match_at r s j = Some e' -> (e' <= i)%nat) ->
  forall n i0 resume,
    (i0 <= i < i0 + n)%nat -> (resume <= i)%nat ->
    In (i, e) (scan r s n i0 resume).
Proof.
  intros Hm Hfree. induction n as [|n IH]; intros i0 resume Hi Hr; [lia|].
  cbn [scan].
  destruct (Nat.eq_dec i0 i) as [->|Hne].
  - destruct (Nat.ltb_spec i resume); [lia|]. rewrite Hm. now left.
  - destruct (Nat.ltb_spec i0 resume).
    + apply IH; lia.
    + destruct (match_at r s i0) as [e0|] eqn:E.
      * right. apply IH; [lia|].
        assert (e0 <= i)%nat by (apply (Hfree i0); [lia | exact E]). lia.
      * apply IH; lia.
Qed.

Lemma char_at_length (s : string) (i : nat) (c : ascii) :
  char_at s i = Some c -> (i < String.length s)%nat.
Proof.
  unfold char_at. revert i; induction s as [|x s IH]; intros i H; simpl in H.
  - discriminate.
  - destruct i as [|i]; simpl; [lia|]. apply IH in H. lia.
Qed.

Lemma detect_phn_unfold (s : string) :
  Patterns.detect_phn (PyStr s)
  = Ok (map (fun se => phn_of_match s (mk_match s se))
            (scan phn_pattern s (S (String.length s)) 0 0)).
Proof.
  unfold Patterns.detect_phn, finditer. cbn [bind].
  rewrite (for_append_map _ _ (phn_of_match s)).
  - now rewrite map_map.
  - intros m _. reflexivity.
Qed.

Lemma phn_of_run (s : string) (i : nat) :
  phn_of_match s (mk_match s (i, i + 10)%nat)
  = phn_detection s i (phn_confidence s i).
Proof.
  unfold phn_of_match, mk_match, phn_detection, phn_confidence, phn_context.
  cbn [group m_start m_end fst snd].
  replace (i + 10 - i)%nat with 10%nat by lia.
  rewrite Nat2Z.inj_add. reflexivity.
Qed.

Lemma match_phn_inv (s : string) (i e : nat) :
  match_at phn_pattern s i = Some e ->
  ten_digit_run s i = true /\ e = (i + 10)%nat.
Proof.
  rewrite match_phn. destruct (ten_digit_run s i); [|discriminate].
  intros H. inversion H. auto.
Qed.

(** C6, amended.  [detect_phn] reports exactly the word-bounded runs of ten
    digits of the text, each as a health plan number on its ten characters,
    with confidence 0.9 if the context of the run, from 20 characters before
    it to 20 characters after it and in lower case, contains one of [phn],
    [health number], [care card], [bc health], and 0.5 otherwise. *)
Theorem C6_phn_runs (s : string) :
  exists found,
    Patterns.detect_phn (PyStr s) = Ok found
    /\ (forall i, ten_digit_run s i = true ->
          In (phn_detection s i (phn_confidence s i)) found)
    /\ (forall x, In x found ->
          exists i, ten_digit_run s i = true
                    /\ x = phn_detection s i (phn_confidence s i))
    /\ (forall i, (phn_confidence s i == 0.9)%Q <->
                  mentions ["phn"; "health number"; "care card"; "bc health"]
                    (phn_context s i) = true)
    /\ (forall i, (phn_confidence s i == 0.5)%Q <->
                  mentions ["phn"; "health number"; "care card"; "bc health"]
                    (phn_context s i) = false).
Proof.
  eexists. split; [apply detect_phn_unfold|].
  split; [|split].
  - intros i Hrun.
    apply in_map_iff. exists (i, i + 10)%nat. split; [apply phn_of_run|].
    assert (Hm : match_at phn_pattern s i = Some (i + 10)%nat)
      by (rewrite match_phn, Hrun; reflexivity).
    apply scan_complete; [exact Hm | | | lia].
    + intros j e' Hj Hj'. apply match_phn_inv in Hj'. destruct Hj' as [Hr ->].
      destruct (Nat.le_gt_cases (j + 10) i) as [Hle|Hgt]; [exact Hle|].
      unfold ten_digit_run in Hr, Hrun.
      apply andb_true_iff in Hr. destruct Hr as [Hr _].
      apply andb_true_iff in Hr. destruct Hr as [_ Hd].
      rewrite (no_boundary_inside s 10 j i Hd Hj Hgt) in Hrun. discriminate.
    + unfold ten_digit_run in Hrun.
      apply andb_true_iff in Hrun. destruct Hrun as [Hr _].
      apply andb_true_iff in Hr. destruct Hr as [_ Hd].
      destruct (all_at_nth _ _ _ _ 0%nat Hd) as (c & Hc & _); [lia|].
      rewrite Nat.add_0_r in Hc. apply char_at_length in Hc. lia.
  - intros x Hx. apply in_map_iff in Hx. destruct Hx as ([i e] & <- & Hin).
    apply scan_sound in Hin. destruct Hin as (Hm & _).
    apply match_phn_inv in Hm. destruct Hm as [Hr ->].
    exists i. split; [exact Hr | apply phn_of_run].
  - split; intros i; unfold phn_confidence, Patterns.phn_keywords;
      destruct (mentions _ (phn_context s i));
      split; intros H; try reflexivity; try discriminate;
      vm_compute in H; discriminate.
Qed.

Lemma C6_phn_runs_witness :
  let s := "PHN: 1234567890 for patient 5555555555" in
  ten_digit_run s 5 = true
  /\ ten_digit_run s 28 = true
  /\ exists found,
       Patterns.detect_phn (PyStr s) = Ok found
       /\ In (phn_detection s 5 0.9) found
       /\ In (phn_detection s 28 0.5) found.
Proof.
  intros s. split; [reflexivity|]. split; [reflexivity|].
  destruct (C6_phn_runs s) as (found & Hfound & Hin & _).
  exists found. split; [exact Hfound|].
  split; [apply (Hin 5%nat) | apply (Hin 28%nat)]; reflexivity.
Defined.

(** ** A remark on the grammar matcher

    The separators of a payment card candidate may be any white space, and
    only dashes and spaces are removed before the check: with a tab between
    two groups the check meets a character that is no digit and
    [detect_credit_card] raises [ValueError], and so do [detect_all] and
    [analyze].  This is why the properties of [analyze] above are stated
    for the texts on which the grammar matcher returns. *)
Remark detect_credit_card_tab :
  let tab := String (ascii_of_nat 9) "" in
  exists e,
    Patterns.detect_credit_card
      (PyStr ("4532" ++ tab ++ "0151 1283 0366")) = Raise e.
Proof.
  eexists. vm_compute. reflexivity.
Qed.

(** * Further properties *)

(** ** The matcher stays inside the text *)

Lemma run_le (p : ascii -> bool) (s : string) :
  (run p s <= String.length s)%nat.
Proof.
  induction s as [|c s IH]; simpl; [lia|]. destruct (p c); lia.
Qed.

Lemma backoff_inv (k : nat -> option nat) (i n e : nat) :
  backoff k i n = Some e -> exists m, (m <= n)%nat /\ k (i + m)%nat = Some e.
Proof.
  induction n as [|n IH]; cbn [backoff]; intros H.
  - destruct (k (i + 0)%nat) eqn:E; [|discriminate].
    exists 0%nat. split; [lia | congruence].
  - destruct (k (i + S n)%nat) eqn:E.
    + exists (S n). split; [lia | congruence].
    + destruct (IH H) as (m & Hm & Hk). exists m. split; [lia | exact Hk].
Qed.

(** A successful match hands to its continuation an offset that is
    [min_len r] characters further at least, and inside the text. *)
Lemma rmatch_reach (r : regex) (s : string) :
  forall i k e,
    rmatch r s i k = Some e ->
    exists j, (i + min_len r <= j)%nat
              /\ (j <= Nat.max i (String.length s))%nat
              /\ k j = Some e.
Proof.
  induction r as [|p|r1 IH1 r2 IH2|r1 IH1 r2 IH2|p|];
    intros i k e H; cbn [rmatch min_len] in *.
  - exists i. lia_split.
  - destruct (char_at s i) as [c|] eqn:E; [|discriminate].
    destruct (p c); [|discriminate].
    apply char_at_length in E. exists (S i). lia_split.
  - apply IH1 in H. destruct H as (j1 & H1 & H1' & H).
    apply IH2 in H. destruct H as (j2 & H2 & H2' & H).
    exists j2. lia_split.
  - destruct (rmatch r1 s i k) as [e1|] eqn:E.
    + inversion H; subst. apply IH1 in E. destruct E as (j & ? & ? & ?).
      exists j. lia_split.
    + apply IH2 in H. destruct H as (j & ? & ? & ?). exists j. lia_split.
  - apply backoff_inv in H. destruct H as (m & Hm & H).
    pose proof (run_le p (drop i s)) as Hr. rewrite length_drop in Hr.
    exists (i + m)%nat. lia_split.
  - destruct (boundary s i); [|discriminate]. exists i. lia_split.
Qed.

Lemma match_at_reach (r : regex) (s : string) (i e : nat) :
  match_at r s i = Some e ->
  (i + min_len r <= e)%nat /\ (e <= Nat.max i (String.length s))%nat.
Proof.
  unfold match_at. intros H. apply rmatch_reach in H.
  destruct H as (j & H1 & H2 & H3). inversion H3; subst. lia.
Qed.

(** The matches of a scan come in ascending order, each after the end of
    the one before. *)
Lemma scan_chain (r : regex) (s : string) (n i0 resume : nat) :
  StronglySorted
    (fun a b => (snd a <= fst b)%nat /\ (fst a < fst b)%nat)
    (scan r s n i0 resume).
Proof.
  revert i0 resume; induction n as [|n IH]; intros i0 resume; cbn [scan].
  - constructor.
  - destruct (i0 <? resume)%nat; [apply IH|].
    destruct (match_at r s i0) as [e|]; [|apply IH].
    constructor; [apply IH|].
    apply Forall_forall. intros [i e'] Hin. apply scan_sound in Hin.
    cbn [fst snd]. lia.
Qed.

Lemma sorted_map {A B} (R : A -> A -> Prop) (R' : B -> B -> Prop)
    (f : A -> B) (l : list A) :
  (forall a b, R a b -> R' (f a) (f b)) ->
  StronglySorted R l -> StronglySorted R' (map f l).
Proof.
  intros HR. induction 1 as [|a l Hs IH Ha]; simpl; constructor; [exact IH|].
  apply Forall_map. eapply Forall_impl; [|exact Ha]. intros b; apply HR.
Qed.

(** What [finditer] returns on a text. *)
Lemma finditer_matches (r : regex) (s : string) (ms : list Match) :
  finditer r (PyStr s) = Ok ms ->
  Forall (match_in (min_len r) s) ms /\ StronglySorted match_before ms.
Proof.
  unfold finditer. intros H. injection H as <-. split.
  - apply Forall_map, Forall_forall. intros [i e] Hin.
    destruct (scan_sound r s (S (String.length s)) 0 0 i e Hin)
      as (Hm & Hi & _).
    apply match_at_reach in Hm. unfold match_in, mk_match.
    cbn [group m_start m_end fst snd].
    assert (He : (e <= String.length s)%nat) by lia.
    repeat split; try lia.
    + unfold len. lia.
    + rewrite slice_inside by (unfold len; lia).
      rewrite !Nat2Z.id. reflexivity.
  - eapply sorted_map;
      [|exact (scan_chain r s (S (String.length s)) 0 0)].
    intros [i e] [i' e'] [H1 H2]. unfold match_before, mk_match.
    cbn [m_start m_end fst snd] in *. lia.
Qed.

(** ** The detectors of the grammar matcher *)

Lemma for_append_sorted {A B} (R : A -> A -> Prop) (R' : B -> B -> Prop)
    (body : A -> result (option B)) (xs : list A) :
  (forall x y b c, body x = Ok (Some b) -> body y = Ok (Some c) ->
                   R x y -> R' b c) ->
  StronglySorted R xs ->
  forall out, for_append xs body = Ok out -> StronglySorted R' out.
Proof.
  intros HR. induction 1 as [|x xs Hs IH Hx]; intros out H;
    cbn [for_append] in H.
  - injection H as <-. constructor.
  - bind_inv H. bind_inv H. injection H as <-.
    destruct v as [b|]; [|now apply IH].
    constructor; [now apply IH|].
    apply Forall_forall. intros c Hc.
    destruct (for_append_in _ _ _ _ Hv0 Hc) as (y & Hy & Hb).
    rewrite Forall_forall in Hx. eapply HR; eauto.
Qed.

Ltac reports_tac :=
  intros s found H;
  match type of H with
  | ?f _ = _ => unfold f in H
  end;
  bind_inv H;
  eexists; eexists; split; [eassumption|]; split; [exact H|];
  intros m x Hb; cbv beta in Hb; cbn [py_len py_slice bind] in Hb.

Lemma sin_reports :
  reports "Social Insurance Number (SIN)" sin_pattern Patterns.detect_sin.
Proof.
  reports_tac. destruct (_ <? _)%nat; inversion Hb; subst.
  repeat split.
Qed.

Lemma phn_reports :
  reports "Personal Health Number (PHN)" phn_pattern Patterns.detect_phn.
Proof. reports_tac. inversion Hb; subst. repeat split. Qed.

Lemma phone_reports :
  reports "Phone Number" phone_pattern Patterns.detect_phone.
Proof. reports_tac. inversion Hb; subst. repeat split. Qed.

Lemma email_reports :
  reports "Email Address" email_pattern Patterns.detect_email.
Proof. reports_tac. inversion Hb; subst. repeat split. Qed.

Lemma credit_card_reports :
  reports "Credit Card Number" credit_card_pattern
    Patterns.detect_credit_card.
Proof.
  reports_tac. bind_inv Hb. destruct v0; inversion Hb; subst.
  repeat split.
Qed.

Lemma postal_code_reports :
  reports "Postal Code" postal_code_pattern Patterns.detect_postal_code.
Proof. reports_tac. inversion Hb; subst. repeat split. Qed.

Lemma ip_reports : reports "IP Address" ip_pattern Patterns.detect_ip.
Proof.
  reports_tac. bind_inv Hb. destruct v0; inversion Hb; subst.
  repeat split.
Qed.

Lemma date_reports : reports "Date" date_pattern Patterns.detect_date.
Proof. reports_tac. inversion Hb; subst. repeat split. Qed.

(** Each detector of the table reports the matches of a pattern that takes
    one character at least. *)
Lemma detectors_report (T : string) (f : pyobj -> result (list Detection)) :
  In (T, f) detectors ->
  exists r, reports T r f /\ (0 < min_len r)%nat.
Proof.
  unfold detectors. intros H.
  repeat (destruct H as [H|H];
          [injection H as <- <-; eexists; split;
           [first [ exact sin_reports | exact phn_reports
                  | exact phone_reports | exact email_reports
                  | exact credit_card_reports | exact postal_code_reports
                  | exact ip_reports | exact date_reports ]
           | vm_compute; lia ]|]).
  contradiction.
Qed.

Lemma reports_spans (T : string) (r : regex)
    (f : pyobj -> result (list Detection)) (s : string)
    (found : list Detection) :
  reports T r f -> (0 < min_len r)%nat -> f (PyStr s) = Ok found ->
  Forall (fun x => type x = T /\ span_in s x) found
  /\ StronglySorted before found.
Proof.
  intros Hrep Hmin H.
  destruct (Hrep s found H) as (ms & body & Hms & Hfor & Hbody).
  apply finditer_matches in Hms. destruct Hms as [Hin Hsorted]. split.
  - apply Forall_forall. intros x Hx.
    destruct (for_append_in _ _ _ _ Hfor Hx) as (m & Hm & Hb).
    destruct (Hbody m x Hb) as (HT & Hv & Hs & He).
    rewrite Forall_forall in Hin. destruct (Hin m Hm) as (H0 & H1 & H2 & H3).
    split; [exact HT|]. unfold span_in, valid_in.
    rewrite Hv, Hs, He. repeat split; try lia. exact H3.
  - eapply for_append_sorted; [|exact Hsorted|exact Hfor].
    intros m1 m2 x1 x2 Hb1 Hb2 [Hm1 Hm2].
    destruct (Hbody _ _ Hb1) as (_ & _ & Hs1 & He1).
    destruct (Hbody _ _ Hb2) as (_ & _ & Hs2 & He2).
    unfold before. lia.
Qed.

(** ** The duplicate check and the sort of [detect_all] *)

Lemma key_eqb_eq (k1 k2 : Z * Z * string) : Patterns.key_eqb k1 k2 = true <-> k1 = k2.
Proof.
  destruct k1 as [[s1 e1] t1], k2 as [[s2 e2] t2]. unfold Patterns.key_eqb.
  rewrite !andb_true_iff, !Z.eqb_eq, String.eqb_eq.
  split; [intros [[-> ->] ->]; reflexivity | intros H; inversion H; auto].
Qed.

Lemma seen_spec (k : Z * Z * string) (seen : list (Z * Z * string)) :
  existsb (Patterns.key_eqb k) seen = true <-> In k seen.
Proof.
  rewrite existsb_exists. split.
  - intros (k' & Hin & Hk). apply key_eqb_eq in Hk. now subst.
  - intros H. exists k. split; [exact H | now apply key_eqb_eq].
Qed.

Lemma unique_incl (l : list Detection) :
  forall seen x, In x (Patterns.unique seen l) -> In x l.
Proof.
  induction l as [|r l IH]; intros seen x H; cbn [Patterns.unique] in H;
    [contradiction|].
  fold (key r) in H. destruct (existsb _ seen).
  - right. eapply IH; eassumption.
  - destruct H as [->|H]; [now left | right; eapply IH; eassumption].
Qed.

Lemma unique_fresh (l : list Detection) :
  forall seen x, In x (Patterns.unique seen l) -> ~ In (key x) seen.
Proof.
  induction l as [|r l IH]; intros seen x H; cbn [Patterns.unique] in H;
    [contradiction|].
  fold (key r) in H. destruct (existsb _ seen) eqn:E.
  - eapply IH; eassumption.
  - destruct H as [->|H].
    + intros Hin. apply seen_spec in Hin. congruence.
    + intros Hin. apply (IH _ _ H). now right.
Qed.

Lemma unique_keys (l : list Detection) :
  forall seen, NoDup (map key (Patterns.unique seen l)).
Proof.
  induction l as [|r l IH]; intros seen; cbn [Patterns.unique].
  - constructor.
  - fold (key r). destruct (existsb _ seen); [apply IH|].
    cbn [map]. constructor; [|apply IH].
    intros Hin. apply in_map_iff in Hin. destruct Hin as (x & Hk & Hx).
    apply unique_fresh in Hx. apply Hx. rewrite Hk. now left.
Qed.

(** On a list without two equal keys, none of them seen yet, the
    duplicate check drops nothing. *)
Lemma unique_id (l : list Detection) :
  forall seen,
    NoDup (map key l) -> (forall x, In x l -> ~ In (key x) seen) ->
    Patterns.unique seen l = l.
Proof.
  induction l as [|r l IH]; intros seen Hnd Hfresh; cbn [Patterns.unique];
    [reflexivity|].
  fold (key r). cbn [map] in Hnd. apply NoDup_cons_iff in Hnd.
  destruct Hnd as [Hr Hnd].
  destruct (existsb _ seen) eqn:E.
  - apply seen_spec in E. exfalso. apply (Hfresh r); [now left | exact E].
  - f_equal. apply IH; [exact Hnd|].
    intros x Hx [Hk|Hk].
    + apply Hr. rewrite Hk. now apply in_map.
    + apply (Hfresh x); [now right | exact Hk].
Qed.

Lemma detect_all_inv (text : pyobj) (found : list Detection) :
  Patterns.detect_all text = Ok found ->
  exists rs,
    Forall2 (fun d r => snd d text = Ok r) detectors rs
    /\ found = sort_by_start (Patterns.unique [] (List.concat rs)).
Proof.
  unfold Patterns.detect_all. intros H.
  do 8 bind_inv H. injection H as <-.
  exists [v; v0; v1; v2; v3; v4; v5; v6]. split.
  - unfold detectors. repeat constructor; assumption.
  - cbn [List.concat]. rewrite app_nil_r. reflexivity.
Qed.

Lemma sorted_keys (r : list Detection) :
  StronglySorted before r -> NoDup (map key r).
Proof.
  induction 1 as [|x r Hs IH Hx]; cbn [map]; constructor; [|exact IH].
  intros Hin. apply in_map_iff in Hin. destruct Hin as (y & Hk & Hy).
  rewrite Forall_forall in Hx. specialize (Hx y Hy).
  unfold key in Hk. injection Hk as Hs' _ _. unfold before in Hx. lia.
Qed.

Lemma concat_types (ds : list (string * (pyobj -> result (list Detection))))
    (rs : list (list Detection)) :
  Forall2 (fun d r => Forall (fun x => type x = fst d) r) ds rs ->
  forall y, In y (List.concat rs) -> In (type y) (map fst ds).
Proof.
  induction 1 as [|d r ds rs Hd _ IH]; intros y Hy; cbn [List.concat map] in *;
    [contradiction|].
  apply in_app_or in Hy. destruct Hy as [Hy|Hy].
  - left. rewrite Forall_forall in Hd. symmetry. now apply Hd.
  - right. now apply IH.
Qed.

Lemma sorted_total (l : list Detection) :
  StronglySorted before l ->
  forall x y, In x l -> In y l -> x <> y -> before x y \/ before y x.
Proof.
  induction 1 as [|a l Hs IH Ha]; intros x y Hx Hy Hne; [contradiction|].
  rewrite Forall_forall in Ha.
  destruct Hx as [->|Hx], Hy as [->|Hy].
  - contradiction.
  - left. now apply Ha.
  - right. now apply Ha.
  - now apply IH.
Qed.

(** Two detections of the same type among those of all the detectors come
    from the same detector, one before the other. *)
Lemma same_type_ordered
    (ds : list (string * (pyobj -> result (list Detection))))
    (rs : list (list Detection)) :
  Forall2 (fun d r => Forall (fun x => type x = fst d) r) ds rs ->
  Forall (StronglySorted before) rs ->
  NoDup (map fst ds) ->
  forall x y, In x (List.concat rs) -> In y (List.concat rs) ->
              type x = type y -> x <> y -> before x y \/ before y x.
Proof.
  induction 1 as [|d r ds rs Hd Hrest IH]; intros Hs Hnd x y Hx Hy Ht Hne;
    cbn [List.concat map] in *; [contradiction|].
  apply NoDup_cons_iff in Hnd. destruct Hnd as [Hfresh Hnd].
  inversion Hs as [|? ? Hr Hs']; subst.
  pose proof (concat_types _ _ Hrest) as Htypes.
  rewrite Forall_forall in Hd.
  apply in_app_or in Hx. apply in_app_or in Hy.
  destruct Hx as [Hx|Hx], Hy as [Hy|Hy].
  - now apply (sorted_total r Hr).
  - exfalso. apply Hfresh. rewrite <- (Hd x Hx), Ht. now apply Htypes.
  - exfalso. apply Hfresh. rewrite <- (Hd y Hy), <- Ht. now apply Htypes.
  - now apply IH.
Qed.

Lemma concat_keys
    (ds : list (string * (pyobj -> result (list Detection))))
    (rs : list (list Detection)) :
  Forall2 (fun d r => Forall (fun x => type x = fst d) r) ds rs ->
  Forall (StronglySorted before) rs ->
  NoDup (map fst ds) ->
  NoDup (map key (List.concat rs)).
Proof.
  induction 1 as [|d r ds rs Hd Hrest IH]; intros Hs Hnd;
    cbn [List.concat map] in *; [constructor|].
  apply NoDup_cons_iff in Hnd. destruct Hnd as [Hfresh Hnd].
  inversion Hs as [|? ? Hr Hs']; subst.
  rewrite map_app. apply NoDup_app.
  - now apply sorted_keys.
  - now apply IH.
  - intros k Hk Hk'. apply in_map_iff in Hk, Hk'.
    destruct Hk as (x & <- & Hx). destruct Hk' as (y & Hky & Hy).
    apply Hfresh. rewrite Forall_forall in Hd. rewrite <- (Hd x Hx).
    unfold key in Hky. injection Hky as _ _ <-.
    eapply concat_types; eassumption.
Qed.

Lemma detectors_types : NoDup (map fst detectors).
Proof.
  unfold detectors. cbn [map fst].
  repeat (constructor;
          [cbn [In]; intros H;
           repeat (destruct H as [H|H]; [discriminate H|]); exact H|]).
  constructor.
Qed.

(** The results of the eight detectors on a text. *)
Lemma detectors_results (s : string) (rs : list (list Detection)) :
  Forall2 (fun d r => snd d (PyStr s) = Ok r) detectors rs ->
  Forall2 (fun d r => Forall (fun x => type x = fst d) r) detectors rs
  /\ Forall (StronglySorted before) rs
  /\ Forall (Forall (span_in s)) rs.
Proof.
  assert (Hall : forall d, In d detectors ->
            exists r, reports (fst d) r (snd d) /\ (0 < min_len r)%nat).
  { intros [T f] Hd. now apply detectors_report. }
  revert Hall. generalize detectors. intros ds Hall H.
  induction H as [|d r ds rs Hd _ IH].
  - repeat constructor.
  - destruct (Hall d (or_introl eq_refl)) as (p & Hrep & Hmin).
    destruct (reports_spans _ _ _ _ _ Hrep Hmin Hd) as [Hf Hs].
    destruct IH as (IH1 & IH2 & IH3); [intros; apply Hall; now right|].
    repeat split; constructor; try assumption.
    + eapply Forall_impl; [|exact Hf]. now intros x [? _].
    + eapply Forall_impl; [|exact Hf]. now intros x [_ ?].
Qed.

(** X1.  Every detection of a detector of the grammar matcher, and so
    every detection of [detect_all], has the type of its detector, a
    non-empty span inside the text, and as value the text between its
    offsets. *)
Theorem X1_grammar_spans (s : string) :
  (forall T f found x,
      In (T, f) detectors -> f (PyStr s) = Ok found -> In x found ->
      type x = T /\ 0 <= start x /\ start x < end_ x /\ end_ x <= len s
      /\ value x = slice s (Some (start x)) (Some (end_ x)))
  /\ (forall found x,
        Patterns.detect_all (PyStr s) = Ok found -> In x found ->
        0 <= start x /\ start x < end_ x /\ end_ x <= len s
        /\ value x = slice s (Some (start x)) (Some (end_ x))).
Proof.
  split.
  - intros T f found x Hd Hf Hx.
    destruct (detectors_report T f Hd) as (r & Hrep & Hmin).
    destruct (reports_spans _ _ _ _ _ Hrep Hmin Hf) as [Hall _].
    rewrite Forall_forall in Hall.
    destruct (Hall x Hx) as (HT & (H0 & H1 & H2) & Hv). auto.
  - intros found x Hf Hx.
    destruct (detect_all_inv _ _ Hf) as (rs & Hrs & ->).
    destruct (detectors_results s rs Hrs) as (_ & _ & Hspans).
    eapply Permutation_in in Hx; [|apply sort_by_start_perm].
    apply unique_incl in Hx. apply in_concat in Hx.
    destruct Hx as (r & Hr & Hx).
    rewrite Forall_forall in Hspans. specialize (Hspans r Hr).
    rewrite Forall_forall in Hspans.
    destruct (Hspans x Hx) as ((H0 & H1 & H2) & Hv). auto.
Qed.

Lemma X1_grammar_spans_witness :
  let s := "Mail a.b@c.de or call (604) 555-1234 from 10.0.0.1" in
  exists found,
    Patterns.detect_all (PyStr s) = Ok found
    /\ List.length found = 3%nat
    /\ Forall (fun x => 0 <= start x /\ start x < end_ x /\ end_ x <= len s
                        /\ value x = slice s (Some (start x)) (Some (end_ x)))
              found.
Proof.
  intros s. eexists. split; [vm_compute; reflexivity|].
  split; [reflexivity|].
  apply Forall_forall. intros x Hx.
  eapply (proj2 (X1_grammar_spans s)); [|exact Hx].
  vm_compute. reflexivity.
Defined.

(** X2.  The list [detect_all] returns is in ascending order of [start]
    and holds no two detections with the same start, end and type. *)
Theorem X2_detect_all_sorted_unique (text : pyobj) (found : list Detection) :
  Patterns.detect_all text = Ok found ->
  StronglySorted le_start found /\ NoDup (map key found).
Proof.
  intros H. destruct (detect_all_inv _ _ H) as (rs & _ & ->). split.
  - apply sort_by_start_sorted.
  - eapply Permutation_NoDup.
    + apply Permutation_map. symmetry. apply sort_by_start_perm.
    + apply unique_keys.
Qed.

Lemma X2_detect_all_sorted_unique_witness :
  exists found,
    Patterns.detect_all (PyStr "1.2.3.4@ex.com 2024-01-15") = Ok found
    /\ List.length found = 3%nat
    /\ StronglySorted le_start found /\ NoDup (map key found).
Proof.
  eexists. split; [vm_compute; reflexivity|]. split; [reflexivity|].
  apply (X2_detect_all_sorted_unique (PyStr "1.2.3.4@ex.com 2024-01-15")).
  vm_compute. reflexivity.
Defined.

(** X3.  On a text the duplicate check of [detect_all] drops nothing: the
    list returned is the detections of the eight detectors, each once,
    sorted by [start], detections with the same [start] in the order of the
    detectors. *)
Theorem X3_detect_all_keeps_all (s : string) (found : list Detection) :
  Patterns.detect_all (PyStr s) = Ok found ->
  exists rs,
    Forall2 (fun d r => snd d (PyStr s) = Ok r) detectors rs
    /\ found = sort_by_start (List.concat rs)
    /\ Permutation found (List.concat rs).
Proof.
  intros H. destruct (detect_all_inv _ _ H) as (rs & Hrs & ->).
  destruct (detectors_results s rs Hrs) as (Ht & Hs & _).
  exists rs. split; [exact Hrs|].
  rewrite unique_id.
  - split; [reflexivity | apply sort_by_start_perm].
  - exact (concat_keys _ _ Ht Hs detectors_types).
  - intros x _ [].
Qed.

Lemma X3_detect_all_keeps_all_witness :
  let s := "1.2.3.4@ex.com 2024-01-15" in
  exists found rs,
    Patterns.detect_all (PyStr s) = Ok found
    /\ Forall2 (fun d r => snd d (PyStr s) = Ok r) detectors rs
    /\ found = sort_by_start (List.concat rs)
    /\ Permutation found (List.concat rs).
Proof.
  intros s.
  assert (H : exists found, Patterns.detect_all (PyStr s) = Ok found)
    by (eexists; vm_compute; reflexivity).
  destruct H as (found & H).
  destruct (X3_detect_all_keeps_all s found H) as (rs & Hrs).
  exists found, rs. split; [exact H | exact Hrs].
Defined.

(** X4.  The detections of one detector come in ascending order, each
    ending where the next starts or before; so two detections of the same
    type in the list of [detect_all] never intersect. *)
Theorem X4_same_type_disjoint (s : string) :
  (forall T f found,
      In (T, f) detectors -> f (PyStr s) = Ok found ->
      StronglySorted before found)
  /\ (forall found x y,
        Patterns.detect_all (PyStr s) = Ok found ->
        In x found -> In y found -> type x = type y -> x <> y ->
        disjoint x y).
Proof.
  split.
  - intros T f found Hd Hf.
    destruct (detectors_report T f Hd) as (r & Hrep & Hmin).
    now destruct (reports_spans _ _ _ _ _ Hrep Hmin Hf).
  - intros found x y Hf Hx Hy Ht Hne.
    destruct (detect_all_inv _ _ Hf) as (rs & Hrs & ->).
    destruct (detectors_results s rs Hrs) as (Htypes & Hs & _).
    eapply Permutation_in in Hx; [|apply sort_by_start_perm].
    eapply Permutation_in in Hy; [|apply sort_by_start_perm].
    apply unique_incl in Hx. apply unique_incl in Hy.
    destruct (same_type_ordered _ _ Htypes Hs detectors_types x y)
      as [[H _]|[H _]]; try assumption; unfold disjoint; lia.
Qed.

Lemma X4_same_type_disjoint_witness :
  let s := "Call 604-555-1234 or 604-555-9999" in
  exists found,
    Patterns.detect_phone (PyStr s) = Ok found
    /\ List.length found = 2%nat
    /\ StronglySorted before found.
Proof.
  intros s. eexists. split; [vm_compute; reflexivity|].
  split; [reflexivity|].
  apply (proj1 (X4_same_type_disjoint s) "Phone Number" Patterns.detect_phone).
  - unfold detectors. cbn [In]. tauto.
  - vm_compute. reflexivity.
Defined.

(** ** What a match is made of *)

Lemma take_add (a b : nat) (s : string) :
  take (a + b) s = take a s ++ take b (drop a s).
Proof.
  revert s; induction a as [|a IH]; intros s.
  - rewrite take_0. now destruct s.
  - destruct s as [|c s]; simpl; [now rewrite take_0 || now destruct b|].
    now rewrite IH.
Qed.

Lemma drop_drop (a b : nat) (s : string) : drop a (drop b s) = drop (b + a) s.
Proof.
  revert s; induction b as [|b IH]; intros s.
  - now destruct s.
  - destruct s as [|c s]; simpl; [now destruct a | apply IH].
Qed.

Lemma take_one (s : string) (i : nat) (c : ascii) :
  char_at s i = Some c -> take 1 (drop i s) = String c "".
Proof.
  unfold char_at. revert i; induction s as [|x s IH]; intros i H; simpl in H;
    [discriminate|].
  destruct i as [|i]; simpl.
  - injection H as ->. now destruct s.
  - now apply IH.
Qed.

Lemma take_run (p : ascii -> bool) (s : string) (m : nat) :
  (m <= run p s)%nat -> forallb p (list_ascii_of_string (take m s)) = true.
Proof.
  revert m; induction s as [|c s IH]; intros m H; simpl in H.
  - now destruct m.
  - destruct m as [|m]; [reflexivity|]. simpl.
    destruct (p c); [|lia]. simpl. apply IH. lia.
Qed.

Lemma rmatch_lang (r : regex) (s : string) :
  forall i k e,
    rmatch r s i k = Some e ->
    exists j, (i <= j)%nat /\ lang r (take (j - i) (drop i s))
              /\ k j = Some e.
Proof.
  induction r as [|p|r1 IH1 r2 IH2|r1 IH1 r2 IH2|p|];
    intros i k e H; cbn [rmatch lang] in *.
  - exists i. rewrite Nat.sub_diag, take_0. auto.
  - destruct (char_at s i) as [c|] eqn:E; [|discriminate].
    destruct (p c) eqn:Ec; [|discriminate].
    exists (S i). replace (S i - i)%nat with 1%nat by lia.
    rewrite (take_one _ _ _ E). eauto 6.
  - apply IH1 in H. destruct H as (j1 & H1 & L1 & H).
    apply IH2 in H. destruct H as (j2 & H2 & L2 & H).
    exists j2. split; [lia|]. split; [|exact H].
    exists (take (j1 - i) (drop i s)), (take (j2 - j1) (drop j1 s)).
    split; [|auto].
    replace (j2 - i)%nat with ((j1 - i) + (j2 - j1))%nat by lia.
    rewrite take_add, drop_drop. do 3 f_equal. lia.
  - destruct (rmatch r1 s i k) as [e1|] eqn:E.
    + injection H as ->. apply IH1 in E. destruct E as (j & ? & ? & ?).
      exists j. auto.
    + apply IH2 in H. destruct H as (j & ? & ? & ?). exists j. auto.
  - apply backoff_inv in H. destruct H as (m & Hm & H).
    exists (i + m)%nat. split; [lia|]. split; [|exact H].
    replace (i + m - i)%nat with m by lia. now apply take_run.
  - destruct (boundary s i); [|discriminate]. exists i.
    rewrite Nat.sub_diag, take_0. auto.
Qed.

(** The group of every match object is a string of the pattern. *)
Lemma finditer_lang (r : regex) (s : string) (ms : list Match) :
  finditer r (PyStr s) = Ok ms ->
  Forall (fun m => lang r (group m)
                   /\ exists i n, group m = take n (drop i s)) ms.
Proof.
  unfold finditer. intros H. injection H as <-.
  apply Forall_map, Forall_forall. intros [i e] Hin.
  destruct (scan_sound r s (S (String.length s)) 0 0 i e Hin) as (Hm & _).
  unfold match_at in Hm. apply rmatch_lang in Hm.
  destruct Hm as (j & _ & Hl & Hj). injection Hj as ->.
  unfold mk_match. cbn [group fst snd]. eauto.
Qed.

Lemma chars_append (a b : string) :
  list_ascii_of_string (a ++ b)
  = (list_ascii_of_string a ++ list_ascii_of_string b)%list.
Proof.
  induction a as [|c a IH]; simpl; [reflexivity | now rewrite IH].
Qed.

Lemma lang_chars (P : ascii -> Prop) (r : regex) :
  classes_in P r ->
  forall w, lang r w -> Forall P (list_ascii_of_string w).
Proof.
  induction r as [|p|r1 IH1 r2 IH2|r1 IH1 r2 IH2|p|];
    cbn [classes_in lang]; intros HP w H.
  - subst. constructor.
  - destruct H as (c & -> & Hc). repeat constructor. now apply HP.
  - destruct H as (u & v & -> & Hu & Hv). destruct HP as [HP1 HP2].
    rewrite chars_append. apply Forall_app. auto.
  - destruct HP as [HP1 HP2]. destruct H; auto.
  - rewrite forallb_forall in H. apply Forall_forall. auto.
  - subst. constructor.
Qed.

Lemma chars_take (n : nat) (s : string) (c : ascii) :
  In c (list_ascii_of_string (take n s)) -> In c (list_ascii_of_string s).
Proof.
  revert s; induction n as [|n IH]; intros s H.
  - rewrite take_0 in H. contradiction.
  - destruct s as [|x s]; simpl in *; [contradiction|].
    destruct H as [H|H]; [now left | right; now apply IH].
Qed.

Lemma chars_drop (n : nat) (s : string) (c : ascii) :
  In c (list_ascii_of_string (drop n s)) -> In c (list_ascii_of_string s).
Proof.
  revert s; induction n as [|n IH]; intros s H.
  - now destruct s.
  - destruct s as [|x s]; simpl in *; [contradiction|].
    right. now apply IH.
Qed.

(** ** Loops that cannot raise *)

Lemma for_append_total {A B} (body : A -> result (option B)) (xs : list A) :
  (forall x, In x xs -> exists o, body x = Ok o) ->
  exists out, for_append xs body = Ok out.
Proof.
  induction xs as [|x xs IH]; intros H; cbn [for_append]; [eauto|].
  destruct (H x (or_introl eq_refl)) as (o & ->).
  destruct IH as (out & ->); [intros; apply H; now right|].
  cbn [bind]. eauto.
Qed.

Lemma for_append_raise {A B} (body : A -> result (option B)) (xs : list A)
    (e : exc) :
  for_append xs body = Raise e -> exists x, In x xs /\ body x = Raise e.
Proof.
  induction xs as [|x xs IH]; cbn [for_append]; intros H; [discriminate|].
  destruct (body x) as [o|e'] eqn:E; cbn [bind] in H.
  - destruct (for_append xs body) as [rest|e'']; cbn [bind] in H;
      [discriminate|].
    injection H as ->. destruct IH as (y & Hy & Hb); [reflexivity|].
    exists y. split; [now right | exact Hb].
  - injection H as ->. exists x. split; [now left | exact E].
Qed.

(** ** The IP address detector *)

Ltac break_lang :=
  repeat match goal with
         | H : exists _, _ |- _ => destruct H
         | H : _ /\ _ |- _ => destruct H
         end.

Lemma digit_not_dot (c : ascii) :
  is_digit c = true -> Ascii.eqb c "." = false.
Proof.
  intros H. destruct (Ascii.eqb_spec c "."); [subst; discriminate H|].
  reflexivity.
Qed.

Lemma split_digits (o rest : string) :
  digit_string o = true ->
  split "." (o ++ String "." rest) = o :: split "." rest.
Proof.
  unfold digit_string. induction o as [|c o IH]; simpl; intros H.
  - reflexivity.
  - apply andb_true_iff in H. destruct H as [Hc Ho].
    rewrite (digit_not_dot c Hc), (IH Ho). reflexivity.
Qed.

Lemma split_digits_end (o : string) :
  digit_string o = true -> split "." o = [o].
Proof.
  unfold digit_string. induction o as [|c o IH]; simpl; intros H.
  - reflexivity.
  - apply andb_true_iff in H. destruct H as [Hc Ho].
    rewrite (digit_not_dot c Hc), (IH Ho). reflexivity.
Qed.

Lemma lang_octet (o : string) :
  lang (UpTo 2 digit) o ->
  digit_string o = true /\ (1 <= String.length o <= 3)%nat.
Proof.
  unfold digit. cbn [UpTo Opt lang]. intros H.
  destruct H as (u & v & -> & (c & -> & Hc) & [H| ->]).
  - destruct H as (u2 & v2 & -> & (c2 & -> & Hc2) & [(c3 & -> & Hc3)| ->]);
      unfold digit_string; simpl; unfold is_digit in *;
      rewrite ?Hc, ?Hc2, ?Hc3; split; [reflexivity | lia | reflexivity | lia].
  - unfold digit_string; simpl; unfold is_digit in *. rewrite Hc.
    split; [reflexivity | lia].
Qed.

Lemma int_digits_ok (o : string) :
  digit_string o = true ->
  forall acc, 0 <= acc -> exists n, int_digits acc o = Some n /\ 0 <= n.
Proof.
  unfold digit_string.
  induction o as [|c o IH];
    cbn [int_digits forallb list_ascii_of_string]; intros H acc Hacc.
  - eauto.
  - apply andb_true_iff in H. destruct H as [Hc Ho]. rewrite Hc.
    apply IH; [exact Ho | lia].
Qed.

Lemma py_int_digits (o : string) :
  digit_string o = true -> (1 <= String.length o)%nat ->
  exists n, py_int o = Ok n /\ 0 <= n.
Proof.
  intros Hd Hl. destruct (int_digits_ok o Hd 0) as (n & Hn & H0); [lia|].
  unfold py_int. destruct o as [|c o]; [simpl in Hl; lia|].
  rewrite Hn. eauto.
Qed.

(** A string of the IP pattern is four groups of one to three digits with
    dots between them. *)
Lemma lang_ip (w : string) :
  lang ip_pattern w ->
  exists o1 o2 o3 o4,
    w = o1 ++ "." ++ o2 ++ "." ++ o3 ++ "." ++ o4
    /\ lang (UpTo 2 digit) o1 /\ lang (UpTo 2 digit) o2
    /\ lang (UpTo 2 digit) o3 /\ lang (UpTo 2 digit) o4.
Proof.
  unfold ip_pattern. cbn [Seq Rep lang]. unfold lit. cbn [lang].
  intros (u0 & v0 & -> & -> & w1 & v1 & -> & H3 & o4 & v2 & -> & H4
          & u5 & v5 & -> & -> & ->).
  destruct H3 as (x1 & r1 & -> & (o1 & d1 & -> & H1 & c1 & -> & E1)
                  & x2 & r2 & -> & (o2 & d2 & -> & H2 & c2 & -> & E2)
                  & x3 & r3 & -> & (o3 & d3 & -> & H3 & c3 & -> & E3) & ->).
  apply Ascii.eqb_eq in E1, E2, E3. subst c1 c2 c3.
  exists o1, o2, o3, o4.
  split; [|repeat split; assumption].
  cbn [append]. rewrite !append_empty_r, !append_assoc. reflexivity.
Qed.

Lemma py_all_true {A} (f : A -> result bool) (xs : list A) :
  py_all f xs = Ok true -> forall x, In x xs -> f x = Ok true.
Proof.
  induction xs as [|y xs IH]; cbn [py_all]; intros H x Hx; [contradiction|].
  bind_inv H. destruct v; [|discriminate].
  destruct Hx as [->|Hx]; [exact Hv | now apply IH].
Qed.

Lemma py_all_total {A} (f : A -> result bool) (xs : list A) :
  (forall x, In x xs -> exists b, f x = Ok b) ->
  exists b, py_all f xs = Ok b.
Proof.
  induction xs as [|y xs IH]; cbn [py_all]; intros H; [eauto|].
  destruct (H y (or_introl eq_refl)) as (b & ->). cbn [bind].
  destruct b; [|eauto]. apply IH. intros; apply H; now right.
Qed.

Lemma ip_octets (w : string) :
  lang ip_pattern w ->
  exists o1 o2 o3 o4,
    w = o1 ++ "." ++ o2 ++ "." ++ o3 ++ "." ++ o4
    /\ split "." w = [o1; o2; o3; o4]
    /\ Forall (fun o => digit_string o = true
                        /\ (1 <= String.length o <= 3)%nat) [o1; o2; o3; o4].
Proof.
  intros H. apply lang_ip in H.
  destruct H as (o1 & o2 & o3 & o4 & -> & H1 & H2 & H3 & H4).
  apply lang_octet in H1, H2, H3, H4.
  exists o1, o2, o3, o4. split; [reflexivity|]. split.
  - cbn [append].
    rewrite (split_digits o1) by tauto. rewrite (split_digits o2) by tauto.
    rewrite (split_digits o3) by tauto. rewrite (split_digits_end o4) by tauto.
    reflexivity.
  - repeat (apply Forall_cons; [tauto|]). apply Forall_nil.
Qed.

Lemma ip_check_total (w : string) :
  lang ip_pattern w ->
  exists b, py_all octet_in_range (split "." w) = Ok b.
Proof.
  intros Hl.
  destruct (ip_octets _ Hl) as (o1 & o2 & o3 & o4 & _ & -> & Ho).
  apply py_all_total. intros o Hin.
  rewrite Forall_forall in Ho. destruct (Ho o Hin) as [Hd Hlen].
  destruct (py_int_digits o Hd) as (n & Hn & _); [lia|].
  unfold octet_in_range. rewrite Hn. cbn [bind]. eauto.
Qed.

Lemma ip_check_octets (w : string) :
  lang ip_pattern w ->
  py_all octet_in_range (split "." w) = Ok true ->
  exists o1 o2 o3 o4,
    w = o1 ++ "." ++ o2 ++ "." ++ o3 ++ "." ++ o4
    /\ octet o1 /\ octet o2 /\ octet o3 /\ octet o4.
Proof.
  intros Hl Hall.
  destruct (ip_octets _ Hl) as (o1 & o2 & o3 & o4 & Hw & Hsplit & Ho).
  rewrite Hsplit in Hall. pose proof (py_all_true _ _ Hall) as Htrue.
  rewrite Forall_forall in Ho.
  assert (Hoct : forall o, In o [o1; o2; o3; o4] -> octet o).
  { intros o Hin. destruct (Ho o Hin) as [Hd Hlen].
    specialize (Htrue o Hin). unfold octet_in_range in Htrue.
    bind_inv Htrue. injection Htrue as Hr. apply andb_true_iff in Hr.
    destruct Hr as [Hr1 Hr2]. apply Z.leb_le in Hr1, Hr2.
    unfold octet. repeat split; try tauto; try lia. eauto. }
  exists o1, o2, o3, o4. split; [exact Hw|].
  repeat split; apply Hoct; cbn [In]; tauto.
Qed.

Lemma detect_ip_total (s : string) :
  exists found, Patterns.detect_ip (PyStr s) = Ok found.
Proof.
  unfold Patterns.detect_ip.
  destruct (finditer ip_pattern (PyStr s)) as [ms|e] eqn:Hms;
    [|discriminate Hms].
  cbn [bind]. pose proof (finditer_lang _ _ _ Hms) as Hlang.
  rewrite Forall_forall in Hlang.
  apply for_append_total. intros m Hm. destruct (Hlang m Hm) as [Hl _].
  fold octet_in_range.
  destruct (ip_check_total _ Hl) as (b & ->). cbn [bind].
  destruct b; eauto.
Qed.

(** X5.  [detect_ip] never raises on a text, and every address it reports
    is four groups of one to three digits, each of value 255 at most, with
    dots between them. *)
Theorem X5_detect_ip (s : string) :
  exists found,
    Patterns.detect_ip (PyStr s) = Ok found
    /\ forall x, In x found ->
         exists o1 o2 o3 o4,
           value x = o1 ++ "." ++ o2 ++ "." ++ o3 ++ "." ++ o4
           /\ octet o1 /\ octet o2 /\ octet o3 /\ octet o4.
Proof.
  destruct (detect_ip_total s) as (found & Hfound).
  exists found. split; [exact Hfound|].
  intros x Hx. unfold Patterns.detect_ip in Hfound. bind_inv Hfound.
  pose proof (finditer_lang _ _ _ Hv) as Hlang.
  rewrite Forall_forall in Hlang.
  destruct (for_append_in _ _ _ _ Hfound Hx) as (m & Hm & Hb).
  destruct (Hlang m Hm) as [Hl _]. cbv beta in Hb.
  fold octet_in_range in Hb. bind_inv Hb.
  destruct v0; [|discriminate]. injection Hb as <-. cbn [value].
  now apply ip_check_octets.
Qed.

Lemma X5_detect_ip_witness :
  exists found x,
    Patterns.detect_ip (PyStr "256.1.1.1 or 10.0.0.255") = Ok found
    /\ In x found /\ value x = "10.0.0.255"
    /\ exists o1 o2 o3 o4,
         value x = o1 ++ "." ++ o2 ++ "." ++ o3 ++ "." ++ o4
         /\ octet o1 /\ octet o2 /\ octet o3 /\ octet o4.
Proof.
  destruct (X5_detect_ip "256.1.1.1 or 10.0.0.255") as (found & Hf & Hall).
  assert (E : found = [ {| type := "IP Address"; value := "10.0.0.255";
                           start := 13; end_ := 23; confidence := 0.9;
                           hipaa_identifier := "IP address" |} ]).
  { assert (E : Ok found
                = Ok [ {| type := "IP Address"; value := "10.0.0.255";
                          start := 13; end_ := 23; confidence := 0.9;
                          hipaa_identifier := "IP address" |} ])
      by (rewrite <- Hf; vm_compute; reflexivity).
    now injection E. }
  exists found. eexists. split; [exact Hf|].
  split; [rewrite E; left; reflexivity|].
  split; [reflexivity|]. apply Hall. rewrite E. now left.
Defined.

(** ** When the Luhn check and the grammar matcher raise *)

Lemma digits_of_raise (s : string) :
  digit_string s = false ->
  Patterns.digits_of (PyStr s) = Raise not_a_number.
Proof.
  unfold digit_string, Patterns.digits_of, py_str.
  induction (list_ascii_of_string s) as [|c cs IH];
    cbn [forallb for_append]; intros H; [discriminate|].
  destruct (is_0_9 c) eqn:Ec.
  - rewrite (py_int_digit c Ec). cbn [bind andb] in *.
    rewrite (IH H). reflexivity.
  - unfold py_int. cbn [int_digits]. rewrite Ec. reflexivity.
Qed.

Lemma luhn_check_raise (s : string) :
  digit_string s = false -> Patterns._luhn_check s = Raise not_a_number.
Proof.
  intros H. unfold Patterns._luhn_check. now rewrite (digits_of_raise s H).
Qed.

Lemma chars_remove (old : ascii) (w : string) :
  list_ascii_of_string (replace old "" w)
  = filter (fun c => negb (Ascii.eqb c old)) (list_ascii_of_string w).
Proof.
  induction w as [|c w IH]; cbn [replace list_ascii_of_string filter];
    [reflexivity|].
  destruct (Ascii.eqb c old); cbn [negb append list_ascii_of_string];
    now rewrite IH.
Qed.

Lemma credit_card_classes :
  classes_in (fun c => is_digit c = true \/ c = "-"%char \/ is_space c = true)
    credit_card_pattern.
Proof.
  unfold credit_card_pattern, sep, Opt, digit, is_dash_or_space.
  cbn [Seq Rep classes_in].
  repeat split; intros c H; auto;
    apply orb_true_iff in H; destruct H as [H|H]; auto;
    apply Ascii.eqb_eq in H; auto.
Qed.

(** In a text whose only white space is the space character, a payment
    card candidate stripped of dashes and spaces is a string of digits. *)
Lemma candidate_digits (s w : string) :
  plain_spaces s -> lang credit_card_pattern w ->
  (exists i n, w = take n (drop i s)) ->
  digit_string (strip_separators w) = true.
Proof.
  intros Hplain Hl (i & n & Hw).
  pose proof (lang_chars _ _ credit_card_classes w Hl) as Hc.
  rewrite Forall_forall in Hc.
  unfold digit_string, strip_separators. rewrite !chars_remove.
  apply forallb_forall. intros c Hin.
  apply filter_In in Hin. destruct Hin as [Hin Hsp].
  apply filter_In in Hin. destruct Hin as [Hin Hda].
  apply negb_true_iff in Hsp, Hda.
  destruct (Hc c Hin) as [H|[H|H]].
  - exact H.
  - subst. discriminate Hda.
  - assert (c = " "%char).
    { apply Hplain; [|exact H]. rewrite Hw in Hin.
      now apply chars_take, chars_drop in Hin. }
    subst. discriminate Hsp.
Qed.

Ltac never_raises :=
  intros s;
  match goal with
  | |- exists found, ?f _ = _ => unfold f
  end;
  match goal with
  | |- context [finditer ?r (PyStr s)] =>
      destruct (finditer r (PyStr s)) as [ms|e] eqn:Hms;
      [|discriminate Hms]
  end;
  cbn [bind]; apply for_append_total; intros m _;
  cbn [py_len py_slice bind].

Lemma detect_sin_total (s : string) :
  exists found, Patterns.detect_sin (PyStr s) = Ok found.
Proof. revert s. never_raises. destruct (_ <? _)%nat; eauto. Qed.

Lemma detect_phn_total (s : string) :
  exists found, Patterns.detect_phn (PyStr s) = Ok found.
Proof. revert s. never_raises. eauto. Qed.

Lemma detect_phone_total (s : string) :
  exists found, Patterns.detect_phone (PyStr s) = Ok found.
Proof. revert s. never_raises. eauto. Qed.

Lemma detect_email_total (s : string) :
  exists found, Patterns.detect_email (PyStr s) = Ok found.
Proof. revert s. never_raises. eauto. Qed.

Lemma detect_postal_code_total (s : string) :
  exists found, Patterns.detect_postal_code (PyStr s) = Ok found.
Proof. revert s. never_raises. eauto. Qed.

Lemma detect_date_total (s : string) :
  exists found, Patterns.detect_date (PyStr s) = Ok found.
Proof. revert s. never_raises. eauto. Qed.

(** [detect_credit_card] returns, or raises the [ValueError] of [int]. *)
Lemma detect_credit_card_cases (s : string) :
  (exists found, Patterns.detect_credit_card (PyStr s) = Ok found)
  \/ Patterns.detect_credit_card (PyStr s) = Raise not_a_number.
Proof.
  destruct (Patterns.detect_credit_card (PyStr s)) as [found|e] eqn:H;
    [eauto|right].
  unfold Patterns.detect_credit_card in H.
  destruct (finditer credit_card_pattern (PyStr s)) as [ms|e'] eqn:Hms;
    [|discriminate Hms].
  cbn [bind] in H. apply for_append_raise in H.
  destruct H as (m & _ & Hb). cbv beta in Hb.
  fold (strip_separators (group m)) in Hb.
  destruct (digit_string (strip_separators (group m))) eqn:Hd.
  - rewrite (luhn_check_digit_string _ Hd) in Hb. cbn [bind] in Hb.
    destruct (luhn_spec _); discriminate Hb.
  - rewrite (luhn_check_raise _ Hd) in Hb. cbn [bind] in Hb. congruence.
Qed.

Lemma detect_credit_card_plain (s : string) :
  plain_spaces s ->
  exists found, Patterns.detect_credit_card (PyStr s) = Ok found.
Proof.
  intros Hplain. unfold Patterns.detect_credit_card.
  destruct (finditer credit_card_pattern (PyStr s)) as [ms|e] eqn:Hms;
    [|discriminate Hms].
  cbn [bind]. pose proof (finditer_lang _ _ _ Hms) as Hlang.
  rewrite Forall_forall in Hlang.
  apply for_append_total. intros m Hm. destruct (Hlang m Hm) as [Hl Hsub].
  fold (strip_separators (group m)).
  rewrite (luhn_check_digit_string _ (candidate_digits s _ Hplain Hl Hsub)).
  cbn [bind]. destruct (luhn_spec _); eauto.
Qed.

Lemma detect_all_cases (s : string) :
  (exists found, Patterns.detect_all (PyStr s) = Ok found)
  \/ (Patterns.detect_all (PyStr s) = Raise not_a_number
      /\ Patterns.detect_credit_card (PyStr s) = Raise not_a_number).
Proof.
  unfold Patterns.detect_all.
  destruct (detect_sin_total s) as (r1 & ->).
  destruct (detect_phn_total s) as (r2 & ->).
  destruct (detect_phone_total s) as (r3 & ->).
  destruct (detect_email_total s) as (r4 & ->).
  destruct (detect_postal_code_total s) as (r6 & ->).
  destruct (detect_ip_total s) as (r7 & ->).
  destruct (detect_date_total s) as (r8 & ->).
  cbn [bind].
  destruct (detect_credit_card_cases s) as [(r5 & ->)| ->]; cbn [bind].
  - left. eauto.
  - right. split; reflexivity.
Qed.

(** X6.  On a text [detect_all] returns, or raises the [ValueError] of
    [int] from the Luhn check; it returns whenever the only white space of
    the text is the space character, and then [analyze] returns too if the
    recognizer does. *)
Theorem X6_grammar_matcher_errors (s : string) :
  (forall e, Patterns.detect_all (PyStr s) = Raise e ->
             (exists msg, e = Exc ValueError msg) /\ ~ plain_spaces s)
  /\ (plain_spaces s ->
      exists found, Patterns.detect_all (PyStr s) = Ok found)
  /\ (forall self N,
        plain_spaces s ->
        NERDetector.detect_entities (ner_detector self) (PyStr s) = Ok N ->
        exists r, analyze self (PyStr s) = Ok r).
Proof.
  assert (Hplain : plain_spaces s ->
                   exists found, Patterns.detect_all (PyStr s) = Ok found).
  { intros Hp. destruct (detect_all_cases s) as [H|[_ H]]; [exact H|].
    destruct (detect_credit_card_plain s Hp) as (cards & Hc). congruence. }
  split; [|split; [exact Hplain|]].
  - intros e He. destruct (detect_all_cases s) as [(found & H)|[H _]];
      [congruence|].
    split.
    + rewrite H in He. injection He as <-. unfold not_a_number. eauto.
    + intros Hp. destruct (Hplain Hp) as (found & Hf). congruence.
  - intros self N Hp HN. destruct (Hplain Hp) as (found & Hf).
    unfold analyze. rewrite Hf. cbn [bind]. rewrite HN. cbn [bind]. eauto.
Qed.

Lemma X6_grammar_matcher_errors_witness :
  let tab := String (ascii_of_nat 9) "" in
  (exists e, Patterns.detect_all (PyStr ("4532" ++ tab ++ "0151 1283 0366"))
             = Raise e /\ exists msg, e = Exc ValueError msg)
  /\ exists r, analyze quiet (PyStr "Card 4532 0151 1283 0366, 12/31/2024")
               = Ok r.
Proof.
  intros tab. split.
  - eexists. split; [vm_compute; reflexivity|].
    apply (proj1 (X6_grammar_matcher_errors
                    ("4532" ++ tab ++ "0151 1283 0366")) _).
    vm_compute. reflexivity.
  - eapply (proj2 (proj2 (X6_grammar_matcher_errors
                     "Card 4532 0151 1283 0366, 12/31/2024")) quiet).
    + intros c Hin Hsp. cbn in Hin.
      repeat (destruct Hin as [<-|Hin]; [try reflexivity; discriminate Hsp|]).
      contradiction.
    + reflexivity.
Defined.

(** ** More on the Luhn check *)

(** X7.  [_luhn_check] returns on the strings of digits and on no other
    string: on a string with a character that is no digit it raises the
    [ValueError] of [int], and [detect_credit_card] raises nothing else. *)
Theorem X7_luhn_check_errors (s : string) :
  (digit_string s = true -> Patterns._luhn_check s = Ok (luhn_spec s))
  /\ (digit_string s = false ->
      exists msg, Patterns._luhn_check s = Raise (Exc ValueError msg))
  /\ (forall b, Patterns._luhn_check s = Ok b -> digit_string s = true)
  /\ (forall text e,
        Patterns.detect_credit_card (PyStr text) = Raise e ->
        exists msg, e = Exc ValueError msg).
Proof.
  split; [apply luhn_check_digit_string|].
  split; [intros H; rewrite (luhn_check_raise s H);
          unfold not_a_number; eauto|].
  split; [apply luhn_check_ok|].
  intros text e He.
  destruct (detect_credit_card_cases text) as [(found & H)|H];
    [congruence|].
  rewrite H in He. injection He as <-. unfold not_a_number. eauto.
Qed.

Lemma X7_luhn_check_errors_witness :
  Patterns._luhn_check "4532015112830366" = Ok true
  /\ exists msg,
       Patterns._luhn_check "4532-0151" = Raise (Exc ValueError msg).
Proof.
  split.
  - rewrite (proj1 (X7_luhn_check_errors "4532015112830366")); reflexivity.
  - apply (proj1 (proj2 (X7_luhn_check_errors "4532-0151"))). reflexivity.
Defined.

Lemma luhn_total_app (P Q : list Z) :
  forall second,
    luhn_total second (P ++ Q)
    = luhn_total second P
      + luhn_total (xorb second (Nat.odd (List.length P))) Q.
Proof.
  induction P as [|x P IH]; intros second.
  - cbn [List.app luhn_total List.length]. rewrite xorb_false_r. lia.
  - cbn [List.app luhn_total List.length]. rewrite IH.
    rewrite Nat.odd_succ, <- Nat.negb_odd.
    replace (xorb (negb second) (Nat.odd (List.length P)))
      with (xorb second (negb (Nat.odd (List.length P))))
      by (destruct second, (Nat.odd (List.length P)); reflexivity).
    lia.
Qed.

(** Doubling keeps two different digits different. *)
Lemma luhn_doubled_digits (x y : Z) :
  0 <= x <= 9 -> 0 <= y <= 9 -> x <> y ->
  0 <= luhn_doubled x <= 9 /\ 0 <= luhn_doubled y <= 9
  /\ luhn_doubled x <> luhn_doubled y.
Proof.
  intros Hx Hy Hne.
  assert (Ex : x = 0 \/ x = 1 \/ x = 2 \/ x = 3 \/ x = 4 \/ x = 5 \/ x = 6
               \/ x = 7 \/ x = 8 \/ x = 9) by lia.
  assert (Ey : y = 0 \/ y = 1 \/ y = 2 \/ y = 3 \/ y = 4 \/ y = 5 \/ y = 6
               \/ y = 7 \/ y = 8 \/ y = 9) by lia.
  repeat (destruct Ex as [Ex|Ex]);
    repeat (destruct Ey as [Ey|Ey]);
    subst; vm_compute; repeat split; congruence.
Qed.

Lemma digit_value_inj (c c' : ascii) :
  is_0_9 c = true -> is_0_9 c' = true -> c <> c' ->
  digit_value c <> digit_value c'.
Proof.
  unfold is_0_9, between, digit_value, code. intros H H' Hne E.
  apply andb_true_iff in H, H'. destruct H as [H _], H' as [H' _].
  apply Nat.leb_le in H, H'.
  assert (En : nat_of_ascii c = nat_of_ascii c') by lia.
  apply Hne. rewrite <- (ascii_nat_embedding c), <- (ascii_nat_embedding c').
  now rewrite En.
Qed.

(** The totals of two strings of digits that differ in one place differ by
    less than ten and are not equal. *)
Lemma luhn_total_one_digit (A B : list Z) (x y : Z) :
  0 <= x <= 9 -> 0 <= y <= 9 -> x <> y ->
  let t := fun z => luhn_total false (rev (A ++ z :: B)) in
  t x <> t y /\ -9 <= t x - t y <= 9.
Proof.
  intros Hx Hy Hne t. unfold t.
  rewrite !rev_app_distr. cbn [rev]. rewrite <- !app_assoc.
  rewrite !luhn_total_app. cbn [List.app luhn_total List.length].
  destruct (luhn_doubled_digits x y Hx Hy Hne) as (Dx & Dy & Dne).
  destruct (xorb false (Nat.odd (List.length (rev B)))); lia.
Qed.

(** X8.  The Luhn check catches every single wrong digit: if a string of
    digits passes, no string that differs from it in exactly one digit
    passes. *)
Theorem X8_luhn_single_digit (a b : string) (c c' : ascii) :
  digit_string a = true -> digit_string b = true ->
  is_0_9 c = true -> is_0_9 c' = true -> c <> c' ->
  Patterns._luhn_check (a ++ String c b) = Ok true ->
  Patterns._luhn_check (a ++ String c' b) = Ok false.
Proof.
  intros Ha Hb Hc Hc' Hne.
  assert (Hd : forall z, is_0_9 z = true ->
                         digit_string (a ++ String z b) = true).
  { intros z Hz. unfold digit_string in *.
    rewrite chars_append, forallb_app. cbn [list_ascii_of_string forallb].
    now rewrite Ha, Hz, Hb. }
  rewrite (luhn_check_digit_string _ (Hd c Hc)).
  rewrite (luhn_check_digit_string _ (Hd c' Hc')).
  unfold luhn_spec. rewrite !chars_append.
  cbn [list_ascii_of_string]. rewrite !map_app. cbn [map].
  set (A := map digit_value (list_ascii_of_string a)).
  set (B := map digit_value (list_ascii_of_string b)).
  destruct (luhn_total_one_digit A B (digit_value c) (digit_value c'))
    as [Hdiff Hrange].
  - now apply digit_value_range.
  - now apply digit_value_range.
  - now apply digit_value_inj.
  - cbv beta in Hdiff, Hrange. intros H. injection H as H.
    apply Z.eqb_eq in H. f_equal. apply Z.eqb_neq. intros H'.
    apply Z.mod_divide in H, H'; try lia.
    destruct H as [k Hk], H' as [k' Hk']. lia.
Qed.

Lemma X8_luhn_single_digit_witness :
  Patterns._luhn_check "4532015112830366" = Ok true
  /\ Patterns._luhn_check "4532015112830866" = Ok false.
Proof.
  assert (H : Patterns._luhn_check ("4532015112830" ++ String "3" "66")
              = Ok true) by reflexivity.
  split; [exact H|].
  apply (X8_luhn_single_digit "4532015112830" "66" "3" "8");
    first [exact H | reflexivity | discriminate].
Defined.

(** ** The merge and the risk of [analyze] *)

Lemma sort_sorted (l : list Detection) :
  StronglySorted le_start l -> sort_by_start l = l.
Proof.
  induction 1 as [|x l Hs IH Hx]; cbn [sort_by_start fold_right];
    [reflexivity|].
  fold (sort_by_start l). rewrite IH.
  destruct l as [|y l]; [reflexivity|]. cbn [insert_asc].
  inversion Hx as [|? ? Hxy _]; subst. unfold le_start in Hxy.
  apply Z.leb_le in Hxy. now rewrite Hxy.
Qed.

Lemma retained_none (G E : list Detection) :
  (forall e, In e E -> exists g, In g G /\ intersects e g = true) ->
  retained G E = [].
Proof.
  intros H. unfold retained.
  induction E as [|e E IH]; cbn [filter]; [reflexivity|].
  destruct (H e (or_introl eq_refl)) as (g & Hg & Hi).
  assert (Hf : forallb (fun g0 => negb (intersects e g0)) G = false).
  { apply not_true_is_false. intros Hall.
    rewrite forallb_forall in Hall. specialize (Hall g Hg).
    rewrite Hi in Hall. discriminate. }
  rewrite Hf. apply IH. intros; apply H; now right.
Qed.

(** X9.  Grammar-only results pass through the merge unchanged: if the
    grammar detections are in ascending order of [start], as [detect_all]
    returns them, and every entity detection intersects one of them (or
    there is none), the merge returns the grammar detections as they are;
    so when the recognizer reports nothing [analyze] reports exactly the
    detections of [detect_all]. *)
Theorem X9_grammar_only (G E : list Detection) :
  StronglySorted le_start G ->
  (forall e, In e E -> exists g, In g G /\ intersects e g = true) ->
  _merge_detections G E = G
  /\ (forall self text,
        Patterns.detect_all text = Ok G ->
        NERDetector.detect_entities (ner_detector self) text = Ok E ->
        exists r, analyze self text = Ok r /\ detections r = G
                  /\ risk_level r = _calculate_risk G
                  /\ redacted_text r = _redact_text (py_str text) G).
Proof.
  intros Hs HE.
  assert (Hm : _merge_detections G E = G).
  { rewrite merge_unfold, (retained_none G E HE), app_nil_r.
    now apply sort_sorted. }
  split; [exact Hm|].
  intros self text HG HN. unfold analyze. rewrite HG. cbn [bind].
  rewrite HN. cbn [bind]. rewrite Hm. eexists. split; [reflexivity|].
  cbn [detections risk_level redacted_text]. auto.
Qed.

Lemma X9_grammar_only_witness :
  let phone := {| type := "Phone Number"; value := "604-555-1234";
                  start := 5; end_ := 17; confidence := 0.8;
                  hipaa_identifier := "Telephone number" |} in
  let date := {| type := "DATE"; value := "555-1234";
                 start := 9; end_ := 17; confidence := 0.85;
                 hipaa_identifier := "#7 - Dates" |} in
  _merge_detections [phone] [date] = [phone]
  /\ exists r, analyze quiet (PyStr "Call 604-555-1234") = Ok r
               /\ detections r = [phone].
Proof.
  intros phone date. split.
  - apply (X9_grammar_only [phone] [date]).
    + repeat constructor.
    + intros e [<-|[]]. exists phone. split; [now left | reflexivity].
  - destruct (X9_grammar_only [phone] []) as [_ H].
    + repeat constructor.
    + intros e [].
    + destruct (H quiet (PyStr "Call 604-555-1234")) as (r & Hr & Hd & _);
        [reflexivity | reflexivity |].
      exists r. split; [exact Hr | exact Hd].
Defined.

Lemma existsb_perm {A} (f : A -> bool) (l l' : list A) :
  Permutation l l' -> existsb f l = existsb f l'.
Proof.
  intros H. apply eq_true_iff_eq. rewrite !existsb_exists.
  split; intros (x & Hx & Hf); exists x; (split; [|exact Hf]).
  - eapply Permutation_in; eassumption.
  - eapply Permutation_in; [symmetry|]; eassumption.
Qed.

Lemma calculate_risk_perm (l l' : list Detection) :
  Permutation l l' -> _calculate_risk l = _calculate_risk l'.
Proof.
  intros H. unfold _calculate_risk.
  rewrite (any_high_risk_existsb l), (any_high_risk_existsb l').
  rewrite (existsb_perm _ l l' H), (Permutation_length H).
  destruct l as [|x l], l' as [|y l']; try reflexivity.
  apply Permutation_nil in H. discriminate.
Qed.

Lemma calculate_risk_grows (l extra : list Detection) :
  (risk_rank (_calculate_risk l)
   <= risk_rank (_calculate_risk (l ++ extra)))%nat.
Proof.
  unfold _calculate_risk.
  rewrite (any_high_risk_existsb l), (any_high_risk_existsb (l ++ extra)).
  rewrite existsb_app, length_app.
  destruct l as [|x l]; [cbn; lia|]. cbn [List.app].
  destruct (existsb _ (x :: l)); cbn [orb].
  - reflexivity.
  - destruct (existsb _ extra); cbn [risk_rank].
    + destruct (3 <=? _)%nat; cbn; lia.
    + destruct (Nat.leb_spec 3 (List.length (x :: l))) as [H|H].
      * destruct (Nat.leb_spec 3 (List.length (x :: l) + List.length extra));
          [reflexivity | lia].
      * cbn. lia.
Qed.

(** X10.  The risk level does not depend on the order of the detections,
    and further detections never lower it (LOW below MEDIUM below HIGH). *)
Theorem X10_risk_monotone :
  (forall l l', Permutation l l' -> _calculate_risk l = _calculate_risk l')
  /\ (forall l extra,
        (risk_rank (_calculate_risk l)
         <= risk_rank (_calculate_risk (l ++ extra)))%nat)
  /\ (forall l, _calculate_risk (sort_by_start l) = _calculate_risk l).
Proof.
  split; [exact calculate_risk_perm|].
  split; [exact calculate_risk_grows|].
  intros l. apply calculate_risk_perm, sort_by_start_perm.
Qed.

Lemma X10_risk_monotone_witness :
  let mk t := {| type := t; value := "v"; start := 0; end_ := 1;
                 confidence := 0.85; hipaa_identifier := "h" |} in
  _calculate_risk [mk "NAME"; mk "Credit Card Number"]
  = _calculate_risk [mk "Credit Card Number"; mk "NAME"]
  /\ (risk_rank (_calculate_risk [mk "NAME"; mk "Date"])
      <= risk_rank (_calculate_risk ([mk "NAME"; mk "Date"] ++ [mk "DATE"])))%nat.
Proof.
  intros mk. destruct X10_risk_monotone as (Hperm & Hgrow & _). split.
  - apply Hperm. apply perm_swap.
  - apply Hgrow.
Defined.

(** X11.  The recognizer never lowers the risk: the risk level of a result
    of [analyze] is that of the grammar detections alone or a higher one,
    and it is HIGH whenever the grammar matcher reports a detection of a
    high-risk type. *)
Theorem X11_recognizer_never_lowers_risk
    (self : PHIDetector.t) (text : pyobj) (G : list Detection)
    (r : AnalysisResult) :
  Patterns.detect_all text = Ok G ->
  analyze self text = Ok r ->
  (risk_rank (_calculate_risk G) <= risk_rank (risk_level r))%nat
  /\ (any_high_risk G = true -> risk_level r = "HIGH" /\ has_phi r = true).
Proof.
  intros HG H. unfold analyze in H. rewrite HG in H. cbn [bind] in H.
  bind_inv H. injection H as <-. cbn [risk_level has_phi].
  rewrite merge_unfold.
  rewrite (calculate_risk_perm _ _ (sort_by_start_perm _)).
  split; [apply calculate_risk_grows|].
  intros Hhigh.
  assert (Hany : any_high_risk (G ++ retained G v) = true).
  { rewrite any_high_risk_existsb, existsb_app,
      <- any_high_risk_existsb, Hhigh. reflexivity. }
  rewrite (Permutation_length (sort_by_start_perm _)).
  unfold _calculate_risk. rewrite Hany.
  destruct G as [|g G]; [discriminate Hhigh|]. split; reflexivity.
Qed.

Lemma X11_recognizer_never_lowers_risk_witness :
  let self := scripted
    [ {| NERDetector.label_ := "PERSON"; NERDetector.text := "Ann";
         NERDetector.start_char := 0; NERDetector.end_char := 3 |} ] in
  exists r, analyze self (PyStr "Ann, PHN 1234567890") = Ok r
            /\ risk_level r = "HIGH" /\ List.length (detections r) = 2%nat.
Proof.
  intros self. eexists. split; [vm_compute; reflexivity|].
  split; [|reflexivity].
  eapply (X11_recognizer_never_lowers_risk self (PyStr "Ann, PHN 1234567890")).
  - vm_compute. reflexivity.
  - vm_compute. reflexivity.
  - reflexivity.
Defined.

(** ** More on the redaction *)

Lemma ordered_pairwise (l : list Detection) :
  ForallOrdPairs disjoint l -> pairwise_disjoint l.
Proof.
  induction 1 as [|x l Hx Hl IH]; intros i j a b Hij Ha Hb.
  - destruct i; discriminate Ha.
  - rewrite Forall_forall in Hx.
    destruct i as [|i], j as [|j]; cbn [nth_error] in Ha, Hb.
    + congruence.
    + injection Ha as <-. apply Hx. eapply nth_error_In; eassumption.
    + injection Hb as <-. apply disjoint_sym, Hx.
      eapply nth_error_In; eassumption.
    + apply (IH i j); [congruence | exact Ha | exact Hb].
Qed.

Lemma pairwise_perm (D D' : list Detection) :
  pairwise_disjoint D -> Permutation D D' -> pairwise_disjoint D'.
Proof.
  intros Hd Hp. apply ordered_pairwise.
  eapply ordered_pairs_perm; [exact Hp|].
  now apply pairwise_disjoint_ordered.
Qed.

Lemma sort_perm_eq (text : string) (D D' : list Detection) :
  Forall (valid_in text) D -> pairwise_disjoint D -> Permutation D D' ->
  sort_by_start D' = sort_by_start D.
Proof.
  intros Hv Hd Hp.
  assert (Hv' : Forall (valid_in text) D')
    by (eapply Permutation_Forall; eassumption).
  apply chain_unique.
  - apply (ascending_sort_chain text); [exact Hv'|].
    eapply pairwise_perm; eassumption.
  - now apply (ascending_sort_chain text).
  - rewrite (sort_by_start_perm D'), (sort_by_start_perm D). now symmetry.
  - eapply Permutation_Forall; [symmetry; apply sort_by_start_perm|].
    eapply Forall_impl; [|exact Hv']. unfold valid_in. intros; lia.
Qed.

Lemma stitch_len (text : string) (asc : list Detection) :
  StronglySorted left_of asc ->
  forall cursor,
    Forall (valid_in text) asc ->
    Forall (fun x => cursor <= start x) asc ->
    0 <= cursor <= len text ->
    len (stitch text cursor asc)
    = len text - cursor + shift asc (len text).
Proof.
  induction 1 as [|x asc Hs IH Hx]; intros cursor Hv Hc H0;
    cbn [stitch shift].
  - rewrite slice_from by lia. unfold len in *. rewrite length_drop. lia.
  - inversion Hv as [|? ? (Hv0 & Hv1 & Hv2) Hv']; subst.
    inversion Hc as [|? ? Hcx Hc']; subst.
    destruct (Z.leb_spec (end_ x) (len text)); [|lia].
    assert (Hrest : len (stitch text (end_ x) asc)
                    = len text - end_ x + shift asc (len text)).
    { apply IH; [exact Hv' | exact Hx | lia]. }
    assert (Hpiece : len (slice text (Some cursor) (Some (start x)))
                     = start x - cursor).
    { rewrite slice_inside by lia. unfold len in *.
      rewrite length_take, length_drop. lia. }
    unfold len in *. rewrite !length_append. lia.
Qed.

Lemma prefix_append (sub rest : string) : prefix sub (sub ++ rest) = true.
Proof.
  induction sub as [|c sub IH]; cbn [append].
  - now destruct rest.
  - cbn [prefix]. destruct (ascii_dec c c); [exact IH | congruence].
Qed.

Lemma contains_append (sub pre post : string) :
  contains sub (pre ++ sub ++ post) = true.
Proof.
  induction pre as [|c pre IH]; cbn [append].
  - destruct (sub ++ post) eqn:E; cbn [contains]; rewrite <- E;
      now rewrite prefix_append.
  - cbn [contains]. rewrite IH. apply orb_true_r.
Qed.

Lemma stitch_has_placeholder (text : string) (x : Detection)
    (asc : list Detection) :
  In x asc ->
  forall cursor, exists pre post,
    stitch text cursor asc = pre ++ placeholder x ++ post.
Proof.
  induction asc as [|y asc IH]; intros Hin cursor; [contradiction|].
  cbn [stitch]. destruct Hin as [->|Hin].
  - eauto.
  - destruct (IH Hin (end_ y)) as (pre & post & ->).
    exists (slice text (Some cursor) (Some (start y)) ++ placeholder y ++ pre),
      post.
    now rewrite !append_assoc.
Qed.

(** X12.  For detections with non-empty spans inside the text, no two of
    which intersect: the redacted text does not depend on the order in
    which the detections are given; its length is that of the text plus,
    for each detection, the length of the placeholder less the length of
    the span; and the placeholder of every detection occurs in it. *)
Theorem X12_redaction_order_length (text : string) (D : list Detection) :
  Forall (valid_in text) D -> pairwise_disjoint D ->
  (forall D', Permutation D D' -> _redact_text text D' = _redact_text text D)
  /\ len (_redact_text text D) = len text + shift D (len text)
  /\ (forall x, In x D ->
        contains (placeholder x) (_redact_text text D) = true).
Proof.
  intros Hv Hd. split; [|split].
  - intros D' Hp.
    rewrite (redact_stitch text D Hv Hd).
    rewrite (redact_stitch text D').
    + now rewrite (sort_perm_eq text D D' Hv Hd Hp).
    + eapply Permutation_Forall; eassumption.
    + eapply pairwise_perm; eassumption.
  - rewrite (redact_stitch text D Hv Hd).
    rewrite stitch_len.
    + rewrite (shift_perm _ _ _ (sort_by_start_perm D)). lia.
    + now apply (ascending_sort_chain text).
    + eapply Permutation_Forall; [symmetry; apply sort_by_start_perm|].
      exact Hv.
    + eapply Permutation_Forall; [symmetry; apply sort_by_start_perm|].
      eapply Forall_impl; [|exact Hv]. unfold valid_in. intros; lia.
    + pose proof (len_nonneg text). lia.
  - intros x Hx. rewrite (redact_stitch text D Hv Hd).
    destruct (stitch_has_placeholder text x (sort_by_start D)) with (cursor := 0)
      as (pre & post & ->).
    + eapply Permutation_in; [symmetry; apply sort_by_start_perm | exact Hx].
    + apply contains_append.
Qed.

Lemma X12_redaction_order_length_witness :
  let text := "Email: test@x.com, Phone: 604-555-1234" in
  let email := {| type := "Email Address"; value := "test@x.com";
                  start := 7; end_ := 17; confidence := 0.95;
                  hipaa_identifier := "Email address" |} in
  let phone := {| type := "Phone Number"; value := "604-555-1234";
                  start := 26; end_ := 38; confidence := 0.8;
                  hipaa_identifier := "Telephone number" |} in
  _redact_text text [phone; email] = _redact_text text [email; phone]
  /\ len (_redact_text text [email; phone]) = 38 + (15 - 10) + (14 - 12)
  /\ contains "[PHONE_NUMBER]" (_redact_text text [email; phone]) = true.
Proof.
  intros text email phone.
  assert (Hv : Forall (valid_in text) [email; phone]).
  { repeat constructor; vm_compute; congruence. }
  assert (Hd : pairwise_disjoint [email; phone]).
  { apply ordered_pairwise. repeat constructor. unfold disjoint. simpl. lia. }
  destruct (X12_redaction_order_length text [email; phone] Hv Hd)
    as (Hperm & Hlen & Hocc).
  split; [apply Hperm, perm_swap|].
  split; [rewrite Hlen; reflexivity|].
  apply (Hocc phone). right. now left.
Defined.

(** ** The entity recognizer adapter *)

Lemma for_append_complete {A B} (body : A -> result (option B))
    (xs : list A) (x : A) (b : B) :
  forall out,
    for_append xs body = Ok out -> In x xs -> body x = Ok (Some b) ->
    In b out.
Proof.
  induction xs as [|y xs IH]; intros out H Hin Hb; [contradiction|].
  cbn [for_append] in H. bind_inv H. bind_inv H. injection H as <-.
  destruct Hin as [->|Hin].
  - rewrite Hb in Hv. injection Hv as <-. now left.
  - specialize (IH _ Hv0 Hin Hb). destruct v; [now right | exact IH].
Qed.

Lemma for_append_length {A B} (body : A -> result (option B)) (xs : list A) :
  forall out,
    for_append xs body = Ok out -> (List.length out <= List.length xs)%nat.
Proof.
  induction xs as [|y xs IH]; intros out H; cbn [for_append] in H.
  - injection H as <-. reflexivity.
  - bind_inv H. bind_inv H. injection H as <-. specialize (IH _ Hv0).
    destruct v; cbn [List.length]; lia.
Qed.

(** The two dictionaries of [detect_entities] have the same keys, and the
    mapped types are four. *)
Lemma entity_maps_agree (label mapped : string) :
  NERDetector.lookup label NERDetector.entity_type_map = Some mapped ->
  In mapped entity_types
  /\ exists identifier,
       NERDetector.lookup label NERDetector.hipaa_identifiers
       = Some identifier.
Proof.
  unfold NERDetector.entity_type_map, NERDetector.hipaa_identifiers,
    entity_types.
  cbn [NERDetector.lookup].
  destruct (String.eqb "PERSON" label), (String.eqb "GPE" label),
    (String.eqb "LOC" label), (String.eqb "ORG" label),
    (String.eqb "DATE" label);
    intros H; try discriminate H; injection H as <-;
    (split; [cbn [In]; tauto | eauto]).
Qed.

(** X13.  [detect_entities] raises exactly what the pipeline raises and
    nothing of its own, in particular no [KeyError].  When the pipeline
    returns, the result is in ascending order of [start] and holds one
    detection for each entity with one of the five known labels, with the
    text and the offsets of the entity, one of the types NAME, LOCATION,
    ORGANIZATION and DATE, and confidence 0.85; entities with another label
    are dropped. *)
Theorem X13_detect_entities (self : NERDetector.t) (text : pyobj) :
  (forall e, NERDetector.nlp self text = Raise e ->
             NERDetector.detect_entities self text = Raise e)
  /\ (forall ents,
        NERDetector.nlp self text = Ok ents ->
        exists found,
          NERDetector.detect_entities self text = Ok found
          /\ StronglySorted le_start found
          /\ (List.length found <= List.length ents)%nat
          /\ (forall x, In x found ->
                In (type x) entity_types /\ confidence x = 0.85%Q
                /\ exists ent,
                     In ent ents
                     /\ NERDetector.lookup (NERDetector.label_ ent)
                          NERDetector.entity_type_map = Some (type x)
                     /\ value x = NERDetector.text ent
                     /\ start x = NERDetector.start_char ent
                     /\ end_ x = NERDetector.end_char ent)
          /\ (forall ent mapped,
                In ent ents ->
                NERDetector.lookup (NERDetector.label_ ent)
                  NERDetector.entity_type_map = Some mapped ->
                exists x, In x found /\ type x = mapped
                          /\ value x = NERDetector.text ent
                          /\ start x = NERDetector.start_char ent
                          /\ end_ x = NERDetector.end_char ent)).
Proof.
  unfold NERDetector.detect_entities. split.
  - intros e ->. reflexivity.
  - intros ents ->. cbn [bind].
    match goal with
    | |- context [for_append ents ?b] => set (body := b)
    end.
    destruct (for_append_total body ents) as (out & Hout).
    { intros ent _. unfold body.
      destruct (NERDetector.lookup _ NERDetector.entity_type_map)
        as [mapped|] eqn:E; [|eauto].
      destruct (entity_maps_agree _ _ E) as (_ & h & ->). eauto. }
    rewrite Hout. cbn [bind]. eexists. split; [reflexivity|].
    split; [apply sort_by_start_sorted|].
    split; [rewrite (Permutation_length (sort_by_start_perm out));
            exact (for_append_length _ _ _ Hout)|].
    split.
    + intros x Hx.
      eapply Permutation_in in Hx; [|apply sort_by_start_perm].
      destruct (for_append_in _ _ _ _ Hout Hx) as (ent & Hent & Hb).
      unfold body in Hb.
      destruct (NERDetector.lookup _ NERDetector.entity_type_map)
        as [mapped|] eqn:E; [|discriminate Hb].
      destruct (entity_maps_agree _ _ E) as (Hin & h & Hh).
      rewrite Hh in Hb. injection Hb as <-. cbn [type confidence value start end_].
      split; [exact Hin|]. split; [reflexivity|].
      exists ent. auto.
    + intros ent mapped Hent E.
      destruct (entity_maps_agree _ _ E) as (_ & h & Hh).
      eexists. split.
      * eapply Permutation_in; [symmetry; apply sort_by_start_perm|].
        eapply (for_append_complete body ents ent); [exact Hout | exact Hent|].
        unfold body. rewrite E, Hh. reflexivity.
      * cbn [type value start end_]. auto.
Qed.

Lemma X13_detect_entities_witness :
  let self := {| NERDetector.nlp := fun _ => Ok
    [ {| NERDetector.label_ := "ORG"; NERDetector.text := "VGH";
         NERDetector.start_char := 12; NERDetector.end_char := 15 |};
      {| NERDetector.label_ := "CARDINAL"; NERDetector.text := "two";
         NERDetector.start_char := 5; NERDetector.end_char := 8 |};
      {| NERDetector.label_ := "PERSON"; NERDetector.text := "Ann";
         NERDetector.start_char := 0; NERDetector.end_char := 3 |} ] |} in
  exists found,
    NERDetector.detect_entities self (PyStr "Ann, two at VGH") = Ok found
    /\ map type found = ["NAME"; "ORGANIZATION"]
    /\ StronglySorted le_start found.
Proof.
  intros self.
  destruct (proj2 (X13_detect_entities self (PyStr "Ann, two at VGH")) _ eq_refl)
    as (found & Hf & Hs & _).
  exists found. split; [exact Hf|]. split; [|exact Hs].
  assert (E : Ok found = Ok (A := list Detection)
                [ {| type := "NAME"; value := "Ann"; start := 0; end_ := 3;
                     confidence := 0.85; hipaa_identifier := "#1 - Names" |};
                  {| type := "ORGANIZATION"; value := "VGH"; start := 12;
                     end_ := 15; confidence := 0.85;
                     hipaa_identifier
                       := "Organization name (potential identifier)" |} ])
    by (rewrite <- Hf; reflexivity).
  injection E as ->. reflexivity.
Defined.

(** ** The merge keeps a set of detections free of intersections *)

Lemma ordered_pairs_app (l1 l2 : list Detection) :
  ForallOrdPairs disjoint l1 -> ForallOrdPairs disjoint l2 ->
  (forall a b, In a l1 -> In b l2 -> disjoint a b) ->
  ForallOrdPairs disjoint (l1 ++ l2).
Proof.
  induction 1 as [|x l1 Hx Hl IH]; intros H2 Hcross; cbn [List.app];
    [exact H2|].
  constructor.
  - apply Forall_app. split; [exact Hx|].
    apply Forall_forall. intros b Hb. apply Hcross; [now left | exact Hb].
  - apply IH; [exact H2|]. intros a b Ha Hb. apply Hcross; [now right|exact Hb].
Qed.

Lemma ordered_pairs_filter (f : Detection -> bool) (l : list Detection) :
  ForallOrdPairs disjoint l -> ForallOrdPairs disjoint (filter f l).
Proof.
  induction 1 as [|x l Hx Hl IH]; cbn [filter]; [constructor|].
  destruct (f x); [|exact IH]. constructor; [|exact IH].
  rewrite Forall_forall in *. intros y Hy. apply filter_In in Hy.
  now apply Hx.
Qed.

(** X14.  The merge keeps sets of detections free of intersections: if no
    two grammar detections intersect and no two entity detections
    intersect, no two detections of the merged list intersect. *)
Theorem X14_merge_keeps_disjoint (G E : list Detection) :
  pairwise_disjoint G -> pairwise_disjoint E ->
  pairwise_disjoint (_merge_detections G E).
Proof.
  intros HG HE. apply ordered_pairwise. rewrite merge_unfold.
  eapply ordered_pairs_perm; [symmetry; apply sort_by_start_perm|].
  apply ordered_pairs_app.
  - now apply pairwise_disjoint_ordered.
  - apply ordered_pairs_filter. now apply pairwise_disjoint_ordered.
  - intros g e Hg He. apply retained_spec in He. destruct He as [_ He].
    specialize (He g Hg). unfold disjoint. lia.
Qed.

Lemma X14_merge_keeps_disjoint_witness :
  let phone := {| type := "Phone Number"; value := "604-555-1234";
                  start := 10; end_ := 22; confidence := 0.8;
                  hipaa_identifier := "Telephone number" |} in
  let date := {| type := "DATE"; value := "555-1234 t";
                 start := 14; end_ := 24; confidence := 0.85;
                 hipaa_identifier := "#7 - Dates" |} in
  let name := {| type := "NAME"; value := "Ann";
                 start := 2; end_ := 5; confidence := 0.85;
                 hipaa_identifier := "#1 - Names" |} in
  pairwise_disjoint (_merge_detections [phone] [name; date])
  /\ _merge_detections [phone] [name; date] = [name; phone].
Proof.
  intros phone date name. split; [|reflexivity].
  apply X14_merge_keeps_disjoint; apply ordered_pairwise.
  - repeat constructor.
  - repeat constructor. unfold disjoint. simpl. lia.
Defined.

(** ** The risk assessor of the chat layer and the classifier of the core *)

Lemma nonempty_inter (set : list string) (l : list string) :
  ChatBot.nonempty (ChatBot.inter (nodup string_dec l) set)
  = existsb (fun t => mem t set) l.
Proof.
  apply eq_true_iff_eq. rewrite existsb_exists. unfold ChatBot.inter. split.
  - intros H.
    destruct (filter _ (nodup string_dec l)) as [|t rest] eqn:E;
      [discriminate H|].
    assert (Hin : In t (filter (fun x => mem x set) (nodup string_dec l)))
      by (rewrite E; now left).
    apply filter_In in Hin. destruct Hin as [Hin Hm].
    apply nodup_In in Hin. eauto.
  - intros (t & Hin & Hm).
    assert (Hf : In t (filter (fun x => mem x set) (nodup string_dec l))).
    { apply filter_In. split; [now apply nodup_In | exact Hm]. }
    destruct (filter _ (nodup string_dec l)); [contradiction | reflexivity].
Qed.

Lemma existsb_map {A B} (f : B -> bool) (g : A -> B) (l : list A) :
  existsb f (map g l) = existsb (fun x => f (g x)) l.
Proof.
  induction l as [|x l IH]; cbn [map existsb]; [reflexivity|].
  now rewrite IH.
Qed.

Lemma assess_unfold (l : list Detection) :
  ChatBot._assess_risk_level l
  = match l with
    | [] => "LOW"
    | _ =>
        if existsb (fun x => mem (type x) ChatBot.critical_types) l
        then "CRITICAL"
        else if existsb (fun x => mem (type x) ChatBot.high_risk_types) l
        then "HIGH"
        else if existsb (fun x => mem (type x) ChatBot.medium_risk_types) l
        then if (5 <? List.length l)%nat then "HIGH" else "MEDIUM"
        else "LOW"
    end.
Proof.
  unfold ChatBot._assess_risk_level. destruct l as [|x l]; [reflexivity|].
  rewrite !nonempty_inter, !existsb_map. reflexivity.
Qed.

Lemma critical_on_vocabulary (t : string) :
  In t vocabulary ->
  mem t ChatBot.critical_types = mem t PHIDetector.high_risk_types.
Proof.
  unfold vocabulary. cbn [In].
  intros H. repeat (destruct H as [<-|H]; [reflexivity|]). contradiction.
Qed.

(** X15.  The assessor of the chat layer returns one of LOW, MEDIUM, HIGH
    and CRITICAL, whatever the order of the detections; and on detections
    whose types belong to the canonical vocabulary it answers CRITICAL
    exactly when the classifier of the core answers HIGH. *)
Theorem X15_chat_and_core (l : list Detection) :
  In (ChatBot._assess_risk_level l) ["LOW"; "MEDIUM"; "HIGH"; "CRITICAL"]
  /\ (forall l', Permutation l l' ->
                 ChatBot._assess_risk_level l' = ChatBot._assess_risk_level l)
  /\ ((forall x, In x l -> In (type x) vocabulary) ->
      (ChatBot._assess_risk_level l = "CRITICAL"
       <-> _calculate_risk l = "HIGH")).
Proof.
  split; [|split].
  - rewrite assess_unfold. destruct l as [|x l]; [cbn [In]; tauto|].
    repeat match goal with
           | |- context [if ?b then _ else _] => destruct b
           end; cbn [In]; tauto.
  - intros l' Hp. rewrite !assess_unfold.
    rewrite !(existsb_perm _ l l' Hp), (Permutation_length Hp).
    destruct l as [|x l], l' as [|y l']; try reflexivity;
      exfalso;
      first [ apply Permutation_nil in Hp; discriminate Hp
            | apply Permutation_sym, Permutation_nil in Hp; discriminate Hp ].
  - intros Hv. rewrite assess_unfold. unfold _calculate_risk.
    rewrite any_high_risk_existsb.
    rewrite (existsb_ext_in (fun x => mem (type x) ChatBot.critical_types)
               (fun x => mem (type x) PHIDetector.high_risk_types) l)
      by (intros x Hx; apply critical_on_vocabulary, Hv, Hx).
    destruct l as [|x l]; [split; discriminate|].
    destruct (existsb _ (x :: l)); [tauto|].
    split; intros H.
    + repeat match type of H with
             | (if ?b then _ else _) = _ => destruct b
             end; discriminate H.
    + destruct (3 <=? _)%nat; discriminate H.
Qed.

Lemma X15_chat_and_core_witness :
  let mk t := {| type := t; value := "v"; start := 0; end_ := 1;
                 confidence := 0.85; hipaa_identifier := "h" |} in
  let l := [mk "NAME"; mk "Personal Health Number (PHN)"] in
  ChatBot._assess_risk_level l = "CRITICAL" /\ _calculate_risk l = "HIGH".
Proof.
  intros mk l.
  assert (H : _calculate_risk l = "HIGH") by reflexivity.
  split; [|exact H].
  apply (proj2 (proj2 (X15_chat_and_core l))); [|exact H].
  intros x Hx. unfold l in Hx. cbn [In] in Hx.
  destruct Hx as [<-|[<-|[]]]; cbn; tauto.
Defined.

(** ** When the result of [analyze] is a set of detections *)

Lemma grammar_valid (s : string) (G : list Detection) :
  Patterns.detect_all (PyStr s) = Ok G -> Forall (valid_in s) G.
Proof.
  intros HG. destruct (detect_all_inv _ _ HG) as (rs & Hrs & ->).
  destruct (detectors_results s rs Hrs) as (_ & _ & Hspans).
  apply Forall_forall. intros x Hx.
  eapply Permutation_in in Hx; [|apply sort_by_start_perm].
  apply unique_incl in Hx. apply in_concat in Hx.
  destruct Hx as (r & Hr & Hx).
  rewrite Forall_forall in Hspans. specialize (Hspans r Hr).
  rewrite Forall_forall in Hspans. now destruct (Hspans x Hx).
Qed.

(** X16.  If no two grammar detections of a text intersect, and the spans
    the recognizer reports are not empty, lie inside the text and do not
    intersect one another, then the detections of [analyze] have non-empty
    spans inside the text, no two of them intersect, and the redacted text
    is the text with each of them, from left to right, replaced by its
    placeholder. *)
Theorem X16_analyze_detection_set
    (self : PHIDetector.t) (s : string) (G N : list Detection)
    (r : AnalysisResult) :
  Patterns.detect_all (PyStr s) = Ok G ->
  NERDetector.detect_entities (ner_detector self) (PyStr s) = Ok N ->
  pairwise_disjoint G -> pairwise_disjoint N -> Forall (valid_in s) N ->
  analyze self (PyStr s) = Ok r ->
  Forall (valid_in s) (detections r)
  /\ pairwise_disjoint (detections r)
  /\ redacted_text r = stitch s 0 (detections r).
Proof.
  intros HG HN HdG HdN HvN H.
  unfold analyze in H. rewrite HG in H. cbn [bind] in H.
  rewrite HN in H. cbn [bind] in H. injection H as <-.
  cbn [detections redacted_text py_str].
  assert (Hv : Forall (valid_in s) (_merge_detections G N)).
  { rewrite merge_unfold.
    eapply Permutation_Forall; [symmetry; apply sort_by_start_perm|].
    apply Forall_app. split; [now apply grammar_valid|].
    apply Forall_forall. intros e He. apply retained_spec in He.
    rewrite Forall_forall in HvN. now apply HvN. }
  assert (Hd : pairwise_disjoint (_merge_detections G N)).
  { apply ordered_pairwise. rewrite merge_unfold.
    eapply ordered_pairs_perm; [symmetry; apply sort_by_start_perm|].
    apply ordered_pairs_app.
    - now apply pairwise_disjoint_ordered.
    - apply ordered_pairs_filter. now apply pairwise_disjoint_ordered.
    - intros g e Hg He. apply retained_spec in He. destruct He as [_ He].
      specialize (He g Hg). unfold disjoint. lia. }
  split; [exact Hv|]. split; [exact Hd|].
  rewrite (redact_stitch s _ Hv Hd). f_equal.
  apply sort_sorted. rewrite merge_unfold. apply sort_by_start_sorted.
Qed.

Lemma X16_analyze_detection_set_witness :
  let self := scripted
    [ {| NERDetector.label_ := "PERSON"; NERDetector.text := "John";
         NERDetector.start_char := 5; NERDetector.end_char := 9 |};
      {| NERDetector.label_ := "DATE"; NERDetector.text := "555-1234";
         NERDetector.start_char := 17; NERDetector.end_char := 25 |} ] in
  exists r,
    analyze self (PyStr "Call John at 604-555-1234") = Ok r
    /\ pairwise_disjoint (detections r)
    /\ redacted_text r = "Call [NAME] at [PHONE_NUMBER]".
Proof.
  intros self. eexists. split; [vm_compute; reflexivity|].
  edestruct (X16_analyze_detection_set self "Call John at 604-555-1234")
    as (_ & Hd & Hr).
  - vm_compute. reflexivity.
  - vm_compute. reflexivity.
  - apply ordered_pairwise. repeat constructor.
  - apply ordered_pairwise. repeat constructor. unfold disjoint. simpl. lia.
  - repeat constructor; vm_compute; congruence.
  - vm_compute. reflexivity.
  - split; [exact Hd|]. rewrite Hr. reflexivity.
Defined.

(** ** Texts the grammar matcher has nothing to say about *)

Lemma must_have_char (P : ascii -> Prop) (r : regex) :
  must_have P r ->
  forall w, lang r w -> exists c, In c (list_ascii_of_string w) /\ P c.
Proof.
  induction r as [|p|r1 IH1 r2 IH2|r1 IH1 r2 IH2|p|];
    cbn [must_have lang]; intros HP w H; try contradiction.
  - destruct H as (c & -> & Hc). exists c. split; [now left | now apply HP].
  - destruct H as (u & v & -> & Hu & Hv). rewrite chars_append.
    destruct HP as [HP|HP].
    + destruct (IH1 HP u Hu) as (c & Hc & HPc). exists c.
      split; [apply in_or_app; now left | exact HPc].
    + destruct (IH2 HP v Hv) as (c & Hc & HPc). exists c.
      split; [apply in_or_app; now right | exact HPc].
  - destruct HP as [HP1 HP2]. destruct H as [H|H]; eauto.
Qed.

Lemma at_sign (c : ascii) : Ascii.eqb "@" c = true -> digit_or_at c.
Proof.
  intros H. apply Ascii.eqb_eq in H. now right.
Qed.

Lemma a_digit (c : ascii) : is_digit c = true -> digit_or_at c.
Proof. intros H. now left. Qed.

(** Every match of each of the eight patterns holds a digit or an at
    sign. *)
Lemma patterns_need_digit_or_at (r : regex) :
  In r [sin_pattern; phn_pattern; phone_pattern; email_pattern;
        credit_card_pattern; postal_code_pattern; ip_pattern; date_pattern] ->
  must_have digit_or_at r.
Proof.
  cbn [In]. intros H.
  repeat (destruct H as [<-|H]); try contradiction.
  - unfold sin_pattern, digit. cbn [Seq Rep must_have].
    right. left. left. exact a_digit.
  - unfold phn_pattern, digit. cbn [Seq Rep must_have].
    right. left. left. exact a_digit.
  - unfold phone_pattern, digit, lit. cbn [Seq Rep must_have].
    left. repeat split; right; left; left; exact a_digit.
  - unfold email_pattern, lit. cbn [Seq must_have].
    right. right. right. left. exact at_sign.
  - unfold credit_card_pattern, digit. cbn [Seq Rep must_have].
    right. left. left. exact a_digit.
  - unfold postal_code_pattern, digit. cbn [Seq must_have].
    right. right. left. exact a_digit.
  - unfold ip_pattern, digit. cbn [Seq Rep UpTo must_have].
    right. left. left. left. left. exact a_digit.
  - unfold date_pattern, digit. cbn [Seq Rep UpTo must_have].
    right. left. split; left; left; exact a_digit.
Qed.

Lemma finditer_nothing (s : string) (r : regex) :
  must_have digit_or_at r ->
  (forall c, In c (list_ascii_of_string s) -> ~ digit_or_at c) ->
  finditer r (PyStr s) = Ok [].
Proof.
  intros Hr Hs.
  destruct (finditer r (PyStr s)) as [ms|e] eqn:Hms; [|discriminate Hms].
  destruct ms as [|m ms]; [reflexivity|]. exfalso.
  pose proof (finditer_lang _ _ _ Hms) as Hlang.
  inversion Hlang as [|? ? (Hl & i & n & Hg) _]; subst.
  destruct (must_have_char _ _ Hr _ Hl) as (c & Hc & HP).
  apply (Hs c); [|exact HP]. rewrite Hg in Hc.
  now apply chars_take, chars_drop in Hc.
Qed.

(** X17.  A text with no digit and no at sign gives the grammar matcher
    nothing to report: [detect_all] returns the empty list, and when the
    recognizer reports no entity either, [analyze] returns no finding, risk
    LOW and the text unchanged. *)
Theorem X17_nothing_to_detect (s : string) :
  (forall c, In c (list_ascii_of_string s) ->
             is_digit c = false /\ c <> "@"%char) ->
  Patterns.detect_all (PyStr s) = Ok []
  /\ (forall self,
        NERDetector.detect_entities (ner_detector self) (PyStr s) = Ok [] ->
        analyze self (PyStr s)
        = Ok {| has_phi := false; risk_level := "LOW";
                detections := []; redacted_text := s |}).
Proof.
  intros Hs.
  assert (Hnone : forall c, In c (list_ascii_of_string s) -> ~ digit_or_at c).
  { intros c Hc [Hd|Ha]; destruct (Hs c Hc) as [H1 H2]; congruence. }
  assert (Hfind : forall r,
            In r [sin_pattern; phn_pattern; phone_pattern; email_pattern;
                  credit_card_pattern; postal_code_pattern; ip_pattern;
                  date_pattern] ->
            finditer r (PyStr s) = Ok []).
  { intros r Hr. apply finditer_nothing; [|exact Hnone].
    now apply patterns_need_digit_or_at. }
  assert (HG : Patterns.detect_all (PyStr s) = Ok []).
  { unfold Patterns.detect_all, Patterns.detect_sin, Patterns.detect_phn,
      Patterns.detect_phone, Patterns.detect_email,
      Patterns.detect_credit_card, Patterns.detect_postal_code,
      Patterns.detect_ip, Patterns.detect_date.
    rewrite !Hfind by (cbn [In]; tauto). reflexivity. }
  split; [exact HG|].
  intros self HN. unfold analyze. rewrite HG. cbn [bind].
  rewrite HN. reflexivity.
Qed.

Lemma X17_nothing_to_detect_witness :
  analyze quiet (PyStr "No numbers here")
  = Ok {| has_phi := false; risk_level := "LOW";
          detections := []; redacted_text := "No numbers here" |}.
Proof.
  assert (H : forall c, In c (list_ascii_of_string "No numbers here") ->
                        is_digit c = false /\ c <> "@"%char).
  { intros c Hc. cbn in Hc.
    repeat (destruct Hc as [<-|Hc]; [split; [reflexivity | discriminate]|]).
    contradiction. }
  apply (proj2 (X17_nothing_to_detect "No numbers here" H)). reflexivity.
Defined.

(** ** A run of ten digits is always rated HIGH *)

Lemma phn_run_found (s : string) (i : nat) :
  ten_digit_run s i = true ->
  exists found,
    Patterns.detect_phn (PyStr s) = Ok found
    /\ In (phn_detection s i (phn_confidence s i)) found.
Proof.
  intros Hrun. eexists. split; [apply detect_phn_unfold|].
  apply in_map_iff. exists (i, i + 10)%nat. split; [apply phn_of_run|].
  assert (Hm : match_at phn_pattern s i = Some (i + 10)%nat)
    by (rewrite match_phn, Hrun; reflexivity).
  unfold ten_digit_run in Hrun.
  apply andb_true_iff in Hrun. destruct Hrun as [Hrun _].
  apply andb_true_iff in Hrun. destruct Hrun as [Hb Hd].
  apply scan_complete; [exact Hm | | | lia].
  - intros j e' Hj Hj'. apply match_phn_inv in Hj'. destruct Hj' as [Hr ->].
    destruct (Nat.le_gt_cases (j + 10) i) as [Hle|Hgt]; [exact Hle|].
    unfold ten_digit_run in Hr.
    apply andb_true_iff in Hr. destruct Hr as [Hr _].
    apply andb_true_iff in Hr. destruct Hr as [_ Hdj].
    rewrite (no_boundary_inside s 10 j i Hdj Hj Hgt) in Hb. discriminate.
  - destruct (all_at_nth _ _ _ _ 0%nat Hd) as (c & Hc & _); [lia|].
    rewrite Nat.add_0_r in Hc. apply char_at_length in Hc. lia.
Qed.

Lemma Forall2_found {A B} (P : A -> B -> Prop) (l : list A) (l' : list B)
    (a : A) :
  Forall2 P l l' -> In a l -> exists b, In b l' /\ P a b.
Proof.
  induction 1 as [|x y l l' Hxy _ IH]; intros Hin; [contradiction|].
  destruct Hin as [->|Hin].
  - exists y. split; [now left | exact Hxy].
  - destruct (IH Hin) as (b & Hb & HP). exists b. split; [now right|exact HP].
Qed.

(** What a detector finds in a text, [detect_all] reports. *)
Lemma detector_in_all (s : string) (T : string)
    (f : pyobj -> result (list Detection)) (found G : list Detection)
    (x : Detection) :
  In (T, f) detectors -> f (PyStr s) = Ok found -> In x found ->
  Patterns.detect_all (PyStr s) = Ok G -> In x G.
Proof.
  intros Hd Hf Hx HG.
  destruct (detect_all_inv _ _ HG) as (rs & Hrs & ->).
  destruct (detectors_results s rs Hrs) as (Ht & Hs & _).
  rewrite unique_id.
  - eapply Permutation_in; [symmetry; apply sort_by_start_perm|].
    destruct (Forall2_found _ _ _ _ Hrs Hd) as (r & Hr & Hfr).
    cbn [snd] in Hfr. rewrite Hf in Hfr. injection Hfr as <-.
    apply in_concat. eauto.
  - exact (concat_keys _ _ Ht Hs detectors_types).
  - intros y _ [].
Qed.

(** X18.  A text with a word-bounded run of ten digits is rated HIGH:
    whenever [analyze] returns, whatever the recognizer reports, the run is
    among the detections as a health plan number and the risk level is
    HIGH. *)
Theorem X18_ten_digits_rated_high
    (self : PHIDetector.t) (s : string) (i : nat) (r : AnalysisResult) :
  ten_digit_run s i = true ->
  analyze self (PyStr s) = Ok r ->
  In (phn_detection s i (phn_confidence s i)) (detections r)
  /\ has_phi r = true /\ risk_level r = "HIGH".
Proof.
  intros Hrun H. unfold analyze in H. bind_inv H. bind_inv H.
  injection H as <-. cbn [detections has_phi risk_level].
  destruct (phn_run_found s i Hrun) as (found & Hfound & Hin).
  assert (HG : In (phn_detection s i (phn_confidence s i)) v).
  { eapply (detector_in_all s _ Patterns.detect_phn); try eassumption.
    unfold detectors. cbn [In]. tauto. }
  rewrite merge_unfold.
  assert (Hm : In (phn_detection s i (phn_confidence s i))
                 (sort_by_start (v ++ retained v v0))).
  { eapply Permutation_in; [symmetry; apply sort_by_start_perm|].
    apply in_or_app. now left. }
  split; [exact Hm|].
  assert (Hany : any_high_risk (sort_by_start (v ++ retained v v0)) = true).
  { rewrite any_high_risk_existsb. apply existsb_exists.
    eexists. split; [exact Hm | reflexivity]. }
  unfold _calculate_risk. rewrite Hany.
  destruct (sort_by_start (v ++ retained v v0)); [contradiction|].
  split; reflexivity.
Qed.

Lemma X18_ten_digits_rated_high_witness :
  let s := "ref 1234567890" in
  exists r, analyze quiet (PyStr s) = Ok r
            /\ In (phn_detection s 4 0.5) (detections r)
            /\ risk_level r = "HIGH".
Proof.
  intros s. eexists. split; [vm_compute; reflexivity|].
  edestruct (X18_ten_digits_rated_high quiet s 4) as (Hin & _ & Hr).
  - reflexivity.
  - vm_compute. reflexivity.
  - split; [exact Hin | exact Hr].
Defined.

(** ** The lines of the prompt *)

Lemma split_line (sep : ascii) (line rest : string) :
  ~ In sep (list_ascii_of_string line) ->
  split sep (line ++ String sep rest) = line :: split sep rest.
Proof.
  induction line as [|c line IH]; cbn [append split list_ascii_of_string];
    intros H.
  - now rewrite Ascii.eqb_refl.
  - destruct (Ascii.eqb_spec c sep) as [->|Hne]; [exfalso; apply H; now left|].
    rewrite IH; [reflexivity|]. intros Hin. apply H. now right.
Qed.

Lemma split_last (sep : ascii) (line : string) :
  ~ In sep (list_ascii_of_string line) -> split sep line = [line].
Proof.
  induction line as [|c line IH]; cbn [split list_ascii_of_string];
    intros H; [reflexivity|].
  destruct (Ascii.eqb_spec c sep) as [->|Hne]; [exfalso; apply H; now left|].
  rewrite IH; [reflexivity|]. intros Hin. apply H. now right.
Qed.

Lemma split_join (sep : ascii) (lines : list string) :
  lines <> [] ->
  Forall (fun line => ~ In sep (list_ascii_of_string line)) lines ->
  split sep (join (String sep "") lines) = lines.
Proof.
  intros Hne H. induction H as [|line lines Hl Hrest IH]; [congruence|].
  destruct lines as [|line' lines].
  - cbn [join]. now apply split_last.
  - cbn [join] in *. cbn [append].
    rewrite split_line by exact Hl. f_equal. apply IH. discriminate.
Qed.

Lemma line_chars (x : Detection) (c : ascii) :
  In c (list_ascii_of_string (ChatBotPrompt.prompt_line x)) ->
  c = "-"%char \/ c = " "%char \/ c = ":"%char
  \/ In c (list_ascii_of_string (type x))
  \/ In c (list_ascii_of_string (value x)).
Proof.
  unfold ChatBotPrompt.prompt_line. rewrite !chars_append. cbn [list_ascii_of_string].
  intros H. repeat (apply in_app_or in H; destruct H as [H|H]);
    cbn [In] in H; intuition.
Qed.

(** X19.  [_format_detections_for_prompt] answers [No PII detected] for no
    detection; otherwise, when no type and no value holds a line break, its
    answer splits at the line breaks into one line for each detection, in
    their order, each a dash, the type, a colon and the value. *)
Theorem X19_prompt_lines (l : list Detection) :
  ChatBotPrompt._format_detections_for_prompt [] = "No PII detected"
  /\ (l <> [] ->
      Forall (fun x => ~ In newline (list_ascii_of_string (type x))
                       /\ ~ In newline (list_ascii_of_string (value x))) l ->
      split newline (ChatBotPrompt._format_detections_for_prompt l)
      = map (fun x => "- " ++ type x ++ ": " ++ value x) l).
Proof.
  split; [reflexivity|]. intros Hne Hl.
  unfold ChatBotPrompt._format_detections_for_prompt.
  destruct l as [|x l]; [congruence|].
  rewrite split_join.
  - reflexivity.
  - discriminate.
  - apply Forall_map. eapply Forall_impl; [|exact Hl].
    intros y [Ht Hv] Hin. apply line_chars in Hin.
    destruct Hin as [H|[H|[H|[H|H]]]]; try (now apply Ht);
      try (now apply Hv); vm_compute in H; discriminate.
Qed.

Lemma X19_prompt_lines_witness :
  let l := [ {| type := "Email Address"; value := "a@b.ca"; start := 0;
                end_ := 6; confidence := 0.95;
                hipaa_identifier := "Email address" |};
             {| type := "Date"; value := "2024-01-15"; start := 10;
                end_ := 20; confidence := 0.7;
                hipaa_identifier := "Date element" |} ] in
  split newline (ChatBotPrompt._format_detections_for_prompt l)
  = ["- Email Address: a@b.ca"; "- Date: 2024-01-15"].
Proof.
  intros l. rewrite (proj2 (X19_prompt_lines l)).
  - reflexivity.
  - discriminate.
  - repeat constructor; cbn; intros H;
      repeat (destruct H as [H|H]; [vm_compute in H; discriminate|]);
      contradiction.
Defined.

(** ** The steps of a reasoning chain *)

Lemma add_steps_unfold (args : list (string * list string * string)) :
  forall chain,
    let chain' := add_steps chain args in
    ReasoningChain.steps chain'
    = (ReasoningChain.steps chain
       ++ number_from (List.length (ReasoningChain.steps chain)) args)%list
    /\ ReasoningChain.title chain' = ReasoningChain.title chain
    /\ ReasoningChain.final_conclusion chain'
       = ReasoningChain.final_conclusion chain
    /\ ReasoningChain.confidence chain' = ReasoningChain.confidence chain.
Proof.
  unfold add_steps.
  induction args as [|[[d f] k] args IH]; intros chain;
    cbn [fold_left fst snd].
  - cbn [number_from]. rewrite app_nil_r. auto.
  - destruct (IH (ReasoningChain.add_step chain d f k)) as (Hs & Ht & Hc & Hq).
    cbv zeta in *. rewrite Hs, Ht, Hc, Hq.
    unfold ReasoningChain.add_step.
    cbn [ReasoningChain.steps ReasoningChain.title
         ReasoningChain.final_conclusion ReasoningChain.confidence].
    rewrite length_app, <- app_assoc. cbn [List.length List.app number_from].
    rewrite Nat.add_1_r. auto.
Qed.

Lemma number_from_nums (args : list (string * list string * string)) :
  forall k,
    map ReasoningChain.step_num (number_from k args)
    = map Z.of_nat (seq (S k) (List.length args))
    /\ map (fun st => (ReasoningChain.description st,
                       ReasoningChain.findings st,
                       ReasoningChain.conclusion st)) (number_from k args)
       = args.
Proof.
  induction args as [|[[d f] c] args IH]; intros k;
    cbn [number_from map List.length seq]; [auto|].
  destruct (IH (S k)) as [H1 H2]. rewrite H1, H2.
  cbn [ReasoningChain.step_num ReasoningChain.description
       ReasoningChain.findings ReasoningChain.conclusion].
  split; [|reflexivity]. f_equal. lia.
Qed.

(** X20.  A chain built from a fresh one by [add_step] alone has its steps
    numbered 1, 2, 3 and so on in the order they were added, each with the
    description, findings and conclusion it was given; the title stays and
    no conclusion is set.  [set_conclusion] changes neither the steps nor
    the title. *)
Theorem X20_steps_numbered (title : string)
    (args : list (string * list string * string)) :
  let chain := add_steps (ReasoningChain.__init__ title) args in
  map ReasoningChain.step_num (ReasoningChain.steps chain)
  = map Z.of_nat (seq 1 (List.length args))
  /\ map (fun st => (ReasoningChain.description st,
                     ReasoningChain.findings st,
                     ReasoningChain.conclusion st))
       (ReasoningChain.steps chain) = args
  /\ ReasoningChain.title chain = title
  /\ ReasoningChain.final_conclusion chain = None
  /\ (forall c q,
        ReasoningChain.steps (ReasoningChain.set_conclusion chain c q)
        = ReasoningChain.steps chain
        /\ ReasoningChain.title (ReasoningChain.set_conclusion chain c q)
           = title
        /\ ReasoningChain.final_conclusion
             (ReasoningChain.set_conclusion chain c q) = Some c).
Proof.
  intros chain.
  destruct (add_steps_unfold args (ReasoningChain.__init__ title))
    as (Hs & Ht & Hc & _).
  fold chain in Hs, Ht, Hc. cbn [ReasoningChain.__init__ ReasoningChain.steps
    ReasoningChain.title ReasoningChain.final_conclusion List.length List.app]
    in Hs, Ht, Hc.
  destruct (number_from_nums args 0) as [H1 H2].
  rewrite Hs. split; [exact H1|]. split; [exact H2|].
  split; [exact Ht|]. split; [exact Hc|].
  intros c q. unfold ReasoningChain.set_conclusion.
  cbn [ReasoningChain.steps ReasoningChain.title
       ReasoningChain.final_conclusion].
  rewrite Hs. auto.
Qed.
